(** * KingdomExp travel-request bot: a model of the conversation state machine

    The bot (handlers/travel_handlers.py, keyboards/travel_keyboards.py,
    states/travel_form.py) walks one chat user through a travel questionnaire,
    appends the finished request to a CSV log and to a JSON queue that the
    administrators review.

    The development follows the Python source function by function:
    - Python [str] values are sequences of Unicode code points;
    - the per-user FSM data dict is a finite map from keys to dynamically
      typed values;
    - handlers are computations in a state-and-exception monad over a
      [world] holding the FSM storage, the three files and the messages
      sent to Telegram;
    - the clock, the UUID generator, the Unicode character database and the
      translation table of [locales.get_text] are inputs. *)

From Stdlib Require Import ZArith NArith List String Ascii Bool Lia.
From Stdlib Require DecimalPos DecimalN.
From stdpp Require Import gmap list.
Import ListNotations.

Local Open Scope Z_scope.
Set Warnings "-register-all".

(** ** Text *)

(** A Python [str]: the list of its code points. *)
Abbreviation str := (list N).

(** Source literals are written as UTF-8 strings and decoded to code points,
    so that ["Мекка"] has length 5 as it has in Python. *)
Fixpoint utf8_decode (bytes : list N) (need : nat) (acc : N) : str :=
  match bytes with
  | [] => []
  | b :: rest =>
      match need with
      | S k =>
          let acc' := (acc * 64 + b mod 64)%N in
          match k with
          | O => acc' :: utf8_decode rest O 0%N
          | S _ => utf8_decode rest k acc'
          end
      | O =>
          if (b <? 128)%N then b :: utf8_decode rest O 0%N
          else if (b <? 224)%N then utf8_decode rest 1%nat (b mod 32)%N
          else if (b <? 240)%N then utf8_decode rest 2%nat (b mod 16)%N
          else utf8_decode rest 3%nat (b mod 8)%N
      end
  end.

Definition lit (s : string) : str :=
  utf8_decode (map N_of_ascii (list_ascii_of_string s)) O 0%N.

(** [s.startswith(p)] *)
Fixpoint startswith (p s : str) : bool :=
  match p, s with
  | [], _ => true
  | _ :: _, [] => false
  | a :: p', b :: s' => (a =? b)%N && startswith p' s'
  end.

(** [s.replace(old, "")] for a non-empty [old]: every occurrence, scanning
    from the left, occurrences not overlapping. [skip] counts the characters
    of the current occurrence still to be dropped. *)
Fixpoint remove_all_from (old : str) (skip : nat) (s : str) : str :=
  match s with
  | [] => []
  | c :: rest =>
      match skip with
      | S k => remove_all_from old k rest
      | O =>
          if startswith old s
          then remove_all_from old (Nat.pred (length old)) rest
          else c :: remove_all_from old O rest
      end
  end.

Definition remove_all (old s : str) : str := remove_all_from old O s.

(** [s.replace(old, "", 1)]: the first occurrence only. *)
Fixpoint remove_first (old s : str) : str :=
  match s with
  | [] => []
  | c :: rest =>
      if startswith old s then skipn (length old) s
      else c :: remove_first old rest
  end.

(** [s.split(sep)] for a one-character separator. *)
Fixpoint split_on (sep : N) (s : str) : list str :=
  match s with
  | [] => [[]]
  | c :: rest =>
      if (c =? sep)%N then [] :: split_on sep rest
      else match split_on sep rest with
           | piece :: pieces => (c :: piece) :: pieces
           | [] => [[c]]
           end
  end.

(** [sep.join(parts)] *)
Fixpoint join (sep : str) (parts : list str) : str :=
  match parts with
  | [] => []
  | [p] => p
  | p :: rest => p ++ sep ++ join sep rest
  end.

(** [needle in hay] on two strings. *)
Fixpoint is_substring (needle hay : str) : bool :=
  startswith needle hay ||
  match hay with
  | [] => false
  | _ :: rest => is_substring needle rest
  end.

(** [str(n)] for an integer. *)
Fixpoint uint_digits (u : Decimal.uint) : str :=
  match u with
  | Decimal.Nil => []
  | Decimal.D0 r => 48%N :: uint_digits r
  | Decimal.D1 r => 49%N :: uint_digits r
  | Decimal.D2 r => 50%N :: uint_digits r
  | Decimal.D3 r => 51%N :: uint_digits r
  | Decimal.D4 r => 52%N :: uint_digits r
  | Decimal.D5 r => 53%N :: uint_digits r
  | Decimal.D6 r => 54%N :: uint_digits r
  | Decimal.D7 r => 55%N :: uint_digits r
  | Decimal.D8 r => 56%N :: uint_digits r
  | Decimal.D9 r => 57%N :: uint_digits r
  end.

Definition str_of_N (n : N) : str := uint_digits (N.to_uint n).

Definition str_of_Z (z : Z) : str :=
  match z with
  | Zneg p => 45%N :: str_of_N (Npos p)
  | _ => str_of_N (Z.to_N z)
  end.

(** [f"{n:02d}"]: zero padding to width two, the sign counted in the width. *)
Definition fmt_02d (z : Z) : str :=
  let s := str_of_Z z in
  match z with
  | Zneg _ => s
  | _ => if (length s <? 2)%nat then 48%N :: s else s
  end.

(** *** The Unicode character database

    [\d], [str.strip] and [int] consult the character database of the Python
    runtime, which differs between Python releases. It is an input of the
    model: [to_decimal c] is the decimal value of a code point of category Nd
    ([Py_UNICODE_TODECIMAL]) and [is_space] is [str.isspace] on one
    character. [ascii_decimal] and [ascii_space] are their restrictions to
    ASCII. *)
Definition ascii_decimal (c : N) : option N :=
  if ((48 <=? c) && (c <=? 57))%N then Some (c - 48)%N else None.

Definition ascii_space (c : N) : bool :=
  ((9 <=? c) && (c <=? 13) || (28 <=? c) && (c <=? 32))%N.

Section Bot.

Variable to_decimal : N -> option N.
Variable is_space : N -> bool.

(** [\d] on one character *)
Definition is_decimal (c : N) : bool :=
  match to_decimal c with Some _ => true | None => false end.

Fixpoint lstrip (s : str) : str :=
  match s with
  | [] => []
  | c :: rest => if is_space c then lstrip rest else s
  end.

Definition rstrip (s : str) : str := rev (lstrip (rev s)).

(** [s.strip()] *)
Definition strip (s : str) : str := rstrip (lstrip s).

(** *** [int(s)] on a string

    CPython first maps the string to ASCII: characters below 127 stay,
    other white space becomes a blank, other decimal digits become their
    ASCII digit, anything else ends the number. The ASCII parser then skips
    C white space on both sides, reads a sign, and reads digits in which
    single underscores may stand between two digits. [None] is
    [ValueError]. (The limit of 4300 digits of recent releases is out of
    reach: a Telegram text has at most 4096 characters, a callback payload
    64 bytes.) *)
Definition int_space (c : N) : bool :=
  if (c <? 127)%N then ((9 <=? c) && (c <=? 13) || (c =? 32))%N
  else is_space c.

Definition int_digit (c : N) : option N :=
  if (c <? 127)%N then ascii_decimal c else to_decimal c.

Fixpoint int_lskip (s : str) : str :=
  match s with
  | [] => []
  | c :: rest => if int_space c then int_lskip rest else s
  end.

Fixpoint int_digits (s : str) (after_underscore : bool) (acc : N) : option N :=
  match s with
  | [] => if after_underscore then None else Some acc
  | c :: rest =>
      if (c =? 95)%N then
        if after_underscore then None else int_digits rest true acc
      else
        match int_digit c with
        | Some d => int_digits rest false (10 * acc + d)%N
        | None => None
        end
  end.

Definition int_unsigned (s : str) : option N :=
  match s with
  | [] => None
  | c :: _ => if (c =? 95)%N then None else int_digits s false 0%N
  end.

Definition py_int (s : str) : option Z :=
  let body := rev (int_lskip (rev (int_lskip s))) in
  match body with
  | 43%N :: digits => Z.of_N <$> int_unsigned digits
  | 45%N :: digits => (fun n => - Z.of_N n) <$> int_unsigned digits
  | _ => Z.of_N <$> int_unsigned body
  end.

(** ** Phone numbers *)

(** [format_phone_number(phone)]; [None] is Python's [None]. *)
Definition format_phone_number (phone : option str) : str :=
  match phone with
  | None => []
  | Some [] => []
  | Some p =>
      let digits := List.filter is_decimal p in
      match digits with
      | [] => []
      | _ => 43%N :: digits
      end
  end.

(** ** Dynamically typed values

    The values the handlers put into the FSM data dict: [None], booleans,
    integers, strings and lists of strings. *)
Inductive value :=
| VNone
| VBool (b : bool)
| VInt (z : Z)
| VStr (s : str)
| VList (l : list str).

#[global] Instance value_eq_dec : EqDecision value.
Proof. solve_decision. Defined.

(** [v == s] for a string [s] *)
Definition eq_str (v : value) (s : str) : bool :=
  match v with
  | VStr t => bool_decide (t = s)
  | _ => false
  end.

(** Truth value of [v] in a condition *)
Definition truthy (v : value) : bool :=
  match v with
  | VNone => false
  | VBool b => b
  | VInt z => negb (z =? 0)
  | VStr s => match s with [] => false | _ => true end
  | VList l => match l with [] => false | _ => true end
  end.

(** The exceptions the modelled code can raise. [ValidationError] is the
    one of pydantic, with which aiogram refuses the arguments of an API
    method that do not fit their declared types. *)
Inductive exn :=
| AttributeError
| TypeError
| ValueError
| IndexError
| OSError
| UnicodeDecodeError
| ValidationError.

Inductive res (A : Type) :=
| Ok (a : A)
| Raise (e : exn).
Arguments Ok {A} a.
Arguments Raise {A} e.

(** [len(v)] *)
Definition py_len (v : value) : res Z :=
  match v with
  | VStr s => Ok (Z.of_nat (length s))
  | VList l => Ok (Z.of_nat (length l))
  | _ => Raise TypeError
  end.

(** [c in v] for a string [c] *)
Definition py_in (c : str) (v : value) : res bool :=
  match v with
  | VStr s => Ok (is_substring c s)
  | VList l => Ok (bool_decide (c ∈ l))
  | _ => Raise TypeError
  end.

(** [l.remove(c)]: the first occurrence *)
Fixpoint remove_one (c : str) (l : list str) : option (list str) :=
  match l with
  | [] => None
  | x :: rest =>
      if bool_decide (x = c) then Some rest
      else cons x <$> remove_one c rest
  end.

Definition py_remove (c : str) (v : value) : res value :=
  match v with
  | VList l =>
      match remove_one c l with
      | Some l' => Ok (VList l')
      | None => Raise ValueError
      end
  | _ => Raise AttributeError
  end.

(** [l.append(c)] *)
Definition py_append (c : str) (v : value) : res value :=
  match v with
  | VList l => Ok (VList (l ++ [c]))
  | _ => Raise AttributeError
  end.

(** [a + b] *)
Definition py_add (a b : value) : res value :=
  match a, b with
  | VList l1, VList l2 => Ok (VList (l1 ++ l2))
  | VStr s1, VStr s2 => Ok (VStr (s1 ++ s2))
  | VInt x, VInt y => Ok (VInt (x + y))
  | VInt x, VBool y => Ok (VInt (x + Z.b2z y))
  | VBool x, VInt y => Ok (VInt (Z.b2z x + y))
  | VBool x, VBool y => Ok (VInt (Z.b2z x + Z.b2z y))
  | _, _ => Raise TypeError
  end.

(** [', '.join(v)] *)
Definition py_join (sep : str) (v : value) : res str :=
  match v with
  | VList l => Ok (join sep l)
  | VStr s => Ok (join sep (map (fun c => [c]) s))
  | _ => Raise TypeError
  end.

(** ** JSON documents and the files that hold them

    A float is kept by its Python [repr]. *)
Inductive json :=
| JNull
| JBool (b : bool)
| JInt (z : Z)
| JFloat (repr : str)
| JStr (s : str)
| JArr (items : list json)
| JObj (fields : list (str * json)).

(** A JSON object is loaded as a dict; the model keeps the insertion order. *)
Fixpoint obj_get (k : str) (o : list (str * json)) : option json :=
  match o with
  | [] => None
  | (k', v) :: rest => if bool_decide (k' = k) then Some v else obj_get k rest
  end.

(** [d[k] = v]: in place when the key is there, at the end otherwise *)
Fixpoint obj_set (k : str) (v : json) (o : list (str * json)) : list (str * json) :=
  match o with
  | [] => [(k, v)]
  | (k', v') :: rest =>
      if bool_decide (k' = k) then (k, v) :: rest
      else (k', v') :: obj_set k v rest
  end.

(** [j == s] for a string [s] *)
Definition json_eq_str (j : json) (s : str) : bool :=
  match j with
  | JStr t => bool_decide (t = s)
  | _ => false
  end.

(** Truth value of a loaded document in a condition: of the floats only
    zero, whose [repr] is [0.0] or [-0.0], is false. *)
Definition json_truthy (j : json) : bool :=
  match j with
  | JNull => false
  | JBool b => b
  | JInt z => negb (z =? 0)
  | JFloat repr => negb (bool_decide (repr = lit "0.0") || bool_decide (repr = lit "-0.0"))
  | JStr s => match s with [] => false | _ => true end
  | JArr items => match items with [] => false | _ => true end
  | JObj fields => match fields with [] => false | _ => true end
  end.

Definition to_json (v : value) : json :=
  match v with
  | VNone => JNull
  | VBool b => JBool b
  | VInt z => JInt z
  | VStr s => JStr s
  | VList l => JArr (map JStr l)
  end.

(** What opening a file and reading it as JSON gives: [open] fails
    ([OSError]), the bytes are not UTF-8 ([UnicodeDecodeError], which is a
    [ValueError] but not a [JSONDecodeError]), the text is not JSON
    ([JSONDecodeError]), or a document. *)
Inductive content :=
| Unreadable
| NotUtf8
| NotJson
| Document (j : json).

(** A path of the data directory: [None] when nothing is there
    ([os.path.exists] is false). *)
Abbreviation file := (option content).

(** ** The conversation *)

(** The steps of [TravelForm] (states/travel_form.py) *)
Inductive step :=
| phone | current_city | cities_to_visit | other_city
| days | other_days | people | other_people
| need_translator | translator_language | other_language
| start_date | review | lang_code | referral_source | other_referral.

#[global] Instance step_eq_dec : EqDecision step.
Proof. solve_decision. Defined.

(** A text shown to the user. Translations, templates and locale-dependent
    names are kept symbolic: [TGet lang key] is [get_text(lang, key)],
    [TFormat t kw] is [t.format] with the keyword arguments [kw], [TStrftime f y m d] is
    [datetime(y, m, d).strftime(f)], [TEscape t] is [html.escape(t)] and
    [TMention id name] is the HTML link to a user that
    [build_user_mention] builds. *)
Inductive text :=
| TLit (s : string)
| TStr (s : str)
| TVal (v : value)
| TGet (lang : value) (key : string)
| TCat (parts : list text)
| TFormat (template : text) (kwargs : list (string * text))
| TStrftime (fmt : string) (y m d : Z)
| TCapitalize (t : text)
| TEscape (t : text)
| TMention (user_id : value) (name : text).

(** An inline button: its caption and its callback payload *)
Record button := Button { caption : text; payload : str }.

(** Keyboards, buttons in the order they are added (the row layout set by
    [adjust] is not kept). *)
Inductive markup :=
| InlineKeyboard (buttons : list button)
| ContactKeyboard (caption : text)
| LocationKeyboard (caption : text)
| ReplyKeyboardRemove.

(** Calls to the Telegram API. They are taken to succeed, except the
    deletions, whose failures the code ignores. [RenderAdminPanel requests]
    is the overview that [render_admin_panel] writes into the panel message
    from the requests it is given, [ShowRequestDetails] the detail view of
    [admin_view_request]; their texts and buttons are not detailed. *)
Inductive action :=
| Answer (t : text) (kb : option markup)
| EditText (t : text) (kb : option markup)
| EditReplyMarkup (kb : markup)
| DeleteMessage (id : value)
| CallbackAnswer (t : option text) (show_alert : bool)
| SendMessage (chat_id : Z) (t : text)
| RenderAdminPanel (requests : list json)
| ShowRequestDetails (entry : json) (request_id : str).

(** An incoming message with its text, its contact card or its location,
    and a button press. Media and their captions are not modelled. A
    location carries the two coordinates as Python prints them. *)
Record message := Message {
  message_id : Z;
  msg_text : option str;
  msg_contact : option str;
  msg_location : option (str * str)
}.

Record callback := Callback {
  cb_user : Z;
  cb_message_id : Z;
  cb_data : str
}.

(** What a handler reads from its surroundings: [datetime.now()] as a
    calendar date and in ISO format, and the next [uuid4()]. *)
Record env := Env {
  today : Z * Z * Z;
  now_iso : str;
  fresh_uuid : str
}.

(** The state the handlers act on: the FSM storage of the user (aiogram
    keeps a state name and a data dict), data/users.csv as the rows handed
    to the csv writer, the two JSON files, the calls made to Telegram so
    far, and the identifier Telegram gives to the next message of the bot. *)
Record world := World {
  fsm_state : option step;
  fsm_data : gmap str value;
  users_csv : option (list (list value));
  pending_file : file;
  lang_file : file;
  sent : list action;
  next_message_id : Z
}.

Definition with_state (s : option step) (w : world) : world :=
  World s (fsm_data w) (users_csv w) (pending_file w) (lang_file w)
        (sent w) (next_message_id w).

Definition with_data (d : gmap str value) (w : world) : world :=
  World (fsm_state w) d (users_csv w) (pending_file w) (lang_file w)
        (sent w) (next_message_id w).

Definition with_csv (c : option (list (list value))) (w : world) : world :=
  World (fsm_state w) (fsm_data w) c (pending_file w) (lang_file w)
        (sent w) (next_message_id w).

Definition with_pending (f : file) (w : world) : world :=
  World (fsm_state w) (fsm_data w) (users_csv w) f (lang_file w)
        (sent w) (next_message_id w).

Definition with_sent (l : list action) (w : world) : world :=
  World (fsm_state w) (fsm_data w) (users_csv w) (pending_file w)
        (lang_file w) l (next_message_id w).

Definition with_next_id (n : Z) (w : world) : world :=
  World (fsm_state w) (fsm_data w) (users_csv w) (pending_file w)
        (lang_file w) (sent w) n.

(** *** Handlers as computations

    A computation runs from a world to a result or an exception, and the
    world it leaves; what was done before an exception stays done. *)
Definition M (A : Type) : Type := world -> res A * world.

Definition ret {A} (a : A) : M A := fun w => (Ok a, w).

Definition bind {A B} (m : M A) (k : A -> M B) : M B :=
  fun w =>
    match m w with
    | (Ok a, w') => k a w'
    | (Raise e, w') => (Raise e, w')
    end.

Definition raise {A} (e : exn) : M A := fun w => (Raise e, w).

Definition lift {A} (r : res A) : M A := fun w => (r, w).

(** [try: body except: handler] with a bare [except] *)
Definition try_except {A} (body : M A) (handler : M A) : M A :=
  fun w =>
    match body w with
    | (Ok a, w') => (Ok a, w')
    | (Raise _, w') => handler w'
    end.

Declare Scope bot_scope.
Delimit Scope bot_scope with bot.
Notation "'let*' x ':=' c1 'in' c2" := (bind c1 (fun x => c2))
  (at level 10, x name, c1 at level 100, c2 at level 200) : bot_scope.
Notation "'do' c1 'in' c2" := (bind c1 (fun _ => c2))
  (at level 10, c1 at level 100, c2 at level 200) : bot_scope.
Local Open Scope bot_scope.

(** [d.get(k, dflt)] and [d.get(k)] *)
Definition get_or (d : gmap str value) (k : string) (dflt : value) : value :=
  default dflt (d !! lit k).

Definition get (d : gmap str value) (k : string) : value := get_or d k VNone.

(** The [FSMContext] *)
Definition get_data : M (gmap str value) := fun w => (Ok (fsm_data w), w).

Definition update_data (kwargs : list (string * value)) : M unit :=
  fun w =>
    (Ok tt,
     with_data (fold_left (fun d kv => <[lit kv.1 := kv.2]> d) kwargs (fsm_data w)) w).

Definition set_state (s : step) : M unit :=
  fun w => (Ok tt, with_state (Some s) w).

Definition get_state : M (option step) := fun w => (Ok (fsm_state w), w).

(** [state.clear()]: no state and no data *)
Definition clear : M unit :=
  fun w => (Ok tt, with_data ∅ (with_state None w)).

(** Telegram *)
Definition send (a : action) : M unit :=
  fun w => (Ok tt, with_sent (sent w ++ [a]) w).

(** [message.edit_text(t, reply_markup=kb)]. aiogram builds the
    [EditMessageText] method first, whose [reply_markup] is declared an
    [InlineKeyboardMarkup]: a reply keyboard is refused there, before
    anything is sent. With an inline keyboard or none the call is
    [send (EditText t kb)], which is how the handlers that only pass those
    are written. *)
Definition edit_text (t : text) (kb : option markup) : M unit :=
  match kb with
  | None | Some (InlineKeyboard _) => send (EditText t kb)
  | Some _ => raise ValidationError
  end.

(** [message.answer(t, reply_markup=kb)]: the identifier of the new message *)
Definition answer (t : text) (kb : option markup) : M Z :=
  fun w =>
    (Ok (next_message_id w),
     with_next_id (next_message_id w + 1) (with_sent (sent w ++ [Answer t kb]) w)).

(** Sequencing of results outside the handlers *)
Definition and_then {A B} (r : res A) (k : A -> res B) : res B :=
  match r with
  | Ok a => k a
  | Raise e => Raise e
  end.

Fixpoint for_each {A B} (f : A -> res B) (l : list A) : res (list B) :=
  match l with
  | [] => Ok []
  | x :: rest =>
      and_then (f x) (fun y => and_then (for_each f rest) (fun ys => Ok (y :: ys)))
  end.

(** [for c in v] *)
Definition py_iter (v : value) : res (list str) :=
  match v with
  | VList l => Ok l
  | VStr s => Ok (map (fun c => [c]) s)
  | _ => Raise TypeError
  end.

(** ** Keyboards (keyboards/travel_keyboards.py) *)

Definition get_phone_keyboard (lang : value) : markup :=
  ContactKeyboard (TCat [TLit "📱 "; TGet lang "share_contact"]).

Definition get_city_keyboard (lang : value) : markup :=
  LocationKeyboard (TCat [TLit "📍 "; TGet lang "share_location"]).

(** The eight destinations offered as buttons *)
Definition known_cities : list string :=
  ["Мекка"; "Медина"; "Дубай"; "Стамбул"; "Шарм-эш-Шейх"; "Каир"; "Доха"; "Джидда"]%string.

Definition get_cities_keyboard (selected_cities other_cities lang : value) : res markup :=
  and_then
    (for_each
       (fun city =>
          and_then (py_in (lit city) selected_cities) (fun chosen =>
          Ok (Button (TCat [TLit (if chosen : bool then "✅ " else "⬜️ "); TGet lang city])
                     (lit "city_" ++ lit city))))
       known_cities)
    (fun known =>
  and_then (py_iter other_cities) (fun others =>
  Ok (InlineKeyboard
        (known
         ++ map (fun city => Button (TCat [TLit "✅ "; TStr city]) (lit "city_" ++ city)) others
         ++ [Button (TCat [TGet lang "other_emoji"; TLit " "; TGet lang "other_city"])
                    (lit "city_other");
             Button (TCat [TGet lang "done_emoji"; TLit " "; TGet lang "done"])
                    (lit "city_done")])))).

Definition get_days_keyboard (lang : value) : markup :=
  InlineKeyboard
    [Button (TLit "3") (lit "days_3");
     Button (TLit "5") (lit "days_5");
     Button (TLit "7") (lit "days_7");
     Button (TLit "10") (lit "days_10");
     Button (TCat [TGet lang "other_emoji"; TLit " "; TGet lang "other"]) (lit "days_other")].

Definition get_people_keyboard (lang : value) : markup :=
  InlineKeyboard
    [Button (TLit "1") (lit "people_1");
     Button (TLit "2") (lit "people_2");
     Button (TLit "3") (lit "people_3");
     Button (TLit "4+") (lit "people_4plus")].

Definition get_translator_keyboard (lang : value) : markup :=
  InlineKeyboard
    [Button (TCat [TLit "✅ "; TGet lang "yes"]) (lit "translator_yes");
     Button (TCat [TLit "❌ "; TGet lang "no"]) (lit "translator_no")].

Definition get_language_keyboard (lang : value) : markup :=
  InlineKeyboard
    [Button (TLit "🇷🇺 RU") (lit "lang_RU");
     Button (TLit "🇬🇧 EN") (lit "lang_EN");
     Button (TLit "🇫🇷 FR") (lit "lang_FR");
     Button (TLit "🇩🇪 DE") (lit "lang_DE");
     Button (TCat [TGet lang "other_emoji"; TLit " "; TGet lang "other"]) (lit "lang_other")].

Definition get_review_keyboard (lang : value) : markup :=
  InlineKeyboard
    [Button (TCat [TLit "✅ "; TGet lang "confirm"]) (lit "review_confirm");
     Button (TCat [TLit "✏️ "; TGet lang "edit"]) (lit "review_edit")].

Definition get_edit_keyboard (lang : value) : markup :=
  InlineKeyboard
    [Button (TCat [TGet lang "phone_emoji"; TLit " "; TGet lang "phone"]) (lit "edit_phone");
     Button (TCat [TGet lang "current_city_emoji"; TLit " "; TGet lang "current_city"])
            (lit "edit_current_city");
     Button (TCat [TGet lang "cities_to_visit_emoji"; TLit " "; TGet lang "cities_to_visit"])
            (lit "edit_cities");
     Button (TCat [TGet lang "days_emoji"; TLit " "; TGet lang "days"]) (lit "edit_days");
     Button (TCat [TGet lang "people_emoji"; TLit " "; TGet lang "people"]) (lit "edit_people");
     Button (TCat [TGet lang "translator_emoji"; TLit " "; TGet lang "translator_text"])
            (lit "edit_translator");
     Button (TCat [TGet lang "travel_dates_emoji"; TLit " "; TGet lang "travel_dates"])
            (lit "edit_dates")].

Definition get_date_confirmation_keyboard (date_str : str) (lang : value) : markup :=
  InlineKeyboard
    [Button (TGet lang "cal_confirm") (lit "cal_confirm_" ++ date_str);
     Button (TGet lang "cal_change") (lit "cal_change")].

Definition get_referral_keyboard (lang : value) : markup :=
  InlineKeyboard
    [Button (TGet lang "referral_instagram") (lit "ref_instagram");
     Button (TGet lang "referral_youtube") (lit "ref_youtube");
     Button (TGet lang "referral_facebook") (lit "ref_facebook");
     Button (TGet lang "referral_website") (lit "ref_website");
     Button (TGet lang "referral_google") (lit "ref_google");
     Button (TGet lang "referral_other") (lit "ref_other");
     Button (TGet lang "referral_skip") (lit "ref_skip")].

(** *** The calendar *)

(** [datetime.strptime(s, "%Y-%m-%d").date()] of the runtime; [None] when it
    raises. *)
Variable strptime_date : str -> option (Z * Z * Z).

Definition is_leap (y : Z) : bool :=
  (y mod 4 =? 0) && (negb (y mod 100 =? 0) || (y mod 400 =? 0)).

Definition days_in_month (y m : Z) : Z :=
  if m =? 2 then (if is_leap y then 29 else 28)
  else if (m =? 4) || (m =? 6) || (m =? 9) || (m =? 11) then 30
  else 31.

Definition days_before_year (y : Z) : Z :=
  let p := y - 1 in p * 365 + p / 4 - p / 100 + p / 400.

Definition days_before_month (y m : Z) : Z :=
  foldr Z.add 0 (map (days_in_month y) (seqZ 1 (m - 1))).

(** [date(y, m, d).toordinal()] and [.weekday()], Monday being 0 *)
Definition toordinal (y m d : Z) : Z :=
  days_before_year y + days_before_month y m + d.

Definition weekday (y m d : Z) : Z := (toordinal y m d + 6) mod 7.

(** [calendar.monthcalendar(y, m)] for a month of 1..12: the weeks of the
    month, Monday first, each of seven day numbers, 0 standing for the days
    of the neighbouring months. *)
Definition monthcalendar (y m : Z) : list (list Z) :=
  let offset := weekday y m 1 in
  let ndays := days_in_month y m in
  map (fun week =>
         map (fun col =>
                let cell := 7 * week + col in
                if (offset <=? cell) && (cell <? offset + ndays)
                then cell - offset + 1 else 0)
             (seqZ 0 7))
      (seqZ 0 ((offset + ndays + 6) / 7)).

(** [a < b] on dates *)
Definition date_ltb (a b : Z * Z * Z) : bool :=
  let '(y1, m1, d1) := a in
  let '(y2, m2, d2) := b in
  (y1 <? y2) || (y1 =? y2) && ((m1 <? m2) || (m1 =? m2) && (d1 <? d2)).

Definition date_eqb (a b : Z * Z * Z) : bool :=
  let '(y1, m1, d1) := a in
  let '(y2, m2, d2) := b in
  (y1 =? y2) && (m1 =? m2) && (d1 =? d2).

(** [f"{year}-{month:02d}-{day:02d}"] *)
Definition date_str (y m d : Z) : str :=
  str_of_Z y ++ lit "-" ++ fmt_02d m ++ lit "-" ++ fmt_02d d.

(** One cell of the day grid of [get_calendar_keyboard] *)
Definition day_button (now : Z * Z * Z) (selected_dt : option (Z * Z * Z))
    (y m d : Z) : button :=
  if d =? 0 then Button (TLit " ") (lit "cal_ignore")
  else
    let date_obj := (y, m, d) in
    let is_past := date_ltb date_obj now in
    let shown :=
      if match selected_dt with Some sel => date_eqb date_obj sel | None => false end
      then TCat [TLit "✅"; TVal (VInt d)]
      else if date_eqb date_obj now then TCat [TLit "📍"; TVal (VInt d)]
      else if is_past then TCat [TLit "·"; TVal (VInt d)]
      else TVal (VInt d) in
    if is_past then Button shown (lit "cal_ignore")
    else Button shown (lit "cal_day_" ++ date_str y m d).

(** The day grid, week after week *)
Definition day_grid (now : Z * Z * Z) (selected_dt : option (Z * Z * Z))
    (y m : Z) : list button :=
  concat (map (map (day_button now selected_dt y m)) (monthcalendar y m)).

(** [get_calendar_keyboard(year, month, selected_date, lang_code)], rendered
    when the clock shows [now]. [monthcalendar] refuses a month outside
    1..12 and [datetime(year, month, day)] a year outside 1..9999, both with
    a [ValueError]. *)
Definition get_calendar_keyboard (now : Z * Z * Z) (y m : Z)
    (selected_date lang : value) : res markup :=
  let weekdays :=
    map (fun d => Button (TStrftime "%a" 2023 11 d) (lit "cal_ignore")) (seqZ 1 7) in
  if negb ((1 <=? m) && (m <=? 12)) then Raise ValueError
  else
    let selected_dt :=
      match selected_date with
      | VStr (c :: s) => strptime_date (c :: s)
      | _ => None
      end in
    if negb ((1 <=? y) && (y <=? 9999)) then Raise ValueError
    else
      Ok (InlineKeyboard
            (weekdays
             ++ day_grid now selected_dt y m
             ++ [Button (TLit "◀️") (lit "cal_prev_" ++ str_of_Z y ++ lit "_" ++ str_of_Z m);
                 Button (TCat [TCapitalize (TStrftime "%B" y m 1); TLit " "; TVal (VInt y)])
                        (lit "cal_ignore");
                 Button (TLit "▶️") (lit "cal_next_" ++ str_of_Z y ++ lit "_" ++ str_of_Z m);
                 Button (TCat [TLit "🗓️ "; TGet lang "cal_skip"]) (lit "cal_skip")])).

(** ** Persistence (handlers/travel_handlers.py) *)

(** [config.ADMIN_CHAT_IDS] *)
Variable ADMIN_CHAT_IDS : list Z.

(** [locales.get_text(lang, key)], where the code stores its result *)
Variable get_text : string -> string -> str.

Definition REQUEST_PAYLOAD_KEYS : list string :=
  ["user_id"; "first_name"; "full_name"; "phone"; "current_city";
   "cities_to_visit"; "other_cities"; "days"; "people"; "need_translator";
   "translator_language"; "start_date"; "referral_source"; "lang_code"]%string.

Definition is_admin (user_id : Z) : bool :=
  negb (user_id =? 0) && bool_decide (user_id ∈ ADMIN_CHAT_IDS).

(** [extract_admin_payload(data)]: the payload keys present in [data], in
    the order of [REQUEST_PAYLOAD_KEYS] *)
Definition extract_admin_payload (data : gmap str value) : list (str * json) :=
  omap (fun key => (fun v => (lit key, to_json v)) <$> data !! lit key)
       REQUEST_PAYLOAD_KEYS.

(** [load_pending_requests()]: a missing file, an [OSError], a
    [JSONDecodeError] and a document that is not a list all give the empty
    list. *)
Definition load_pending_requests : M (list json) :=
  fun w =>
    match pending_file w with
    | None => (Ok [], w)
    | Some Unreadable => (Ok [], w)
    | Some NotUtf8 => (Raise UnicodeDecodeError, w)
    | Some NotJson => (Ok [], w)
    | Some (Document (JArr items)) => (Ok items, w)
    | Some (Document _) => (Ok [], w)
    end.

(** [save_pending_requests(requests)] rewrites the file; a path that cannot
    be opened for reading cannot be opened for writing either. *)
Definition save_pending_requests (requests : list json) : M unit :=
  fun w =>
    match pending_file w with
    | Some Unreadable => (Raise OSError, w)
    | _ => (Ok tt, with_pending (Some (Document (JArr requests))) w)
    end.

Definition add_pending_request (e : env) (payload : list (str * json)) : M json :=
  let entry :=
    JObj [(lit "id", JStr (fresh_uuid e));
          (lit "status", JStr (lit "new"));
          (lit "created_at", JStr (now_iso e));
          (lit "payload", JObj payload)] in
  let* requests := load_pending_requests in
  do save_pending_requests (entry :: requests) in
  ret entry.

(** [entry.get(k)]; an entry that is not a dict has no [get] *)
Definition entry_get (k : string) (entry : json) : res json :=
  match entry with
  | JObj o => Ok (default JNull (obj_get (lit k) o))
  | _ => Raise AttributeError
  end.

Fixpoint filter_status (status : str) (requests : list json) : res (list json) :=
  match requests with
  | [] => Ok []
  | req :: rest =>
      and_then (entry_get "status" req) (fun st =>
      and_then (filter_status status rest) (fun kept =>
      Ok (if json_eq_str st status then req :: kept else kept)))
  end.

(** [get_pending_requests(status)]; [status] defaults to ["new"], and an
    empty [status] does not filter *)
Definition get_pending_requests (status : str) : M (list json) :=
  let* requests := load_pending_requests in
  match status with
  | [] => ret requests
  | _ => lift (filter_status status requests)
  end.

Fixpoint find_request (request_id : str) (requests : list json) : res (option json) :=
  match requests with
  | [] => Ok None
  | entry :: rest =>
      and_then (entry_get "id" entry) (fun id =>
      if json_eq_str id request_id then Ok (Some entry)
      else find_request request_id rest)
  end.

Definition get_pending_request_by_id (request_id : str) : M (option json) :=
  let* requests := load_pending_requests in
  lift (find_request request_id requests).

(** The loop of [mark_request_processed]: the first entry with the
    identifier is stamped; [None] when the loop ends without a match. *)
Fixpoint mark_first (e : env) (request_id : str) (admin_id : Z)
    (requests : list json) : res (option (list json)) :=
  match requests with
  | [] => Ok None
  | JObj o :: rest =>
      if json_eq_str (default JNull (obj_get (lit "id") o)) request_id then
        Ok (Some (JObj (obj_set (lit "processed_at") (JStr (now_iso e))
                         (obj_set (lit "processed_by") (JInt admin_id)
                           (obj_set (lit "status") (JStr (lit "processed")) o)))
                  :: rest))
      else
        and_then (mark_first e request_id admin_id rest) (fun r =>
        Ok (cons (JObj o) <$> r))
  | _ :: _ => Raise AttributeError
  end.

Definition mark_request_processed (e : env) (request_id : str) (admin_id : Z) : M bool :=
  let* requests := load_pending_requests in
  let* marked := lift (mark_first e request_id admin_id requests) in
  match marked with
  | Some requests' => do save_pending_requests requests' in ret true
  | None => ret false
  end.

(** [get_user_language(user_id)]: [JNull] stands for [None]. Only a
    [JSONDecodeError] is caught, and [open] is outside the [try]. *)
Definition get_user_language (user_id : Z) : M json :=
  fun w =>
    match lang_file w with
    | None => (Ok JNull, w)
    | Some Unreadable => (Raise OSError, w)
    | Some NotUtf8 => (Raise UnicodeDecodeError, w)
    | Some NotJson => (Ok JNull, w)
    | Some (Document (JObj o)) => (Ok (default JNull (obj_get (str_of_Z user_id) o)), w)
    | Some (Document _) => (Raise AttributeError, w)
    end.

Definition csv_fieldnames : list string :=
  ["timestamp"; "full_name"; "phone"; "current_city"; "cities_to_visit";
   "days"; "people"; "need_translator"; "translator_language"; "start_date";
   "referral_source"]%string.

(** [save_to_csv(data)]: the header when the file is new, then one row. The
    row is built after the header is written, so a failing [join] leaves a
    new file with its header. *)
Definition save_to_csv (e : env) (data : gmap str value) : M unit :=
  fun w =>
    let rows :=
      match users_csv w with
      | Some rows => rows
      | None => [map (fun name => VStr (lit name)) csv_fieldnames]
      end in
    match py_join (lit ", ") (get_or data "cities_to_visit" (VList [])) with
    | Ok cities =>
        (Ok tt,
         with_csv
           (Some (rows ++
              [[VStr (now_iso e);
                get_or data "full_name" (VStr []);
                get_or data "phone" (VStr []);
                get_or data "current_city" (VStr []);
                VStr cities;
                get_or data "days" (VStr []);
                get_or data "people" (VStr []);
                get_or data "need_translator" (VStr []);
                get_or data "translator_language" (VStr []);
                get_or data "start_date" (VStr []);
                get_or data "referral_source" (VStr [])]])) w)
    | Raise x => (Raise x, with_csv (Some rows) w)
    end.

(** ** Handlers (handlers/travel_handlers.py) *)

Definition safe_delete_message (id : value) : M unit := send (DeleteMessage id).

Definition delete_previous_bot_message : M unit :=
  let* data := get_data in
  let bot_msg_id := get data "last_bot_message_id" in
  if truthy bot_msg_id then safe_delete_message bot_msg_id else ret tt.

Definition update_last_bot_message_id (id : Z) : M unit :=
  update_data [("last_bot_message_id"%string, VInt id)].

Definition get_user_lang_code : M value :=
  let* data := get_data in
  ret (get_or data "lang_code" (VStr (lit "en"))).

(** [build_user_mention(user_id, full_name)] *)
Definition build_user_mention (user_id full_name : value) : res text :=
  match (if truthy full_name then full_name else VStr (lit "Traveler")) with
  | VStr name =>
      Ok (if truthy user_id then TMention user_id (TEscape (TStr (strip name)))
          else TEscape (TStr (strip name)))
  | _ => Raise AttributeError
  end.

Definition format_admin_summary (data : gmap str value) : res text :=
  and_then (build_user_mention (get data "user_id") (get data "full_name"))
    (fun mention => Ok (TCat [TLit "📥 New request from "; mention])).

(** [notify_admins(bot, data)]: one message per administrator, failures of
    the sending ignored *)
Definition notify_admins (data : gmap str value) : M unit :=
  match ADMIN_CHAT_IDS with
  | [] => ret tt
  | _ =>
      let* message_text := lift (format_admin_summary data) in
      fold_right (fun admin_id rest => do send (SendMessage admin_id message_text) in rest)
                 (ret tt) ADMIN_CHAT_IDS
  end.

(** The message or callback query a helper is called with *)
Inductive target :=
| OnMessage
| OnCallback (message_id : Z).

(** [data.get(key, get_text(lang, 'N/A'))] inside a text *)
Definition shown (data : gmap str value) (key : string) (lang : value) : text :=
  match data !! lit key with
  | Some v => TVal v
  | None => TGet lang "N/A"
  end.

(** [show_review(message_or_callback, state)] *)
Definition show_review (on : target) : M unit :=
  let* data := get_data in
  let* lang := get_user_lang_code in
  let* all_cities :=
    lift (py_add (get_or data "cities_to_visit" (VList []))
                 (get_or data "other_cities" (VList []))) in
  let* cities_str :=
    if truthy all_cities
    then let* joined := lift (py_join (lit ", ") all_cities) in ret (TStr joined)
    else ret (TGet lang "N/A") in
  let translator_info :=
    if eq_str (get data "need_translator") (lit "Yes")
    then TFormat (TGet lang "translator") [("language"%string, shown data "translator_language" lang)]
    else TLit "" in
  let start := get_or data "start_date" (VStr []) in
  let dates_info :=
    if truthy start
    then TFormat (TGet lang "travel_date") [("date"%string, TVal start)]
    else TLit "" in
  let summary :=
    TFormat (TGet lang "review_info")
      [("full_name"%string, shown data "full_name" lang);
       ("phone"%string, shown data "phone" lang);
       ("current_city"%string, shown data "current_city" lang);
       ("cities_str"%string, cities_str);
       ("days"%string, shown data "days" lang);
       ("people"%string, shown data "people" lang);
       ("need_translator"%string, shown data "need_translator" lang);
       ("translator_info"%string, translator_info);
       ("dates_info"%string, dates_info)] in
  do match on with
     | OnCallback message_id =>
         do send (EditText summary (Some (get_review_keyboard lang))) in
         update_last_bot_message_id message_id
     | OnMessage =>
         do delete_previous_bot_message in
         let* bot_msg := answer summary (Some (get_review_keyboard lang)) in
         update_last_bot_message_id bot_msg
     end in
  set_state review.

(** [show_start_date_calendar(message_or_callback, state)] *)
Definition show_start_date_calendar (e : env) (on : target) : M unit :=
  let* data := get_data in
  let* lang := get_user_lang_code in
  let '(year, month, _) := today e in
  let selected_date := get data "start_date" in
  let prompt := TGet lang "select_travel_date" in
  do match on with
     | OnCallback message_id =>
         let* kb := lift (get_calendar_keyboard (today e) year month selected_date lang) in
         do send (EditText prompt (Some kb)) in
         update_last_bot_message_id message_id
     | OnMessage =>
         do delete_previous_bot_message in
         let* kb := lift (get_calendar_keyboard (today e) year month selected_date lang) in
         let* bot_msg := answer prompt (Some kb) in
         update_last_bot_message_id bot_msg
     end in
  set_state start_date.

(** [finalize_submission(message_or_callback, state)] *)
Definition finalize_submission (e : env) (on : target) : M unit :=
  let* data := get_data in
  do save_to_csv e data in
  let* lang := get_user_lang_code in
  let admin_payload := extract_admin_payload data in
  let* _ := add_pending_request e admin_payload in
  do notify_admins data in
  let acknowledgement := TGet lang "referral_saved" in
  let thank_you_text := TGet lang "thank_you" in
  do match on with
     | OnCallback _ =>
         do send (EditText acknowledgement None) in
         let* _ := answer thank_you_text None in ret tt
     | OnMessage =>
         let* _ := answer acknowledgement None in
         let* _ := answer thank_you_text None in ret tt
     end in
  clear.

(** The re-prompt shared by the message handlers: the error text, then the
    user's message and the previous prompt are deleted. *)
Definition reprompt (lang : value) (key : string) (m : message) : M unit :=
  let* bot_msg := answer (TGet lang key) None in
  do safe_delete_message (VInt (message_id m)) in
  do delete_previous_bot_message in
  update_last_bot_message_id bot_msg.

(** The filter of [process_phone]: [F.text.regexp] matches at the start of
    the text an optional [+], one of [1-9] and up to fifteen [\d]. *)
Definition phone_regexp (s : str) : bool :=
  match s with
  | 43%N :: c :: _ => ((49 <=? c) && (c <=? 57))%N
  | c :: _ => ((49 <=? c) && (c <=? 57))%N
  | [] => false
  end.

(** The [phone] that [process_phone] reads off a message: the number of
    the contact card, else the stripped text, else [None] *)
Definition message_phone (m : message) : option str :=
  match msg_contact m, msg_text m with
  | Some number, _ => Some number
  | None, Some (c :: t) => Some (strip (c :: t))
  | None, _ => None
  end.

Definition process_phone (m : message) : M unit :=
  let* lang := get_user_lang_code in
  let formatted_phone := format_phone_number (message_phone m) in
  match formatted_phone with
  | _ :: _ =>
      do update_data [("phone"%string, VStr formatted_phone)] in
      do safe_delete_message (VInt (message_id m)) in
      let* data := get_data in
      do safe_delete_message (get_or data "last_bot_message_id" (VInt 0)) in
      if eq_str (get data "editing_field") (lit "phone") then
        do update_data [("editing_field"%string, VNone)] in
        let* bot_msg := answer (TGet lang "phone_updated") (Some ReplyKeyboardRemove) in
        do update_last_bot_message_id bot_msg in
        show_review OnMessage
      else
        let* bot_msg := answer (TGet lang "share_current_city") (Some (get_city_keyboard lang)) in
        do update_last_bot_message_id bot_msg in
        set_state current_city
  | [] => reprompt lang "invalid_phone" m
  end.

Definition process_current_city (m : message) : M unit :=
  let* lang := get_user_lang_code in
  let accept (city : str) : M unit :=
    match city with
    | [] => ret tt
    | _ :: _ =>
        do update_data [("current_city"%string, VStr city)] in
        do safe_delete_message (VInt (message_id m)) in
        do delete_previous_bot_message in
        let* data := get_data in
        if eq_str (get data "editing_field") (lit "current_city") then
          do update_data [("editing_field"%string, VNone)] in
          let* bot_msg := answer (TGet lang "city_updated") (Some ReplyKeyboardRemove) in
          do update_last_bot_message_id bot_msg in
          show_review OnMessage
        else
          do update_data [("cities_to_visit"%string, VList []);
                          ("other_cities"%string, VList [])] in
          let* kb := lift (get_cities_keyboard (VList []) (VList []) lang) in
          let* bot_msg := answer (TGet lang "select_cities") (Some kb) in
          do update_last_bot_message_id bot_msg in
          set_state cities_to_visit
    end in
  match msg_location m, msg_text m with
  | Some (latitude, longitude), _ =>
      accept (lit "Lat: " ++ latitude ++ lit ", Lon: " ++ longitude)
  | None, Some (c :: t) =>
      let city := strip (c :: t) in
      if (length city <? 2)%nat then reprompt lang "invalid_city" m
      else accept city
  | None, _ => ret tt
  end.

Definition process_city_selection (c : callback) : M unit :=
  let* data := get_data in
  let selected_cities := get_or data "cities_to_visit" (VList []) in
  let other_cities := get_or data "other_cities" (VList []) in
  let* lang := get_user_lang_code in
  let city_name := remove_all (lit "city_") (cb_data c) in
  if bool_decide (city_name = lit "done") then
    let* n_selected := lift (py_len selected_cities) in
    let* n_other := lift (py_len other_cities) in
    if n_selected + n_other =? 0 then
      send (CallbackAnswer (Some (TGet lang "select_at_least_one_city")) true)
    else if eq_str (get data "editing_field") (lit "cities") then
      do update_data [("editing_field"%string, VNone)] in
      do show_review OnMessage in
      send (CallbackAnswer None false)
    else
      do send (EditText (TGet lang "how_many_days") (Some (get_days_keyboard lang))) in
      do set_state days in
      send (CallbackAnswer None false)
  else if bool_decide (city_name = lit "other") then
    do send (EditText (TGet lang "type_other_city") None) in
    do set_state other_city in
    send (CallbackAnswer None false)
  else
    let* in_selected := lift (py_in city_name selected_cities) in
    let* toggled :=
      if in_selected then
        let* selected' := lift (py_remove city_name selected_cities) in
        ret (selected', other_cities)
      else
        let* in_other := lift (py_in city_name other_cities) in
        if in_other then
          let* other' := lift (py_remove city_name other_cities) in
          ret (selected_cities, other')
        else if bool_decide (city_name ∈ map lit known_cities) then
          let* selected' := lift (py_append city_name selected_cities) in
          ret (selected', other_cities)
        else
          let* other' := lift (py_append city_name other_cities) in
          ret (selected_cities, other') in
    let '(selected', other') := toggled in
    do update_data [("cities_to_visit"%string, selected'); ("other_cities"%string, other')] in
    let* kb := lift (get_cities_keyboard selected' other' lang) in
    do send (EditReplyMarkup kb) in
    send (CallbackAnswer None false).

(** [message.text.strip()]: a message without text has [None] there *)
Definition stripped_text (m : message) : M str :=
  match msg_text m with
  | Some t => ret (strip t)
  | None => raise AttributeError
  end.

Definition process_other_city (m : message) : M unit :=
  let* lang := get_user_lang_code in
  let* city := stripped_text m in
  let* data := get_data in
  if (length city <? 2)%nat then reprompt lang "invalid_city" m
  else
    let other_cities := get_or data "other_cities" (VList []) in
    let* present := lift (py_in city other_cities) in
    let* other' := if present then ret other_cities else lift (py_append city other_cities) in
    do update_data [("other_cities"%string, other')] in
    do safe_delete_message (VInt (message_id m)) in
    let selected_cities := get_or data "cities_to_visit" (VList []) in
    let* kb := lift (get_cities_keyboard selected_cities other' lang) in
    let* bot_msg := answer (TGet lang "select_cities") (Some kb) in
    do update_last_bot_message_id bot_msg in
    set_state cities_to_visit.

Definition process_days (c : callback) : M unit :=
  let days_value := remove_all (lit "days_") (cb_data c) in
  let* data := get_data in
  let* lang := get_user_lang_code in
  if bool_decide (days_value = lit "other") then
    do send (EditText (TGet lang "enter_number_of_days") None) in
    do set_state other_days in
    send (CallbackAnswer None false)
  else
    do update_data [("days"%string, VStr days_value)] in
    if eq_str (get data "editing_field") (lit "days") then
      do update_data [("editing_field"%string, VNone)] in
      do show_review OnMessage in
      send (CallbackAnswer None false)
    else
      do send (EditText (TGet lang "how_many_people") (Some (get_people_keyboard lang))) in
      do set_state people in
      send (CallbackAnswer None false).

Definition parsed_int (s : str) : M Z :=
  match py_int s with
  | Some n => ret n
  | None => raise ValueError
  end.

(** [int(message.text.strip())] *)
Definition int_of_text (m : message) : M Z :=
  let* t := stripped_text m in
  parsed_int t.

Definition process_other_days (m : message) : M unit :=
  let* lang := get_user_lang_code in
  try_except
    (let* n := int_of_text m in
     if n <? 1 then raise ValueError
     else
       do update_data [("days"%string, VStr (str_of_Z n))] in
       do safe_delete_message (VInt (message_id m)) in
       do delete_previous_bot_message in
       let* data := get_data in
       if eq_str (get data "editing_field") (lit "days") then
         do update_data [("editing_field"%string, VNone)] in
         show_review OnMessage
       else
         let* bot_msg := answer (TGet lang "how_many_people") (Some (get_people_keyboard lang)) in
         do update_last_bot_message_id bot_msg in
         set_state people)
    (reprompt lang "invalid_number" m).

Definition process_people (c : callback) : M unit :=
  let people_value := remove_all (lit "people_") (cb_data c) in
  let* data := get_data in
  let* lang := get_user_lang_code in
  if bool_decide (people_value = lit "4plus") then
    do send (EditText (TGet lang "enter_number_of_people") None) in
    do set_state other_people in
    send (CallbackAnswer None false)
  else
    do update_data [("people"%string, VStr people_value)] in
    if eq_str (get data "editing_field") (lit "people") then
      do update_data [("editing_field"%string, VNone)] in
      do show_review OnMessage in
      send (CallbackAnswer None false)
    else
      do send (EditText (TGet lang "need_translator") (Some (get_translator_keyboard lang))) in
      do set_state need_translator in
      send (CallbackAnswer None false).

Definition process_other_people (m : message) : M unit :=
  let* lang := get_user_lang_code in
  try_except
    (let* n := int_of_text m in
     if n <? 5 then raise ValueError
     else
       do update_data [("people"%string, VStr (str_of_Z n))] in
       do safe_delete_message (VInt (message_id m)) in
       do delete_previous_bot_message in
       let* data := get_data in
       if eq_str (get data "editing_field") (lit "people") then
         do update_data [("editing_field"%string, VNone)] in
         show_review OnMessage
       else
         let* bot_msg :=
           answer (TGet lang "need_translator") (Some (get_translator_keyboard lang)) in
         do update_last_bot_message_id bot_msg in
         set_state need_translator)
    (reprompt lang "invalid_number_5_or_more" m).

Definition process_translator (e : env) (c : callback) : M unit :=
  let reply := remove_all (lit "translator_") (cb_data c) in
  let* data := get_data in
  let is_editing := eq_str (get data "editing_field") (lit "translator") in
  let* lang := get_user_lang_code in
  do (if bool_decide (reply = lit "yes") then
        do update_data [("need_translator"%string, VStr (lit "Yes"))] in
        do send (EditText (TGet lang "which_language") (Some (get_language_keyboard lang))) in
        set_state translator_language
      else
        do update_data [("need_translator"%string, VStr (lit "No"));
                        ("translator_language"%string, VStr [])] in
        if is_editing then
          do update_data [("editing_field"%string, VNone)] in
          show_review OnMessage
        else show_start_date_calendar e OnMessage) in
  send (CallbackAnswer None false).

Definition process_language (e : env) (c : callback) : M unit :=
  let language := remove_all (lit "lang_") (cb_data c) in
  let* lang := get_user_lang_code in
  if bool_decide (language = lit "other") then
    do send (EditText (TGet lang "enter_language") None) in
    do set_state other_language in
    send (CallbackAnswer None false)
  else
    do update_data [("translator_language"%string, VStr language)] in
    let* data := get_data in
    do (if eq_str (get data "editing_field") (lit "translator") then
          do update_data [("editing_field"%string, VNone)] in
          show_review OnMessage
        else show_start_date_calendar e OnMessage) in
    send (CallbackAnswer None false).

Definition process_other_language (e : env) (m : message) : M unit :=
  let* lang := get_user_lang_code in
  let* language := stripped_text m in
  if (length language <? 1)%nat then reprompt lang "invalid_language" m
  else
    do update_data [("translator_language"%string, VStr language)] in
    do safe_delete_message (VInt (message_id m)) in
    let* data := get_data in
    do delete_previous_bot_message in
    if eq_str (get data "editing_field") (lit "translator") then
      do update_data [("editing_field"%string, VNone)] in
      show_review OnMessage
    else show_start_date_calendar e OnMessage.

Definition process_confirm (c : callback) : M unit :=
  let* data := get_data in
  let* all_cities :=
    lift (py_add (get_or data "cities_to_visit" (VList []))
                 (get_or data "other_cities" (VList []))) in
  do update_data [("cities_to_visit"%string, all_cities)] in
  let* lang := get_user_lang_code in
  do send (EditText (TGet lang "referral_question") (Some (get_referral_keyboard lang))) in
  do update_last_bot_message_id (cb_message_id c) in
  do set_state referral_source in
  send (CallbackAnswer None false).

(** [label_map.get(data_key, data_key)] of [process_referral_source] *)
Definition referral_label (data_key : str) : str :=
  if bool_decide (data_key = lit "ref_instagram") then get_text "en" "referral_instagram"
  else if bool_decide (data_key = lit "ref_youtube") then get_text "en" "referral_youtube"
  else if bool_decide (data_key = lit "ref_facebook") then get_text "en" "referral_facebook"
  else if bool_decide (data_key = lit "ref_website") then get_text "en" "referral_website"
  else if bool_decide (data_key = lit "ref_google") then get_text "en" "referral_google"
  else data_key.

Definition process_referral_source (e : env) (c : callback) : M unit :=
  let* lang := get_user_lang_code in
  let data_key := cb_data c in
  do (if bool_decide (data_key = lit "ref_other") then
        do send (EditText (TGet lang "enter_other_referral") None) in
        do update_last_bot_message_id (cb_message_id c) in
        set_state other_referral
      else if bool_decide (data_key = lit "ref_skip") then
        do update_data [("referral_source"%string, VStr (lit "Skipped"))] in
        finalize_submission e (OnCallback (cb_message_id c))
      else
        do update_data [("referral_source"%string, VStr (referral_label data_key))] in
        finalize_submission e (OnCallback (cb_message_id c))) in
  send (CallbackAnswer None false).

Definition process_other_referral (e : env) (m : message) : M unit :=
  let* lang := get_user_lang_code in
  let response := strip (default [] (msg_text m)) in
  match response with
  | [] =>
      let* bot_msg := answer (TGet lang "enter_other_referral") None in
      update_last_bot_message_id bot_msg
  | _ :: _ =>
      do update_data [("referral_source"%string, VStr response)] in
      do safe_delete_message (VInt (message_id m)) in
      finalize_submission e OnMessage
  end.

(** [parts[i]] *)
Definition item (parts : list str) (i : nat) : M str :=
  match parts !! i with
  | Some x => ret x
  | None => raise IndexError
  end.

Definition process_date_calendar (e : env) (c : callback) : M unit :=
  let data_str := cb_data c in
  if bool_decide (data_str = lit "cal_ignore") then send (CallbackAnswer None false)
  else
    let* data := get_data in
    let selected_date := get data "start_date" in
    let* lang := get_user_lang_code in
    if startswith (lit "cal_prev_") data_str || startswith (lit "cal_next_") data_str then
      let parts := split_on 95%N data_str in
      let* year_text := item parts 2 in
      let* year := parsed_int year_text in
      let* month_text := item parts 3 in
      let* month := parsed_int month_text in
      let '(year', month') :=
        if is_substring (lit "prev") data_str
        then (if month - 1 <? 1 then (year - 1, 12) else (year, month - 1))
        else (if 12 <? month + 1 then (year + 1, 1) else (year, month + 1)) in
      let* kb := lift (get_calendar_keyboard (today e) year' month' selected_date lang) in
      do send (EditReplyMarkup kb) in
      send (CallbackAnswer None false)
    else if startswith (lit "cal_day_") data_str then
      let parts := split_on 95%N data_str in
      let* chosen := item parts 2 in
      do update_data [("start_date"%string, VStr chosen)] in
      match strptime_date chosen with
      | None => raise ValueError
      | Some (y, m, d) =>
          do send (EditText
                     (TFormat (TGet lang "date_selected")
                        [("date"%string, TStrftime "%B %d, %Y" y m d)])
                     (Some (get_date_confirmation_keyboard chosen lang))) in
          send (CallbackAnswer None false)
      end
    else if bool_decide (data_str = lit "cal_skip") then
      do update_data [("start_date"%string, VStr [])] in
      do show_review OnMessage in
      send (CallbackAnswer None false)
    else if startswith (lit "cal_confirm_") data_str then
      let parts := split_on 95%N data_str in
      let* chosen := item parts 2 in
      do update_data [("start_date"%string, VStr chosen)] in
      do show_review OnMessage in
      send (CallbackAnswer None false)
    else if bool_decide (data_str = lit "cal_change") then
      let '(year, month, _) := today e in
      let* kb := lift (get_calendar_keyboard (today e) year month selected_date lang) in
      do send (EditText (TGet lang "select_travel_date") (Some kb)) in
      send (CallbackAnswer None false)
    else ret tt.

Definition process_edit_choice (c : callback) : M unit :=
  let* lang := get_user_lang_code in
  do send (EditText (TGet lang "edit_field") (Some (get_edit_keyboard lang))) in
  send (CallbackAnswer None false).

Definition process_edit_field (e : env) (c : callback) : M unit :=
  let field := remove_all (lit "edit_") (cb_data c) in
  let* lang := get_user_lang_code in
  do update_data [("editing_field"%string, VStr field)] in
  do (if bool_decide (field = lit "phone") then
        do edit_text (TGet lang "share_phone") (Some (get_phone_keyboard lang)) in
        set_state phone
      else if bool_decide (field = lit "current_city") then
        do edit_text (TGet lang "share_current_city") (Some (get_city_keyboard lang)) in
        set_state current_city
      else if bool_decide (field = lit "cities") then
        let* data := get_data in
        let selected_cities := get_or data "cities_to_visit" (VList []) in
        let other_cities := get_or data "other_cities" (VList []) in
        let* kb := lift (get_cities_keyboard selected_cities other_cities lang) in
        do edit_text (TGet lang "select_cities") (Some kb) in
        set_state cities_to_visit
      else if bool_decide (field = lit "days") then
        do edit_text (TGet lang "how_many_days") (Some (get_days_keyboard lang)) in
        set_state days
      else if bool_decide (field = lit "people") then
        do edit_text (TGet lang "how_many_people") (Some (get_people_keyboard lang)) in
        set_state people
      else if bool_decide (field = lit "translator") then
        do edit_text (TGet lang "need_translator") (Some (get_translator_keyboard lang)) in
        set_state need_translator
      else if bool_decide (field = lit "dates") then
        do update_data [("editing_field"%string, VNone)] in
        show_start_date_calendar e OnMessage
      else ret tt) in
  send (CallbackAnswer None false).

Definition handle_unexpected (m : message) : M unit :=
  let* current_state := get_state in
  let* lang := get_user_lang_code in
  match current_state with
  | None => let* _ := answer (TGet lang "use_start") None in ret tt
  | Some _ =>
      do safe_delete_message (VInt (message_id m)) in
      let* _ := answer (TGet lang "use_buttons") None in ret tt
  end.

(** *** The administrators' panel

    The texts of the panel are not detailed: [RenderAdminPanel] and
    [ShowRequestDetails] stand for them. The functions that build them are
    modelled by the exceptions they raise on entries that were not written
    by the bot, [Ok tt] standing for a text. *)

Definition MAX_ADMIN_LIST_ITEMS : nat := 10.

(** [d.get(k, dflt)] on a loaded document: only a dict has [get] *)
Definition entry_get_or (k : string) (dflt : json) (d : json) : res json :=
  match d with
  | JObj o => Ok (default dflt (obj_get (lit k) o))
  | _ => Raise AttributeError
  end.

(** [data.get('full_name') or data.get('first_name') or "Unknown"], on which
    a method of [str] is called next ([strip] in the preview, [split] in the
    details) *)
Definition display_name (data : json) : res str :=
  and_then (entry_get "full_name" data) (fun full_name =>
  and_then (entry_get "first_name" data) (fun first_name =>
  match (if json_truthy full_name then full_name
         else if json_truthy first_name then first_name
         else JStr (lit "Unknown")) with
  | JStr name => Ok name
  | _ => Raise AttributeError
  end)).

(** [build_request_preview_text(entry)]. [datetime.fromisoformat] raises a
    [TypeError] on what is not a string, and the [ValueError] it raises on
    a string is caught. *)
Definition build_request_preview_text (entry : json) : res unit :=
  and_then (entry_get_or "payload" (JObj []) entry) (fun data =>
  and_then (display_name data) (fun _ =>
  and_then (entry_get "created_at" entry) (fun created_at =>
  if json_truthy created_at then
    match created_at with
    | JStr _ => Ok tt
    | _ => Raise TypeError
    end
  else Ok tt))).

(** [build_admin_panel_keyboard(requests)]: one button for each of the first
    [MAX_ADMIN_LIST_ITEMS] requests whose identifier is true *)
Definition build_admin_panel_keyboard (requests : list json) : res unit :=
  and_then
    (for_each (fun entry =>
                 and_then (entry_get "id" entry) (fun entry_id =>
                 if json_truthy entry_id then build_request_preview_text entry
                 else Ok tt))
              (take MAX_ADMIN_LIST_ITEMS requests))
    (fun _ => Ok tt).

(** [combine_cities(data)] on a loaded payload *)
Definition combine_cities_loaded (data : list (str * json)) : list json :=
  let gathered (j : json) : list json :=
    match j with
    | JArr items => items
    | _ => if json_truthy j then [j] else []
    end in
  List.filter json_truthy
    (gathered (default (JArr []) (obj_get (lit "cities_to_visit") data))
     ++ gathered (default (JArr []) (obj_get (lit "other_cities") data))).

Definition is_JStr (j : json) : bool :=
  match j with
  | JStr _ => true
  | _ => false
  end.

(** [html.escape(v) if v else 'N/A']: [html.escape] calls [v.replace] *)
Definition escaped_or_na (v : json) : res unit :=
  if json_truthy v && negb (is_JStr v) then Raise AttributeError else Ok tt.

(** [format_admin_request_details(entry)], in the order in which the source
    evaluates what can raise: the name that is split, the phone that
    [re.sub] reads, the cities that are joined, the translator language,
    the lines of the text, the time of submission. *)
Definition format_admin_request_details (entry : json) : res unit :=
  and_then (entry_get_or "payload" (JObj []) entry) (fun data =>
  match data with
  | JObj o =>
      let field (k : string) : json := default JNull (obj_get (lit k) o) in
      and_then (display_name data) (fun _ =>
      and_then (if json_truthy (field "phone"%string) && negb (is_JStr (field "phone"%string))
                then Raise TypeError else Ok tt) (fun _ =>
      and_then (if forallb is_JStr (combine_cities_loaded o)
                then Ok tt else Raise TypeError) (fun _ =>
      and_then (if json_eq_str (field "need_translator"%string) (lit "Yes")
                then escaped_or_na (field "translator_language"%string) else Ok tt) (fun _ =>
      and_then (for_each (fun k => escaped_or_na (field k))
                         ["current_city"; "days"; "people"; "need_translator";
                          "start_date"; "referral_source"]%string) (fun _ =>
      and_then (entry_get "created_at" entry) escaped_or_na)))))
  | _ => Raise AttributeError
  end).

(** [render_admin_panel(callback, answer_callback=...)]; the refresh task it
    restarts is not part of the model. *)
Definition render_admin_panel (answer_callback : bool) : M unit :=
  let* requests := get_pending_requests (lit "new") in
  do lift (build_admin_panel_keyboard requests) in
  do send (RenderAdminPanel requests) in
  if answer_callback then send (CallbackAnswer None false) else ret tt.

Definition admin_panel_refresh (c : callback) : M unit :=
  if negb (is_admin (cb_user c)) then
    send (CallbackAnswer (Some (TLit "Not authorized")) true)
  else render_admin_panel true.

Definition admin_mark_request_done (e : env) (c : callback) : M unit :=
  if negb (is_admin (cb_user c)) then
    send (CallbackAnswer (Some (TLit "Not authorized")) true)
  else
    let request_id := remove_first (lit "admin_req_done_") (cb_data c) in
    let* updated := mark_request_processed e request_id (cb_user c) in
    do (if updated : bool
        then send (CallbackAnswer (Some (TLit "Request marked as processed ✅")) false)
        else send (CallbackAnswer (Some (TLit "Request already handled or missing.")) true)) in
    render_admin_panel false.

Definition admin_view_request (c : callback) : M unit :=
  if negb (is_admin (cb_user c)) then
    send (CallbackAnswer (Some (TLit "Not authorized")) true)
  else if startswith (lit "admin_req_done_") (cb_data c) then ret tt
  else
    let request_id := remove_first (lit "admin_req_") (cb_data c) in
    let* found := get_pending_request_by_id request_id in
    match found with
    | None | Some (JObj []) =>
        do send (CallbackAnswer (Some (TLit "This request is no longer available.")) true) in
        render_admin_panel false
    | Some entry =>
        do lift (format_admin_request_details entry) in
        do send (ShowRequestDetails entry request_id) in
        send (CallbackAnswer None false)
    end.

(** ** The router

    aiogram offers an update to the handlers in the order of their
    registration and runs the first whose filters accept it; an update that
    no handler accepts changes nothing.

    The handlers of [/start], [/help], [/support], [/language] and [/admin]
    come first among the message handlers. Their [Command] filters read the
    first word of the text ([text.split(maxsplit=1)]) and refuse it unless
    it begins with [/]. What the commands do depends on the sender, whom
    the events of the model do not carry, as does
    [process_language_selection], which takes the callbacks prefixed
    [lang_select_] in step [lang_code]; these handlers are modelled apart,
    for a given sender. The router gives [None] where they may be the ones
    to run: [route_message] on every text whose first word begins with [/],
    [route_callback] on those callbacks. *)
Inductive event :=
| Msg (m : message)
| Press (c : callback).

Definition when (accepted : bool) (handler : M unit) : option (M unit) :=
  Some (if accepted then handler else ret tt).

Definition route_callback (e : env) (current : option step) (c : callback)
    : option (M unit) :=
  let data := cb_data c in
  if bool_decide (data = lit "admin_panel_refresh") then Some (admin_panel_refresh c)
  else if startswith (lit "admin_req_done_") data then Some (admin_mark_request_done e c)
  else if startswith (lit "admin_req_") data then Some (admin_view_request c)
  else
    match current with
    | Some lang_code =>
        if startswith (lit "lang_select_") data then None else Some (ret tt)
    | Some cities_to_visit =>
        when (startswith (lit "city_") data) (process_city_selection c)
    | Some days => when (startswith (lit "days_") data) (process_days c)
    | Some people => when (startswith (lit "people_") data) (process_people c)
    | Some need_translator =>
        when (startswith (lit "translator_") data) (process_translator e c)
    | Some translator_language =>
        when (startswith (lit "lang_") data) (process_language e c)
    | Some review =>
        if bool_decide (data = lit "review_confirm") then Some (process_confirm c)
        else if bool_decide (data = lit "review_edit") then Some (process_edit_choice c)
        else when (startswith (lit "edit_") data) (process_edit_field e c)
    | Some referral_source =>
        when (startswith (lit "ref_") data) (process_referral_source e c)
    | Some start_date => when (startswith (lit "cal_") data) (process_date_calendar e c)
    | _ => Some (ret tt)
    end.

Definition is_Some_b {A} (o : option A) : bool :=
  match o with Some _ => true | None => false end.

Definition has_text (m : message) : bool :=
  match msg_text m with
  | Some (_ :: _) => true
  | _ => false
  end.

(** The first word of the text of [m] begins with [/]: [str.split] skips
    the white space before it. A message without text is not examined
    further by the [Command] filters. *)
Definition has_command_prefix (m : message) : bool :=
  match lstrip (default [] (msg_text m)) with
  | 47%N :: _ => true
  | _ => false
  end.

Definition route_message (e : env) (current : option step) (m : message)
    : option (M unit) :=
  if has_command_prefix m then None
  else
    Some match current with
         | Some phone =>
             if is_Some_b (msg_contact m) || phone_regexp (default [] (msg_text m))
             then process_phone m else handle_unexpected m
         | Some current_city =>
             if is_Some_b (msg_location m) || has_text m
             then process_current_city m else handle_unexpected m
         | Some other_city => process_other_city m
         | Some other_days => process_other_days m
         | Some other_people => process_other_people m
         | Some other_language => process_other_language e m
         | Some other_referral => process_other_referral e m
         | _ => handle_unexpected m
         end.

(** One update, handled at the instant described by [e] *)
Definition dispatch (e : env) (ev : event) (w : world) : option (res unit * world) :=
  match ev with
  | Msg m => (fun handler => handler w) <$> route_message e (fsm_state w) m
  | Press c => (fun handler => handler w) <$> route_callback e (fsm_state w) c
  end.

(** Updates handled one after the other, up to the first that raises or that
    the model does not cover *)
Fixpoint run (updates : list (env * event)) (w : world) : option (res unit * world) :=
  match updates with
  | [] => Some (Ok tt, w)
  | (e, ev) :: rest =>
      match dispatch e ev w with
      | Some (Ok _, w') => run rest w'
      | other => other
      end
  end.

(** ** Vocabulary of the statements *)

(** The two city lists of the data dict, read as the handlers read them *)
Definition city_lists (d : gmap str value) (sel oth : list str) : Prop :=
  get_or d "cities_to_visit" (VList []) = VList sel
  /\ get_or d "other_cities" (VList []) = VList oth.

(** The types the handlers give to the entries of the data dict that they
    later compute with: the two city lists are lists. *)
Definition well_typed (d : gmap str value) : Prop :=
  exists sel oth, city_lists d sel oth.

(** Both city lists are in the data dict, as they are once the cities step
    was entered. *)
Definition cities_stored (d : gmap str value) (sel oth : list str) : Prop :=
  d !! lit "cities_to_visit" = Some (VList sel)
  /\ d !! lit "other_cities" = Some (VList oth).

(** What one toggle of [process_city_selection] does to the two lists *)
Definition toggle_lists (city : str) (lists : list str * list str)
    : list str * list str :=
  let '(sel, oth) := lists in
  if bool_decide (city ∈ sel) then (default sel (remove_one city sel), oth)
  else if bool_decide (city ∈ oth) then (sel, default oth (remove_one city oth))
  else if bool_decide (city ∈ map lit known_cities) then (sel ++ [city], oth)
  else (sel, oth ++ [city]).

(** The dict after [update_data(cities_to_visit=..., other_cities=...)] *)
Definition with_cities (lists : list str * list str) (d : gmap str value)
    : gmap str value :=
  <[lit "other_cities" := VList lists.2]> (<[lit "cities_to_visit" := VList lists.1]> d).

(** The integer that the custom days and people steps read off a message:
    [int(message.text.strip())], [None] when that raises *)
Definition typed_number (m : message) : option Z :=
  match msg_text m with
  | Some t => py_int (strip t)
  | None => None
  end.

(** A custom number is taken: it is stored under [key] in decimal, and the
    conversation moves to [next], or back to the review when [key] is being
    edited. *)
Definition number_taken (key : string) (n : Z) (next : step) (w w' : world) : Prop :=
  fsm_data w' !! lit key = Some (VStr (str_of_Z n))
  /\ fsm_state w' =
       Some (if eq_str (get (fsm_data w) "editing_field") (lit key) then review else next).

(** An entry is refused: the error text [error] is sent, the step stays, and
    the data dict changes in the identifier of the last bot message only. *)
Definition refused (error : string) (w w' : world) : Prop :=
  fsm_state w' = fsm_state w
  /\ (forall k, k <> lit "last_bot_message_id" -> fsm_data w' !! k = fsm_data w !! k)
  /\ exists later,
       sent w' =
         sent w
         ++ Answer (TGet (get_or (fsm_data w) "lang_code" (VStr (lit "en"))) error) None
         :: later.

(** [date(y, m, d).isoformat()], which is ["%04d-%02d-%02d"] of the three
    numbers *)
Definition zero_padded (width : nat) (s : str) : str :=
  replicate (width - length s) 48%N ++ s.

Definition isoformat (y m d : Z) : str :=
  zero_padded 4 (str_of_Z y) ++ lit "-" ++ zero_padded 2 (str_of_Z m)
  ++ lit "-" ++ zero_padded 2 (str_of_Z d).


(** The record of a submission in data/users.csv, column by column *)
Definition logged_record (e : env) (d : gmap str value) (cities : list str)
    : list value :=
  [VStr (now_iso e);
   get_or d "full_name" (VStr []);
   get_or d "phone" (VStr []);
   get_or d "current_city" (VStr []);
   VStr (join (lit ", ") cities);
   get_or d "days" (VStr []);
   get_or d "people" (VStr []);
   get_or d "need_translator" (VStr []);
   get_or d "translator_language" (VStr []);
   get_or d "start_date" (VStr []);
   get_or d "referral_source" (VStr [])].

(** The rows of data/users.csv before a submission; a new file starts with
    the header. *)
Definition logged_before (w : world) : list (list value) :=
  match users_csv w with
  | Some rows => rows
  | None => [map (fun name => VStr (lit name)) csv_fieldnames]
  end.

(** The entry of a submission in data/pending_requests.json *)
Definition pending_entry (e : env) (d : gmap str value) : json :=
  JObj [(lit "id", JStr (fresh_uuid e));
        (lit "status", JStr (lit "new"));
        (lit "created_at", JStr (now_iso e));
        (lit "payload", JObj (extract_admin_payload d))].

(** The full name, when the dict has one, is a string. *)
Definition named (d : gmap str value) : Prop :=
  forall v, d !! lit "full_name" = Some v -> exists s, v = VStr s.

(** The requests that [load_pending_requests] finds in a file it can read *)
Definition requests_of (f : file) : list json :=
  match f with
  | Some (Document (JArr items)) => items
  | _ => []
  end.

(** *** Editing from the review *)

(** The fields the edit menu offers, the payload of their buttons, the step
    each one re-enters and the keys of the data dict that hold it *)
Inductive field :=
| FPhone | FCurrentCity | FCities | FDays | FPeople | FTranslator | FDates.

Definition edit_payload (f : field) : str :=
  match f with
  | FPhone => lit "edit_phone"
  | FCurrentCity => lit "edit_current_city"
  | FCities => lit "edit_cities"
  | FDays => lit "edit_days"
  | FPeople => lit "edit_people"
  | FTranslator => lit "edit_translator"
  | FDates => lit "edit_dates"
  end.

Definition field_keys (f : field) : list string :=
  match f with
  | FPhone => ["phone"]
  | FCurrentCity => ["current_city"]
  | FCities => ["cities_to_visit"; "other_cities"]
  | FDays => ["days"]
  | FPeople => ["people"]
  | FTranslator => ["need_translator"; "translator_language"]
  | FDates => ["start_date"]
  end%string.

(** The two fields whose question comes with a reply keyboard, the button
    that shares the contact or the location *)
Definition reply_keyboard_field (f : field) : bool :=
  match f with
  | FPhone | FCurrentCity => true
  | _ => false
  end.

(** The city that [process_current_city] reads off a message it accepts *)
Definition message_city (m : message) : option str :=
  match msg_location m, msg_text m with
  | Some (latitude, longitude), _ =>
      Some (lit "Lat: " ++ latitude ++ lit ", Lon: " ++ longitude)
  | None, Some (c :: t) =>
      if (length (strip (c :: t)) <? 2)%nat then None else Some (strip (c :: t))
  | None, _ => None
  end.

(** What the user does in the cities step before [done]: toggle a city, or
    press [other] and type a city of at least two characters. *)
Inductive city_action :=
| Toggle (e : env) (c : callback)
| TypeOther (e1 : env) (c : callback) (e2 : env) (m : message).

Definition city_action_updates (a : city_action) : list (env * event) :=
  match a with
  | Toggle e c => [(e, Press c)]
  | TypeOther e1 c e2 m => [(e1, Press c); (e2, Msg m)]
  end.

Definition city_action_valid (a : city_action) : Prop :=
  match a with
  | Toggle _ c =>
      startswith (lit "city_") (cb_data c) = true
      /\ remove_all (lit "city_") (cb_data c) <> lit "done"
      /\ remove_all (lit "city_") (cb_data c) <> lit "other"
  | TypeOther _ c _ m =>
      startswith (lit "city_") (cb_data c) = true
      /\ remove_all (lit "city_") (cb_data c) = lit "other"
      /\ has_command_prefix m = false
      /\ exists t, msg_text m = Some t /\ (2 <= length (strip t))%nat
  end.

Definition city_action_effect (lists : list str * list str) (a : city_action)
    : list str * list str :=
  match a with
  | Toggle _ c => toggle_lists (remove_all (lit "city_") (cb_data c)) lists
  | TypeOther _ _ _ m =>
      let city := strip (default [] (msg_text m)) in
      (lists.1, if bool_decide (city ∈ lists.2) then lists.2 else lists.2 ++ [city])
  end.

(** [supplies w f updates vals]: in the world [w], once the step of the
    field [f] is re-entered, the updates [updates] supply a valid new value,
    which puts [vals] under the keys of [f]. What is typed is a text that
    is not left to the command handlers. *)
Inductive supplies (w : world) : field -> list (env * event) -> list (string * value) -> Prop :=
| supplies_phone e m c p :
    has_command_prefix m = false ->
    is_Some_b (msg_contact m) || phone_regexp (default [] (msg_text m)) = true ->
    format_phone_number (message_phone m) = c :: p ->
    supplies w FPhone [(e, Msg m)] [("phone"%string, VStr (c :: p))]
| supplies_current_city e m city :
    has_command_prefix m = false ->
    message_city m = Some city ->
    supplies w FCurrentCity [(e, Msg m)] [("current_city"%string, VStr city)]
| supplies_cities actions e c sel oth :
    cities_stored (fsm_data w) sel oth ->
    Forall city_action_valid actions ->
    startswith (lit "city_") (cb_data c) = true ->
    remove_all (lit "city_") (cb_data c) = lit "done" ->
    let lists := fold_left city_action_effect actions (sel, oth) in
    lists.1 ++ lists.2 <> [] ->
    supplies w FCities
      (concat (map city_action_updates actions) ++ [(e, Press c)])
      [("cities_to_visit"%string, VList lists.1); ("other_cities"%string, VList lists.2)]
| supplies_days_preset e c :
    startswith (lit "days_") (cb_data c) = true ->
    remove_all (lit "days_") (cb_data c) <> lit "other" ->
    supplies w FDays [(e, Press c)]
      [("days"%string, VStr (remove_all (lit "days_") (cb_data c)))]
| supplies_days_custom e1 c e2 m n :
    startswith (lit "days_") (cb_data c) = true ->
    remove_all (lit "days_") (cb_data c) = lit "other" ->
    has_command_prefix m = false ->
    typed_number m = Some n -> 1 <= n ->
    supplies w FDays [(e1, Press c); (e2, Msg m)] [("days"%string, VStr (str_of_Z n))]
| supplies_people_preset e c :
    startswith (lit "people_") (cb_data c) = true ->
    remove_all (lit "people_") (cb_data c) <> lit "4plus" ->
    supplies w FPeople [(e, Press c)]
      [("people"%string, VStr (remove_all (lit "people_") (cb_data c)))]
| supplies_people_custom e1 c e2 m n :
    startswith (lit "people_") (cb_data c) = true ->
    remove_all (lit "people_") (cb_data c) = lit "4plus" ->
    has_command_prefix m = false ->
    typed_number m = Some n -> 5 <= n ->
    supplies w FPeople [(e1, Press c); (e2, Msg m)] [("people"%string, VStr (str_of_Z n))]
| supplies_no_translator e c :
    startswith (lit "translator_") (cb_data c) = true ->
    remove_all (lit "translator_") (cb_data c) <> lit "yes" ->
    supplies w FTranslator [(e, Press c)]
      [("need_translator"%string, VStr (lit "No")); ("translator_language"%string, VStr [])]
| supplies_translator_preset e1 c1 e2 c2 :
    startswith (lit "translator_") (cb_data c1) = true ->
    remove_all (lit "translator_") (cb_data c1) = lit "yes" ->
    startswith (lit "lang_") (cb_data c2) = true ->
    remove_all (lit "lang_") (cb_data c2) <> lit "other" ->
    supplies w FTranslator [(e1, Press c1); (e2, Press c2)]
      [("need_translator"%string, VStr (lit "Yes"));
       ("translator_language"%string, VStr (remove_all (lit "lang_") (cb_data c2)))]
| supplies_translator_custom e1 c1 e2 c2 e3 m t :
    startswith (lit "translator_") (cb_data c1) = true ->
    remove_all (lit "translator_") (cb_data c1) = lit "yes" ->
    startswith (lit "lang_") (cb_data c2) = true ->
    remove_all (lit "lang_") (cb_data c2) = lit "other" ->
    has_command_prefix m = false ->
    msg_text m = Some t -> (1 <= length (strip t))%nat ->
    supplies w FTranslator [(e1, Press c1); (e2, Press c2); (e3, Msg m)]
      [("need_translator"%string, VStr (lit "Yes"));
       ("translator_language"%string, VStr (strip t))]
| supplies_date e1 c1 e2 c2 chosen :
    cb_data c1 = lit "cal_day_" ++ chosen ->
    cb_data c2 = lit "cal_confirm_" ++ chosen ->
    (95%N ∉ chosen) ->
    is_Some (strptime_date chosen) ->
    supplies w FDates [(e1, Press c1); (e2, Press c2)] [("start_date"%string, VStr chosen)]
| supplies_no_date e c :
    cb_data c = lit "cal_skip" ->
    supplies w FDates [(e, Press c)] [("start_date"%string, VStr [])].

(** The clock shows a date that [datetime] can hold. *)
Definition clock_ok (e : env) : Prop :=
  1 <= (today e).1.1 <= 9999 /\ 1 <= (today e).1.2 <= 12.

(** The outcome of an edit: the review is shown again, the keys of the field
    hold the new values, the editing marker is cleared, and no other entry
    of the data dict has changed but the identifier of the last bot
    message. *)
Definition back_in_review (keys : list string) (vals : list (string * value))
    (w w' : world) : Prop :=
  fsm_state w' = Some review
  /\ (forall k v, (k, v) ∈ vals -> fsm_data w' !! lit k = Some v)
  /\ get (fsm_data w') "editing_field" = VNone
  /\ (forall k, k ∉ map lit keys -> k <> lit "editing_field" ->
      k <> lit "last_bot_message_id" -> fsm_data w' !! k = fsm_data w !! k).

(** The step that the edit menu re-enters for a field *)
Definition field_step (f : field) : step :=
  match f with
  | FPhone => phone
  | FCurrentCity => current_city
  | FCities => cities_to_visit
  | FDays => days
  | FPeople => people
  | FTranslator => need_translator
  | FDates => start_date
  end.

(** The marker that the edit menu leaves for a field: its name, and for the
    dates nothing. *)
Definition field_marker (f : field) : value :=
  match f with
  | FPhone => VStr (lit "phone")
  | FCurrentCity => VStr (lit "current_city")
  | FCities => VStr (lit "cities")
  | FDays => VStr (lit "days")
  | FPeople => VStr (lit "people")
  | FTranslator => VStr (lit "translator")
  | FDates => VNone
  end.

(** The cities step between two updates: the step is [cities_to_visit], the
    two lists are [lists], and the rest of the data dict is as in [w0] but
    for the identifier of the last bot message. *)
Definition choosing_cities (w0 : world) (lists : list str * list str) (w : world) : Prop :=
  fsm_state w = Some cities_to_visit
  /\ cities_stored (fsm_data w) lists.1 lists.2
  /\ (forall k, k <> lit "cities_to_visit" -> k <> lit "other_cities" ->
      k <> lit "last_bot_message_id" -> fsm_data w !! k = fsm_data w0 !! k).

(** *** Sample inputs *)

(** A world with the given step and data dict, no file written yet *)
Definition fresh_world (st : step) (d : gmap str value) : world :=
  World (Some st) d None None None [] 1.

(** The third of November 2026, ten o'clock *)
Definition sample_env : env :=
  Env (2026, 11, 3) (lit "2026-11-03T10:00:00") (lit "3f2b8c1e-sample").

Definition press (data : string) : callback := Callback 7 10 (lit data).

Definition typed (t : string) : message := Message 11 (Some (lit t)) None None.

(** A request that an administrator has already handled *)
Definition handled_request : json :=
  JObj [(lit "id", JStr (lit "r1"));
        (lit "status", JStr (lit "processed"));
        (lit "created_at", JStr (lit "2026-11-01T09:00:00"));
        (lit "payload", JObj []);
        (lit "processed_by", JInt 5);
        (lit "processed_at", JStr (lit "2026-11-02T09:00:00"))].

(** A world whose two JSON files hold the given contents *)
Definition stored_world (pending language : file) : world :=
  World None ∅ None pending language [] 1.

(** What [mark_request_processed] writes into the entry it finds *)
Definition stamped (e : env) (admin_id : Z) (o : list (str * json)) : list (str * json) :=
  obj_set (lit "processed_at") (JStr (now_iso e))
    (obj_set (lit "processed_by") (JInt admin_id)
       (obj_set (lit "status") (JStr (lit "processed")) o)).

(** ** The language preference, the commands and the helpers of the panel

    The functions of handlers/travel_handlers.py and
    keyboards/travel_keyboards.py that the questionnaire steps above do not
    call. *)

Definition with_lang (f : file) (w : world) : world :=
  World (fsm_state w) (fsm_data w) (users_csv w) (pending_file w) f
        (sent w) (next_message_id w).

(** [save_user_language(user_id, lang_code)]. The file is read first: only a
    [JSONDecodeError] is caught there, and a document that is not an object
    refuses the item assignment with a [TypeError]. Nothing is written when
    the reading or the assignment raises. *)
Definition save_user_language (user_id : Z) (lang : str) : M unit :=
  fun w =>
    let write (user_languages : list (str * json)) :=
      (Ok tt,
       with_lang
         (Some (Document (JObj (obj_set (str_of_Z user_id) (JStr lang) user_languages)))) w) in
    match lang_file w with
    | None => write []
    | Some Unreadable => (Raise OSError, w)
    | Some NotUtf8 => (Raise UnicodeDecodeError, w)
    | Some NotJson => write []
    | Some (Document (JObj o)) => write o
    | Some (Document _) => (Raise TypeError, w)
    end.

(** The name fields of a Telegram user: [first_name] is always there,
    possibly empty, the other two may be [None]. *)
Record profile := Profile {
  first_name : str;
  last_name : option str;
  username : option str
}.

(** [extract_user_names(user)] *)
Definition extract_user_names (user : profile) : str * str :=
  let chosen :=
    match first_name user with
    | _ :: _ => first_name user
    | [] =>
        match username user with
        | Some (c :: name) => c :: name
        | _ => lit "Traveler"
        end
    end in
  let first := strip chosen in
  let last := strip (default [] (last_name user)) in
  let full :=
    match last with
    | [] => first
    | _ :: _ => strip (first ++ lit " " ++ last)
    end in
  (first, full).

(** [combine_cities(data)] on a payload as the bot writes it: a list
    contributes its elements, any other true value itself, and what is
    false is dropped at the end. *)
Definition combine_cities (data : gmap str value) : list value :=
  let cities := get_or data "cities_to_visit" (VList []) in
  let other_cities := get_or data "other_cities" (VList []) in
  let gathered (v : value) : list value :=
    match v with
    | VList l => map VStr l
    | _ => if truthy v then [v] else []
    end in
  List.filter truthy (gathered cities ++ gathered other_cities).

(** [s[:k]]: a negative [k] counts from the end *)
Definition slice_to (k : Z) (s : str) : str :=
  if 0 <=? k then take (Z.to_nat k) s
  else take (Z.to_nat (Z.of_nat (length s) + k)) s.

(** [truncate_label(text, limit)]; [limit] defaults to 40 *)
Definition truncate_label (text : str) (limit : Z) : str :=
  let value := strip text in
  if Z.of_nat (length value) <=? limit then value
  else slice_to (limit - 1) value ++ lit "…".

(** [get_language_selection_keyboard(current_lang_code)]
    (keyboards/travel_keyboards.py) *)
Definition get_language_selection_keyboard (current_lang_code : value) : markup :=
  InlineKeyboard
    (map (fun language : string * string =>
            Button (if eq_str current_lang_code (lit language.1)
                    then TCat [TLit language.2; TLit " ✅"]
                    else TLit language.2)
                   (lit "lang_select_" ++ lit language.1))
         [("ru", "🇷🇺 Русский"); ("en", "🇬🇧 English"); ("de", "🇩🇪 Deutsch")]%string).

(** [start_phone_collection(message_or_callback, state, lang_code)] for a
    sender whose profile is [user] *)
Definition start_phone_collection (user : profile) (lang : value) : M unit :=
  let* data := get_data in
  let stored_name := get data "first_name" in
  let* name :=
    if truthy stored_name then ret stored_name
    else
      let names := extract_user_names user in
      do update_data [("first_name"%string, VStr names.1);
                      ("full_name"%string, VStr names.2)] in
      ret (VStr names.1) in
  do delete_previous_bot_message in
  let* _ := answer (TFormat (TGet lang "welcome") [("first_name"%string, TVal name)]) None in
  let* bot_msg := answer (TGet lang "share_phone") (Some (get_phone_keyboard lang)) in
  do update_last_bot_message_id bot_msg in
  set_state phone.

(** [process_language_selection(callback, state)], registered for the
    payloads prefixed [lang_select_] in step [lang_code]; [upper] is
    [str.upper] of the runtime. The deletion of the panel message is taken
    to succeed, as the other calls to Telegram. *)
Definition process_language_selection (upper : str -> str) (user : profile)
    (c : callback) : M unit :=
  let lang_code_new := remove_all (lit "lang_select_") (cb_data c) in
  let user_id := cb_user c in
  do update_data [("user_id"%string, VInt user_id);
                  ("lang_code"%string, VStr lang_code_new)] in
  do save_user_language user_id lang_code_new in
  let* data := get_data in
  let change_language_only := get data "change_language_only" in
  do send (DeleteMessage (VInt (cb_message_id c))) in
  do (if truthy change_language_only then
        let* bot_msg :=
          answer (TFormat (TGet (VStr lang_code_new) "language_changed")
                    [("language"%string, TStr (upper lang_code_new))]) None in
        do update_last_bot_message_id bot_msg in
        clear
      else
        do update_data [("change_language_only"%string, VBool false)] in
        start_phone_collection user (VStr lang_code_new)) in
  send (CallbackAnswer None false).

(** *** The commands

    Each of [/help], [/support] and [/language] has two handlers in the
    file; the router keeps both and runs the one registered first, which is
    the one modelled here. The stored language enters the data dict as a
    value: a JSON float, object or list of anything but strings is outside
    the values of the model, and a command that reads such a language gives
    [None]. *)
Definition of_json (j : json) : option value :=
  match j with
  | JNull => Some VNone
  | JBool b => Some (VBool b)
  | JInt z => Some (VInt z)
  | JStr s => Some (VStr s)
  | JArr items =>
      VList <$> mapM (fun i => match i with JStr s => Some s | _ => None end) items
  | JFloat _ | JObj _ => None
  end.

(** [before], then [get_user_language(user_id)], then [after] on what was
    read *)
Definition reading_language (user_id : Z) (before : M unit) (after : value -> M unit)
    : world -> option (res unit * world) :=
  fun w =>
    match before w with
    | (Raise x, w1) => Some (Raise x, w1)
    | (Ok _, w1) =>
        match get_user_language user_id w1 with
        | (Raise x, w2) => Some (Raise x, w2)
        | (Ok j, w2) => (fun lang => after lang w2) <$> of_json j
        end
    end.

(** [cmd_start(message, state)] for the sender [user_id] with profile
    [user] *)
Definition cmd_start (user_id : Z) (user : profile)
    : world -> option (res unit * world) :=
  reading_language user_id clear (fun lang =>
    let names := extract_user_names user in
    do update_data
         ([("user_id"%string, VInt user_id);
           ("first_name"%string, VStr names.1);
           ("full_name"%string, VStr names.2);
           ("change_language_only"%string, VBool false)]
          ++ (if truthy lang then [("lang_code"%string, lang)] else [])) in
    if truthy lang then start_phone_collection user lang
    else
      let prefix :=
        match names.1 with
        | [] => TLit ""
        | _ :: _ => TCat [TStr names.1; TLit ", "]
        end in
      let* bot_msg :=
        answer (TCat [prefix; TGet (VStr (lit "en")) "choose_language"])
               (Some (get_language_selection_keyboard (VStr (lit "en")))) in
      do update_last_bot_message_id bot_msg in
      set_state lang_code).

(** What [/help], [/support] and [/language] share: the previous prompt is
    deleted, the stored language is read, the conversation is cleared and
    started anew with the user and the language, and the command message is
    deleted. *)
Definition restarting (user_id : Z) (m : message) (extra : list (string * value))
    (reply : value -> M unit) : world -> option (res unit * world) :=
  reading_language user_id delete_previous_bot_message (fun stored =>
    let persisted_lang := if truthy stored then stored else VStr (lit "en") in
    do clear in
    do update_data ([("user_id"%string, VInt user_id);
                     ("lang_code"%string, persisted_lang)] ++ extra) in
    do safe_delete_message (VInt (message_id m)) in
    reply persisted_lang).

Definition cmd_help (user_id : Z) (m : message) : world -> option (res unit * world) :=
  restarting user_id m [] (fun lang =>
    let* bot_msg := answer (TGet lang "help_message") None in
    update_last_bot_message_id bot_msg).

Definition cmd_support (user_id : Z) (m : message) : world -> option (res unit * world) :=
  restarting user_id m [] (fun lang =>
    let* bot_msg := answer (TGet lang "support_message") None in
    update_last_bot_message_id bot_msg).

Definition cmd_language (user_id : Z) (m : message) : world -> option (res unit * world) :=
  restarting user_id m [("change_language_only"%string, VBool true)] (fun lang =>
    let* bot_msg :=
      answer (TGet lang "change_language_message")
             (Some (get_language_selection_keyboard lang)) in
    do update_last_bot_message_id bot_msg in
    set_state lang_code).

(** *** Vocabulary of the further statements *)

(** The data dict that holds the given entries and nothing else *)
Definition entries_of (kvs : list (string * value)) : gmap str value :=
  fold_left (fun d kv => <[lit kv.1 := kv.2]> d) kvs ∅.

(** The dict that [save_user_language] starts from: empty when the file is
    absent or is not JSON, the object of the file when it holds one; [None]
    when the reading or the item assignment raises. *)
Definition languages_of (f : file) : option (list (str * json)) :=
  match f with
  | None | Some NotJson => Some []
  | Some (Document (JObj o)) => Some o
  | _ => None
  end.

(** A command has started the conversation anew: the step is [st], the data
    dict holds the user, the language, the entries [more] and the
    identifier of the reply, and the three files are as they were. *)
Definition restarted (user_id : Z) (lang : value) (more : list (string * value))
    (st : option step) (w w' : world) : Prop :=
  fsm_state w' = st
  /\ fsm_data w' =
       entries_of ([("user_id"%string, VInt user_id); ("lang_code"%string, lang)]
                   ++ more
                   ++ [("last_bot_message_id"%string, VInt (next_message_id w))])
  /\ users_csv w' = users_csv w
  /\ pending_file w' = pending_file w
  /\ lang_file w' = lang_file w.

(** The entries of a list are dicts and none has the identifier
    [request_id]. *)
Definition others (request_id : str) (entries : list json) : Prop :=
  Forall (fun entry =>
            exists o, entry = JObj o
                      /\ json_eq_str (default JNull (obj_get (lit "id") o)) request_id = false)
         entries.

(** No step handler takes the message [m] in the step [st]: there is no
    conversation, the step waits for a button, or it is the phone or the
    city step and the message does not pass the filter of its handler. *)
Definition unexpected (st : option step) (m : message) : bool :=
  match st with
  | Some phone =>
      negb (is_Some_b (msg_contact m) || phone_regexp (default [] (msg_text m)))
  | Some current_city => negb (is_Some_b (msg_location m) || has_text m)
  | Some other_city | Some other_days | Some other_people | Some other_language
  | Some other_referral => false
  | _ => true
  end.

(** The month that an arrow of the calendar of month [m] of year [y] leads
    to *)
Definition arrow_target (forward : bool) (y m : Z) : Z * Z :=
  if forward then (if m =? 12 then (y + 1, 1) else (y, m + 1))
  else (if m =? 1 then (y - 1, 12) else (y, m - 1)).

(** The payload that [get_calendar_keyboard] gives to an arrow *)
Definition arrow_payload (forward : bool) (y m : Z) : str :=
  (if forward then lit "cal_next_" else lit "cal_prev_")
  ++ str_of_Z y ++ lit "_" ++ str_of_Z m.

(** *** More sample inputs *)

Definition sample_profile : profile :=
  Profile (lit "Aisha") (Some (lit " Karimova ")) None.

(** A language file that holds German for the user 7 *)
Definition sample_languages : file :=
  Some (Document (JObj [(lit "7", JStr (lit "de"))])).

(** The answers of a user who has reached the review *)
Definition sample_answers : gmap str value :=
  entries_of [("phone", VStr (lit "+7900000"));
              ("current_city", VStr (lit "Kazan"));
              ("cities_to_visit", VList [lit "Дубай"]);
              ("other_cities", VList []);
              ("days", VStr (lit "7"));
              ("people", VStr (lit "2"));
              ("need_translator", VStr (lit "No"))]%string.

(** A request that waits for an administrator *)
Definition new_request (id : string) : json :=
  JObj [(lit "id", JStr (lit id));
        (lit "status", JStr (lit "new"));
        (lit "created_at", JStr (lit "2026-11-01T09:00:00"));
        (lit "payload", JObj [])].

Definition sample_queue : file :=
  Some (Document (JArr [new_request "r1"; new_request "r2"])).


(** * Properties *)

Arguments lit : simpl never.
Arguments get_or : simpl never.
Arguments get : simpl never.

(** ** Phone numbers *)

Lemma filter_nonempty {A} (f : A -> bool) (l : list A) :
  existsb f l = true -> List.filter f l <> [].
Proof.
  induction l as [|x l IH]; simpl; [discriminate|].
  destruct (f x); [discriminate|]. exact IH.
Qed.

Lemma filter_all {A} (f : A -> bool) (l : list A) :
  Forall (fun x => f x = true) (List.filter f l).
Proof.
  induction l as [|x l IH]; simpl; [constructor|].
  destruct (f x) eqn:E; [constructor; assumption|assumption].
Qed.

Lemma filter_none {A} (f : A -> bool) (l : list A) :
  existsb f l = false -> List.filter f l = [].
Proof.
  induction l as [|x l IH]; simpl; [reflexivity|].
  destruct (f x); [discriminate|]. exact IH.
Qed.

(** C2. A phone text with at least one digit is normalised to [+] followed
    by its digits, in their order, and nothing else. *)
Theorem format_phone_number_digits (p : str) :
  existsb is_decimal p = true ->
  format_phone_number (Some p) = 43%N :: List.filter is_decimal p
  /\ Forall (fun c => is_decimal c = true) (List.filter is_decimal p).
Proof.
  intros Hd. split; [|apply filter_all].
  pose proof (filter_nonempty _ _ Hd) as Hne.
  unfold format_phone_number.
  destruct p as [|c p]; [discriminate|].
  destruct (List.filter is_decimal (c :: p)); [contradiction|reflexivity].
Qed.

(** C10. [None] and a text without digits are normalised to the empty
    string, never to a lone [+]; so a non-empty normalised phone is [+]
    followed by at least one digit and by digits only. *)
Theorem format_phone_number_empty_or_plus (phone : option str) :
  (phone = None \/ (exists p, phone = Some p /\ existsb is_decimal p = false) ->
   format_phone_number phone = [])
  /\ (format_phone_number phone <> [] ->
      exists d ds, format_phone_number phone = 43%N :: d :: ds
                   /\ Forall (fun c => is_decimal c = true) (d :: ds)).
Proof.
  split.
  - intros [-> | (p & -> & Hnone)]; [reflexivity|].
    unfold format_phone_number. destruct p as [|c p]; [reflexivity|].
    rewrite (filter_none _ _ Hnone). reflexivity.
  - destruct phone as [p|]; [|intros H; contradiction H; reflexivity].
    unfold format_phone_number. destruct p as [|c p]; [intros H; contradiction H; reflexivity|].
    pose proof (filter_all is_decimal (c :: p)) as Hall.
    destruct (List.filter is_decimal (c :: p)) as [|d ds]; [intros H; contradiction H; reflexivity|].
    intros _. exists d, ds. split; [reflexivity|assumption].
Qed.

(** ** Reading the data dict *)

Ltac key_neq := let H := fresh in intros H; vm_compute in H; discriminate H.

Lemma get_or_insert_eq (d : gmap str value) k v dflt :
  get_or (<[lit k := v]> d) k dflt = v.
Proof. unfold get_or. by rewrite lookup_insert_eq. Qed.

Lemma get_or_insert_ne (d : gmap str value) k k' v dflt :
  lit k <> lit k' -> get_or (<[lit k := v]> d) k' dflt = get_or d k' dflt.
Proof. intros H. unfold get_or. by rewrite lookup_insert_ne. Qed.

Lemma get_insert_eq (d : gmap str value) k v : get (<[lit k := v]> d) k = v.
Proof. apply get_or_insert_eq. Qed.

Lemma get_insert_ne (d : gmap str value) k k' v :
  lit k <> lit k' -> get (<[lit k := v]> d) k' = get d k'.
Proof. apply get_or_insert_ne. Qed.

Lemma city_lists_insert (d : gmap str value) k v sel oth :
  lit k <> lit "cities_to_visit" -> lit k <> lit "other_cities" ->
  city_lists d sel oth -> city_lists (<[lit k := v]> d) sel oth.
Proof.
  intros H1 H2 [Hs Ho]. unfold city_lists. by rewrite !get_or_insert_ne.
Qed.

Lemma well_typed_insert (d : gmap str value) k v :
  lit k <> lit "cities_to_visit" -> lit k <> lit "other_cities" ->
  well_typed d -> well_typed (<[lit k := v]> d).
Proof.
  intros H1 H2 (sel & oth & H). exists sel, oth. by apply city_lists_insert.
Qed.

(** Symbolic execution of a handler: unfold the monad, keep the text and
    dictionary primitives folded. *)
Ltac exec :=
  repeat progress
    (unfold delete_previous_bot_message, safe_delete_message,
            update_last_bot_message_id, get_user_lang_code, stripped_text,
            int_of_text, parsed_int, item, when,
            bind, ret, lift, raise, try_except, get_data, update_data,
            set_state, get_state, clear, edit_text, send, answer;
     cbn -[lit get_or get remove_all remove_first format_phone_number strip py_int
           str_of_Z get_cities_keyboard get_calendar_keyboard show_review
           show_start_date_calendar finalize_submission message_phone reprompt
           extract_admin_payload logged_before logged_record pending_entry
           Z.add Z.ltb Z.eqb Z.leb Nat.ltb Nat.leb length startswith is_substring
           split_on]).

Ltac read_dict :=
  repeat first
    [ rewrite get_or_insert_eq
    | rewrite get_insert_eq
    | rewrite get_or_insert_ne by key_neq
    | rewrite get_insert_ne by key_neq ].

Lemma get_cities_keyboard_ok (sel oth : list str) (lang : value) :
  exists buttons,
    get_cities_keyboard (VList sel) (VList oth) lang = Ok (InlineKeyboard buttons).
Proof. unfold get_cities_keyboard. simpl. eexists. reflexivity. Qed.

(** [show_review] on a message: one new message, whose identifier is
    remembered, and the step becomes [review]. *)
Lemma show_review_on_message (w : world) :
  well_typed (fsm_data w) ->
  exists acts,
    show_review OnMessage w =
      (Ok tt,
       World (Some review)
             (<[lit "last_bot_message_id" := VInt (next_message_id w)]> (fsm_data w))
             (users_csv w) (pending_file w) (lang_file w)
             (sent w ++ acts) (next_message_id w + 1)).
Proof.
  intros (sel & oth & Hs & Ho).
  destruct w as [st d csv pf lf out nid]. simpl in *.
  unfold show_review. exec. rewrite Hs, Ho. exec.
  destruct (sel ++ oth) eqn:E; exec;
    destruct (truthy (get d "last_bot_message_id")); exec;
    rewrite <- ?app_assoc; eexists; reflexivity.
Qed.

(** ** Routing *)

Lemma startswith_head (p data : str) (c0 : N) :
  startswith p data = true -> head p = Some c0 -> exists rest, data = c0 :: rest.
Proof.
  destruct p as [|a p]; [discriminate|]. intros H [= ->].
  destruct data as [|b data]; [discriminate|]. simpl in H.
  apply andb_true_iff in H as [H _]. apply N.eqb_eq in H. subst. eauto.
Qed.

(** A payload whose prefix does not begin with [a] is not for the
    administrators' handlers. *)
Lemma route_callback_questionnaire (e : env) (st : option step) (c : callback)
    (p : str) (c0 : N) :
  startswith p (cb_data c) = true -> head p = Some c0 -> c0 <> 97%N ->
  route_callback e st c =
    match st with
    | Some lang_code =>
        if startswith (lit "lang_select_") (cb_data c) then None else Some (ret tt)
    | Some cities_to_visit =>
        when (startswith (lit "city_") (cb_data c)) (process_city_selection c)
    | Some days => when (startswith (lit "days_") (cb_data c)) (process_days c)
    | Some people => when (startswith (lit "people_") (cb_data c)) (process_people c)
    | Some need_translator =>
        when (startswith (lit "translator_") (cb_data c)) (process_translator e c)
    | Some translator_language =>
        when (startswith (lit "lang_") (cb_data c)) (process_language e c)
    | Some review =>
        if bool_decide (cb_data c = lit "review_confirm") then Some (process_confirm c)
        else if bool_decide (cb_data c = lit "review_edit") then Some (process_edit_choice c)
        else when (startswith (lit "edit_") (cb_data c)) (process_edit_field e c)
    | Some referral_source =>
        when (startswith (lit "ref_") (cb_data c)) (process_referral_source e c)
    | Some start_date =>
        when (startswith (lit "cal_") (cb_data c)) (process_date_calendar e c)
    | _ => Some (ret tt)
    end.
Proof.
  intros Hp Hh Hc0. destruct (startswith_head _ _ _ Hp Hh) as [rest Hd].
  unfold route_callback. rewrite Hd.
  assert (Hne : (97 =? c0)%N = false) by (apply N.eqb_neq; congruence).
  rewrite bool_decide_eq_false_2.
  2:{ vm_compute. intros [= H]. congruence. }
  change (startswith (lit "admin_req_done_") (c0 :: rest))
    with ((97 =? c0)%N && startswith (skipn 1 (lit "admin_req_done_")) rest).
  change (startswith (lit "admin_req_") (c0 :: rest))
    with ((97 =? c0)%N && startswith (skipn 1 (lit "admin_req_")) rest).
  rewrite Hne. reflexivity.
Qed.

Ltac route p :=
  unfold dispatch;
  match goal with
  | Hst : fsm_state ?w = Some _, Hp : startswith p (cb_data ?c) = true |- _ =>
      rewrite (route_callback_questionnaire _ _ c p _ Hp eq_refl)
        by (vm_compute; discriminate);
      rewrite Hst, ?Hp
  end.

(** A message that is not left to the command handlers reaches the handler
    of the step. *)
Ltac deliver :=
  unfold dispatch, route_message;
  match goal with
  | H : has_command_prefix _ = false |- _ => rewrite H
  end;
  cbn [fmap option_fmap option_map].




Ltac fields :=
  cbv [with_state with_data with_csv with_pending with_sent with_next_id
       fsm_state fsm_data users_csv pending_file lang_file sent next_message_id] in *.

(** Comparisons of two literals *)
Ltac literals :=
  repeat match goal with
    | |- context [bool_decide (lit ?a = lit ?b)] =>
        first [ rewrite (bool_decide_eq_true_2 (lit a = lit b)) by reflexivity
              | rewrite (bool_decide_eq_false_2 (lit a = lit b)) by key_neq ]
    end.

Ltac go := repeat progress (exec; literals; read_dict).

Ltac reviewed :=
  match goal with
  | |- context [show_review OnMessage ?w0] =>
      let acts := fresh "acts" in
      let H := fresh in
      assert (H : well_typed (fsm_data w0));
      [ fields | destruct (show_review_on_message w0 H) as [acts ->]; clear H ]
  end.

(** ** The cities step *)

Lemma remove_one_appended (c : str) (l : list str) :
  c ∉ l -> remove_one c (l ++ [c]) = Some l.
Proof.
  induction l as [|x l IH]; intros Hn; simpl.
  - by rewrite bool_decide_eq_true_2.
  - rewrite bool_decide_eq_false_2 by (intros ->; apply Hn; left).
    rewrite IH; [reflexivity|]. intros H. apply Hn. by right.
Qed.

(** C5. [done] in the cities step is refused, with an alert and nothing
    else, exactly when both city lists are empty; otherwise the
    conversation moves on, to the review when the cities are being edited
    and to the days otherwise. *)
Theorem city_done_rejected_iff_empty (e : env) (c : callback) (w : world)
    (sel oth : list str) :
  fsm_state w = Some cities_to_visit ->
  startswith (lit "city_") (cb_data c) = true ->
  remove_all (lit "city_") (cb_data c) = lit "done" ->
  city_lists (fsm_data w) sel oth ->
  let lang := get_or (fsm_data w) "lang_code" (VStr (lit "en")) in
  let alert := CallbackAnswer (Some (TGet lang "select_at_least_one_city")) true in
  (dispatch e (Press c) w = Some (Ok tt, with_sent (sent w ++ [alert]) w)
   <-> sel = [] /\ oth = [])
  /\ (~ (sel = [] /\ oth = []) ->
      exists w',
        dispatch e (Press c) w = Some (Ok tt, w')
        /\ if eq_str (get (fsm_data w) "editing_field") (lit "cities")
           then fsm_state w' = Some review
                /\ get (fsm_data w') "editing_field" = VNone
                /\ city_lists (fsm_data w') sel oth
           else fsm_state w' = Some days /\ fsm_data w' = fsm_data w).
Proof.
  intros Hst Hp Hdone [Hs Ho] lang alert.
  assert (Hrun : dispatch e (Press c) w = Some (process_city_selection c w)).
  { route (lit "city_"). reflexivity. }
  rewrite Hrun. clear Hrun.
  destruct w as [st d csv pf lf out nid]. fields. subst st lang alert.
  assert (Htyped : forall k v, lit k <> lit "cities_to_visit" -> lit k <> lit "other_cities" ->
            well_typed (<[lit k := v]> d)).
  { intros. apply well_typed_insert; [done..|]. by exists sel, oth. }
  unfold process_city_selection. go. rewrite Hdone, Hs, Ho. go.
  assert (Hlen : (Z.of_nat (length sel) + Z.of_nat (length oth) =? 0)
                 = match sel, oth with [], [] => true | _, _ => false end).
  { destruct sel, oth; simpl; try reflexivity; apply Z.eqb_neq; lia. }
  rewrite Hlen. clear Hlen.
  assert (Hcases : (sel = [] /\ oth = []) \/ (exists x l, sel = x :: l \/ (sel = [] /\ oth = x :: l))).
  { destruct sel as [|x l]; [destruct oth as [|x l]|]; eauto 6. }
  destruct Hcases as [[-> ->] | (x & l & Hcase)].
  - split; [split; [done|reflexivity]|]. intros H. contradiction H. done.
  - assert (Hmatch : match sel, oth with [], [] => true | _, _ => false end = false).
    { destruct Hcase as [-> | [-> ->]]; reflexivity. }
    rewrite Hmatch.
    assert (Hne : ~ (sel = [] /\ oth = [])).
    { intros [-> ->]. destruct Hcase as [[=] | [_ [=]]]. }
    destruct (eq_str (get d "editing_field") (lit "cities")).
    + go. reviewed; [apply Htyped; key_neq|]. go.
      split; [split; [intros [= ?]; lia | intros H; contradiction]|].
      intros _. eexists. split; [reflexivity|]. fields. read_dict.
      split; [done|]. split; [done|].
      apply city_lists_insert; [key_neq..|].
      apply city_lists_insert; [key_neq..|done].
    + go. split; [split; [intros [= ?] | intros H; contradiction]|].
      intros _. eexists. split; [reflexivity|]. done.
Qed.

Ltac keyboard :=
  match goal with
  | |- context [get_cities_keyboard (VList ?a) (VList ?b) ?l] =>
      let kb := fresh "kb" in
      destruct (get_cities_keyboard_ok a b l) as [kb ->]
  end.

Lemma remove_one_member (c : str) (l : list str) :
  c ∈ l -> exists l', remove_one c l = Some l'.
Proof.
  induction l as [|x l IH]; intros Hin; [by apply elem_of_nil in Hin|].
  simpl. destruct (bool_decide (x = c)) eqn:E; [eauto|].
  apply bool_decide_eq_false in E.
  apply elem_of_cons in Hin as [->|Hin]; [done|].
  destruct (IH Hin) as [l' ->]. eauto.
Qed.

Lemma city_lists_with_cities (d : gmap str value) (lists : list str * list str) :
  city_lists (with_cities lists d) lists.1 lists.2.
Proof. unfold city_lists, with_cities. split; by read_dict. Qed.

(** One toggle: the lists change as [toggle_lists] says, the keyboard is
    redrawn, and nothing else changes. *)
Lemma process_city_selection_toggle (c : callback) (w : world) (sel oth : list str) :
  remove_all (lit "city_") (cb_data c) <> lit "done" ->
  remove_all (lit "city_") (cb_data c) <> lit "other" ->
  city_lists (fsm_data w) sel oth ->
  exists acts,
    process_city_selection c w =
      (Ok tt,
       with_sent (sent w ++ acts)
         (with_data
            (with_cities (toggle_lists (remove_all (lit "city_") (cb_data c)) (sel, oth))
                         (fsm_data w)) w)).
Proof.
  intros Hdone Hother [Hs Ho].
  destruct w as [st d csv pf lf out nid]. fields.
  unfold process_city_selection, toggle_lists, with_cities. go.
  rewrite (bool_decide_eq_false_2 _ Hdone), (bool_decide_eq_false_2 _ Hother).
  rewrite Hs, Ho. go.
  set (city := remove_all (lit "city_") (cb_data c)).
  destruct (bool_decide (city ∈ sel)) eqn:E1; go.
  { apply bool_decide_eq_true in E1.
    destruct (remove_one_member _ _ E1) as [l' ->]. go. keyboard. go.
    rewrite <- app_assoc. eexists. reflexivity. }
  destruct (bool_decide (city ∈ oth)) eqn:E2; go.
  { apply bool_decide_eq_true in E2.
    destruct (remove_one_member _ _ E2) as [l' ->]. go. keyboard. go.
    rewrite <- app_assoc. eexists. reflexivity. }
  lazymatch goal with
  | |- context [if bool_decide (?x ∈ ?l) then _ else _] =>
      destruct (bool_decide (x ∈ l))
  end; go; keyboard; go; rewrite <- app_assoc; eexists; reflexivity.
Qed.

Lemma toggle_lists_absent (city : str) (sel oth : list str) :
  city ∉ sel -> city ∉ oth ->
  let lists := toggle_lists city (sel, oth) in
  ((city ∈ lists.1 /\ city ∉ lists.2) \/ ((city ∉ lists.1) /\ city ∈ lists.2))
  /\ toggle_lists city lists = (sel, oth).
Proof.
  intros Hs Ho. unfold toggle_lists.
  rewrite (bool_decide_eq_false_2 _ Hs), (bool_decide_eq_false_2 _ Ho).
  destruct (bool_decide (city ∈ map lit known_cities)); cbn [fst snd].
  - split; [left; split; [set_solver|done]|].
    rewrite bool_decide_eq_true_2 by set_solver.
    by rewrite remove_one_appended.
  - split; [right; split; [done|set_solver]|].
    rewrite (bool_decide_eq_false_2 _ Hs).
    rewrite bool_decide_eq_true_2 by set_solver.
    by rewrite remove_one_appended.
Qed.

(** C4. Toggling a city that is in neither list puts it into exactly one of
    them; toggling it again takes it out, and both lists are as they were. *)
Theorem city_toggle_twice (e1 e2 : env) (c : callback) (w : world)
    (sel oth : list str) :
  fsm_state w = Some cities_to_visit ->
  startswith (lit "city_") (cb_data c) = true ->
  let city := remove_all (lit "city_") (cb_data c) in
  city <> lit "done" -> city <> lit "other" ->
  city_lists (fsm_data w) sel oth ->
  (city ∉ sel) -> (city ∉ oth) ->
  exists w1 w2 sel1 oth1,
    dispatch e1 (Press c) w = Some (Ok tt, w1)
    /\ fsm_state w1 = Some cities_to_visit
    /\ city_lists (fsm_data w1) sel1 oth1
    /\ ((city ∈ sel1 /\ city ∉ oth1) \/ ((city ∉ sel1) /\ city ∈ oth1))
    /\ dispatch e2 (Press c) w1 = Some (Ok tt, w2)
    /\ fsm_state w2 = Some cities_to_visit
    /\ city_lists (fsm_data w2) sel oth
    /\ (forall k, k <> lit "cities_to_visit" -> k <> lit "other_cities" ->
        fsm_data w2 !! k = fsm_data w !! k).
Proof.
  intros Hst Hp city Hdone Hother Hlists Hnsel Hnoth.
  assert (Hrun : forall e (w0 : world), fsm_state w0 = Some cities_to_visit ->
            dispatch e (Press c) w0 = Some (process_city_selection c w0)).
  { intros e w0 Hst0. route (lit "city_"). reflexivity. }
  destruct (toggle_lists_absent city sel oth Hnsel Hnoth) as [Hone Hback].
  destruct (process_city_selection_toggle c w sel oth Hdone Hother Hlists)
    as [acts1 H1].
  fold city in H1.
  set (lists1 := toggle_lists city (sel, oth)) in *.
  set (w1 := with_sent (sent w ++ acts1)
               (with_data (with_cities lists1 (fsm_data w)) w)) in *.
  assert (Hlists1 : city_lists (fsm_data w1) lists1.1 lists1.2)
    by apply city_lists_with_cities.
  destruct (process_city_selection_toggle c w1 _ _ Hdone Hother Hlists1)
    as [acts2 H2].
  fold city in H2. rewrite <- surjective_pairing, Hback in H2.
  exists w1, (with_sent (sent w1 ++ acts2)
                (with_data (with_cities (sel, oth) (fsm_data w1)) w1)),
         lists1.1, lists1.2.
  rewrite !Hrun by (destruct w; exact Hst).
  rewrite H1, H2.
  split; [reflexivity|]. split; [destruct w; exact Hst|].
  split; [exact Hlists1|]. split; [exact Hone|].
  split; [reflexivity|]. split; [destruct w; exact Hst|].
  split; [apply (city_lists_with_cities _ (sel, oth))|].
  intros k Hk1 Hk2. destruct w. subst w1. fields. unfold with_cities.
  by rewrite !lookup_insert_ne.
Qed.

(** ** Custom numbers *)

Lemma reprompt_refused (lang_key : string) (m : message) (w : world) :
  exists w',
    reprompt (get_or (fsm_data w) "lang_code" (VStr (lit "en"))) lang_key m w = (Ok tt, w')
    /\ refused lang_key w w'.
Proof.
  destruct w as [st d csv pf lf out nid]. unfold refused, reprompt. go.
  destruct (truthy (get d "last_bot_message_id")); go;
    (eexists; split; [reflexivity|]; fields;
     split; [reflexivity|]; split;
     [intros k Hk; by rewrite lookup_insert_ne
     |rewrite <- ?app_assoc; eexists; reflexivity]).
Qed.

(** C6. Of the entries that are not left to the command handlers, a custom
    number of days is taken exactly when the text parses as an integer of
    at least 1, a custom number of people exactly when it parses as an
    integer of at least 5; any other entry is answered with the error text
    and changes neither the step nor the stored answers. *)
Theorem custom_numbers (e : env) (m : message) (w : world) :
  well_typed (fsm_data w) ->
  has_command_prefix m = false ->
  (fsm_state w = Some other_days ->
   exists w',
     dispatch e (Msg m) w = Some (Ok tt, w')
     /\ match typed_number m with
        | Some n =>
            if 1 <=? n then number_taken "days" n people w w'
            else refused "invalid_number" w w'
        | None => refused "invalid_number" w w'
        end)
  /\ (fsm_state w = Some other_people ->
      exists w',
        dispatch e (Msg m) w = Some (Ok tt, w')
        /\ match typed_number m with
           | Some n =>
               if 5 <=? n then number_taken "people" n need_translator w w'
               else refused "invalid_number_5_or_more" w w'
           | None => refused "invalid_number_5_or_more" w w'
           end).
Proof.
  intros Hw Hplain. split; intros Hst; deliver; rewrite Hst;
    unfold typed_number.
  - unfold process_other_days.
    destruct (reprompt_refused "invalid_number" m w) as (wr & Hr & Href).
    destruct w as [st d csv pf lf out nid]. fields. subst st.
    go. destruct (msg_text m) as [t|]; go.
    2:{ rewrite Hr. eauto. }
    destruct (py_int (strip t)) as [n|]; go.
    2:{ rewrite Hr. eauto. }
    destruct (Z.ltb_spec n 1) as [Hlt|Hge].
    { go. rewrite Hr. rewrite (proj2 (Z.leb_gt 1 n)) by lia. eauto. }
    rewrite (proj2 (Z.leb_le 1 n)) by lia. unfold number_taken. fields.
    go. destruct (truthy (get d "last_bot_message_id")); go;
      destruct (eq_str (get d "editing_field") (lit "days")); go;
      try (reviewed; [repeat apply well_typed_insert; try key_neq; done|]);
      go; eexists; (split; [reflexivity|]); fields;
      (split; [|reflexivity]);
      repeat (rewrite lookup_insert_ne by key_neq); by rewrite lookup_insert_eq.
  - unfold process_other_people.
    destruct (reprompt_refused "invalid_number_5_or_more" m w) as (wr & Hr & Href).
    destruct w as [st d csv pf lf out nid]. fields. subst st.
    go. destruct (msg_text m) as [t|]; go.
    2:{ rewrite Hr. eauto. }
    destruct (py_int (strip t)) as [n|]; go.
    2:{ rewrite Hr. eauto. }
    destruct (Z.ltb_spec n 5) as [Hlt|Hge].
    { go. rewrite Hr. rewrite (proj2 (Z.leb_gt 5 n)) by lia. eauto. }
    rewrite (proj2 (Z.leb_le 5 n)) by lia. unfold number_taken. fields.
    go. destruct (truthy (get d "last_bot_message_id")); go;
      destruct (eq_str (get d "editing_field") (lit "people")); go;
      try (reviewed; [repeat apply well_typed_insert; try key_neq; done|]);
      go; eexists; (split; [reflexivity|]); fields;
      (split; [|reflexivity]);
      repeat (rewrite lookup_insert_ne by key_neq); by rewrite lookup_insert_eq.
Qed.

(** ** The calendar *)

Lemma uint_digits_are_digits (u : Decimal.uint) :
  Forall (fun c => (48 <= c <= 57)%N) (uint_digits u).
Proof. induction u; simpl; constructor; (lia || assumption). Qed.

Lemma str_of_Z_no_underscore (z : Z) : 95%N ∉ str_of_Z z.
Proof.
  assert (H : forall n, 95%N ∉ str_of_N n).
  { intros n Hin. unfold str_of_N in Hin.
    pose proof (uint_digits_are_digits (N.to_uint n)) as Hall.
    rewrite Forall_forall in Hall. apply Hall in Hin. lia. }
  destruct z; simpl; [apply H|apply H|].
  intros Hin. apply elem_of_cons in Hin as [Heq|Hin]; [discriminate|by apply H in Hin].
Qed.

Lemma fmt_02d_no_underscore (z : Z) : 95%N ∉ fmt_02d z.
Proof.
  unfold fmt_02d. pose proof (str_of_Z_no_underscore z) as H.
  destruct z; try exact H; destruct (_ <? _)%nat; try exact H;
    (intros Hin; apply elem_of_cons in Hin as [Heq|Hin]; [discriminate|by apply H in Hin]).
Qed.

Lemma date_str_no_underscore (y m d : Z) : 95%N ∉ date_str y m d.
Proof.
  unfold date_str. rewrite !elem_of_app.
  pose proof (str_of_Z_no_underscore y). pose proof (fmt_02d_no_underscore m).
  pose proof (fmt_02d_no_underscore d).
  assert (95%N ∉ lit "-") by (vm_compute; intros Hin; apply list_elem_of_singleton in Hin; discriminate).
  tauto.
Qed.

Lemma split_on_absent (sep : N) (s : str) : sep ∉ s -> split_on sep s = [s].
Proof.
  induction s as [|c s IH]; intros Hn; [reflexivity|]. simpl.
  destruct (N.eqb_spec c sep) as [->|Hne]; [contradiction Hn; left|].
  rewrite IH; [reflexivity|]. intros H. apply Hn. by right.
Qed.

(** Years of four digits and months and days of the calendar print in ISO
    format as the f-string of the keyboard prints them. *)
Lemma date_str_isoformat (y m d : Z) :
  1000 <= y <= 9999 -> 1 <= m <= 12 -> 1 <= d <= 31 ->
  date_str y m d = isoformat y m d.
Proof.
  intros Hy Hm Hd. unfold date_str, isoformat.
  assert (Hyear : forallb (fun z => bool_decide (zero_padded 4 (str_of_Z z) = str_of_Z z))
                          (seqZ 1000 9000) = true) by (vm_compute; reflexivity).
  assert (Hsmall : forallb (fun z => bool_decide (zero_padded 2 (str_of_Z z) = fmt_02d z))
                           (seqZ 1 31) = true) by (vm_compute; reflexivity).
  rewrite forallb_forall in Hyear, Hsmall.
  assert (Hiny : In y (seqZ 1000 9000)).
  { apply list_elem_of_In, elem_of_seqZ. lia. }
  assert (Hinm : In m (seqZ 1 31)).
  { apply list_elem_of_In, elem_of_seqZ. lia. }
  assert (Hind : In d (seqZ 1 31)).
  { apply list_elem_of_In, elem_of_seqZ. lia. }
  apply Hyear in Hiny. apply Hsmall in Hinm. apply Hsmall in Hind.
  apply bool_decide_eq_true in Hiny, Hinm, Hind.
  by rewrite Hiny, Hinm, Hind.
Qed.

Lemma days_in_month_bounds (y m : Z) : 28 <= days_in_month y m <= 31.
Proof.
  unfold days_in_month.
  destruct (m =? 2); [destruct (is_leap y); lia|].
  destruct ((m =? 4) || (m =? 6) || (m =? 9) || (m =? 11)); lia.
Qed.

Lemma weekday_bounds (y m d : Z) : 0 <= weekday y m d < 7.
Proof. unfold weekday. apply Z.mod_pos_bound. lia. Qed.

(** The cells of the month grid are the days of the month and the padding. *)
Lemma monthcalendar_cells (y m : Z) (week : list Z) (d : Z) :
  week ∈ monthcalendar y m -> d ∈ week -> d = 0 \/ 1 <= d <= days_in_month y m.
Proof.
  unfold monthcalendar. intros Hw Hd.
  apply list_elem_of_fmap in Hw as (i & -> & Hi).
  apply list_elem_of_fmap in Hd as (j & -> & Hj).
  apply elem_of_seqZ in Hj.
  destruct (_ && _) eqn:E; [|by left]. right.
  apply andb_true_iff in E as [E1 E2]. apply Z.leb_le in E1. apply Z.ltb_lt in E2. lia.
Qed.

(** Every day of the month has its cell. *)
Lemma monthcalendar_complete (y m d : Z) :
  1 <= d <= days_in_month y m ->
  exists week, week ∈ monthcalendar y m /\ d ∈ week.
Proof.
  intros Hd. unfold monthcalendar.
  pose proof (weekday_bounds y m 1) as Hoff.
  pose proof (days_in_month_bounds y m) as Hn.
  set (offset := weekday y m 1) in *. set (ndays := days_in_month y m) in *.
  set (cell := offset + d - 1).
  eexists. split.
  - apply list_elem_of_fmap. exists (cell / 7). split; [reflexivity|].
    apply elem_of_seqZ. split; [apply Z.div_pos; lia|].
    apply Z.div_lt_upper_bound; [lia|].
    pose proof (Z.mul_div_le (offset + ndays + 6) 7 ltac:(lia)).
    pose proof (Z.mod_pos_bound (offset + ndays + 6) 7 ltac:(lia)).
    pose proof (Z.div_mod (offset + ndays + 6) 7 ltac:(lia)). lia.
  - apply list_elem_of_fmap. exists (cell mod 7). split.
    + pose proof (Z.div_mod cell 7 ltac:(lia)) as Hdm.
      replace (7 * (cell / 7) + cell mod 7) with cell by lia.
      rewrite (proj2 (andb_true_iff _ _)); [subst cell; lia|].
      split; [apply Z.leb_le|apply Z.ltb_lt]; subst cell; lia.
    + apply elem_of_seqZ. pose proof (Z.mod_pos_bound cell 7 ltac:(lia)). lia.
Qed.
(** Replace the literals of the goal by their code points, to compute with
    them. *)
Ltac spell :=
  repeat match goal with
    | |- context [lit ?s] =>
        let v := eval vm_compute in (lit s) in change (lit s) with v
    end.

Lemma press_day (e : env) (c : callback) (w : world) (chosen : str) :
  fsm_state w = Some start_date ->
  cb_data c = lit "cal_day_" ++ chosen ->
  (95%N ∉ chosen) ->
  exists r w',
    dispatch e (Press c) w = Some (r, w')
    /\ fsm_data w' !! lit "start_date" = Some (VStr chosen).
Proof.
  intros Hst Hdata Hno.
  assert (Hp : startswith (lit "cal_") (cb_data c) = true) by (rewrite Hdata; reflexivity).
  route (lit "cal_"). clear Hp.
  destruct w as [st d csv pf lf out nid]. fields. subst st.
  unfold process_date_calendar. rewrite Hdata.
  rewrite bool_decide_eq_false_2 by (vm_compute; discriminate).
  assert (Hsplit : split_on 95%N (lit "cal_day_" ++ chosen) = [lit "cal"; lit "day"; chosen]).
  { change (lit "cal_day_" ++ chosen)
      with (99 :: 97 :: 108 :: 95 :: 100 :: 97 :: 121 :: 95 :: chosen)%N.
    cbn [split_on N.eqb Pos.eqb]. rewrite (split_on_absent _ _ Hno). reflexivity. }
  change (startswith (lit "cal_prev_") (lit "cal_day_" ++ chosen)) with false.
  change (startswith (lit "cal_next_") (lit "cal_day_" ++ chosen)) with false.
  change (startswith (lit "cal_day_") (lit "cal_day_" ++ chosen)) with true.
  go. rewrite Hsplit. go.
  destruct (strptime_date chosen) as [[[y' m'] d']|]; go;
    (eexists _, _; split; [reflexivity|]; fields; by rewrite lookup_insert_eq).
Qed.

Lemma press_ignore (e : env) (c : callback) (w : world) :
  fsm_state w = Some start_date ->
  cb_data c = lit "cal_ignore" ->
  dispatch e (Press c) w =
    Some (Ok tt, with_sent (sent w ++ [CallbackAnswer None false]) w).
Proof.
  intros Hst Hdata.
  assert (Hp : startswith (lit "cal_") (cb_data c) = true) by (rewrite Hdata; reflexivity).
  route (lit "cal_"). clear Hp.
  unfold process_date_calendar. rewrite Hdata.
  rewrite bool_decide_eq_true_2 by reflexivity. reflexivity.
Qed.

(** C7. In a rendered calendar the grid holds one button for each cell of
    the month; the button of a day before the day of rendering carries the
    inert [cal_ignore], and pressing the button of any other day stores the
    ISO date of that day as the start date. The clock is taken to show a
    year of four digits. *)
Theorem calendar_day_buttons (e : env) (y m : Z) (selected lang : value)
    (kb : markup) :
  1000 <= (today e).1.1 ->
  get_calendar_keyboard (today e) y m selected lang = Ok kb ->
  exists selected_dt header footer,
    kb = InlineKeyboard
           (header
            ++ concat (map (map (day_button (today e) selected_dt y m)) (monthcalendar y m))
            ++ footer)
    /\ (forall d, 1 <= d <= days_in_month y m ->
        exists week, week ∈ monthcalendar y m /\ d ∈ week)
    /\ forall week d, week ∈ monthcalendar y m -> d ∈ week -> d <> 0 ->
       forall (e' : env) (c : callback) (w : world),
         fsm_state w = Some start_date ->
         cb_data c = payload (day_button (today e) selected_dt y m d) ->
         if date_ltb (y, m, d) (today e)
         then cb_data c = lit "cal_ignore"
              /\ exists w', dispatch e' (Press c) w = Some (Ok tt, w')
                            /\ fsm_state w' = fsm_state w
                            /\ fsm_data w' = fsm_data w
         else exists r w',
                dispatch e' (Press c) w = Some (r, w')
                /\ fsm_data w' !! lit "start_date" = Some (VStr (isoformat y m d)).
Proof.
  intros Hclock Hkb. unfold get_calendar_keyboard in Hkb.
  destruct ((1 <=? m) && (m <=? 12)) eqn:Hm; [|discriminate]. cbn [negb] in Hkb.
  destruct ((1 <=? y) && (y <=? 9999)) eqn:Hy; [|discriminate]. cbn [negb] in Hkb.
  apply andb_true_iff in Hm as [Hm1 Hm2]. apply andb_true_iff in Hy as [Hy1 Hy2].
  apply Z.leb_le in Hm1, Hm2, Hy1, Hy2.
  exists (match selected with VStr (c :: s) => strptime_date (c :: s) | _ => None end),
         (map (fun d => Button (TStrftime "%a" 2023 11 d) (lit "cal_ignore")) (seqZ 1 7)),
         [Button (TLit "◀️") (lit "cal_prev_" ++ str_of_Z y ++ lit "_" ++ str_of_Z m);
          Button (TCat [TCapitalize (TStrftime "%B" y m 1); TLit " "; TVal (VInt y)])
                 (lit "cal_ignore");
          Button (TLit "▶️") (lit "cal_next_" ++ str_of_Z y ++ lit "_" ++ str_of_Z m);
          Button (TCat [TLit "🗓️ "; TGet lang "cal_skip"]) (lit "cal_skip")].
  split; [by injection Hkb as <-|].
  split; [apply monthcalendar_complete|].
  intros week d Hweek Hcell Hd0 e' c w Hst Hdata.
  destruct (monthcalendar_cells y m week d Hweek Hcell) as [->|Hd]; [done|].
  pose proof (days_in_month_bounds y m) as Hn.
  unfold day_button in Hdata.
  rewrite (proj2 (Z.eqb_neq d 0) Hd0) in Hdata.
  destruct (date_ltb (y, m, d) (today e)) eqn:Hpast; cbn [payload] in Hdata.
  - split; [exact Hdata|].
    rewrite (press_ignore e' c w Hst Hdata). eexists. split; [reflexivity|].
    by destruct w.
  - assert (Hyear : 1000 <= y).
    { destruct (today e) as [[ty tm] td]. cbn [fst] in Hclock. unfold date_ltb in Hpast.
      apply orb_false_iff in Hpast as [Hlt _]. apply Z.ltb_ge in Hlt. lia. }
    rewrite <- (date_str_isoformat y m d) by lia.
    apply (press_day e' c w _ Hst Hdata), date_str_no_underscore.
Qed.

(** ** Submission *)



(** The payload holds, for each of its keys, what the data dict holds. *)
Lemma extract_admin_payload_snapshot (d : gmap str value) (k : string) :
  k ∈ REQUEST_PAYLOAD_KEYS ->
  obj_get (lit k) (extract_admin_payload d) = to_json <$> d !! lit k.
Proof.
  unfold extract_admin_payload.
  assert (Hnodup : NoDup (map lit REQUEST_PAYLOAD_KEYS)).
  { apply (bool_decide_unpack _). vm_compute. reflexivity. }
  revert Hnodup. generalize REQUEST_PAYLOAD_KEYS as keys.
  induction keys as [|k0 keys IH]; intros Hnodup Hin; [by apply elem_of_nil in Hin|].
  cbn [map] in Hnodup. apply NoDup_cons in Hnodup as [Hfresh Hnodup].
  cbn [omap list_omap].
  destruct (decide (lit k0 = lit k)) as [Heq|Hne].
  - rewrite Heq. destruct (d !! lit k) as [v|] eqn:Ev; cbn.
    + by rewrite bool_decide_eq_true_2.
    + (* the key is absent: no later pair carries it either *)
      clear IH Hin. induction keys as [|k1 keys IH]; [reflexivity|].
      cbn [omap list_omap].
      assert (Hk1 : lit k1 <> lit k).
      { intros H. apply Hfresh. rewrite Heq, <- H. cbn [map]. left. }
      destruct (d !! lit k1) as [v1|]; cbn.
      * rewrite bool_decide_eq_false_2 by done. apply IH.
        -- intros Hin. apply Hfresh. cbn [map]. by right.
        -- cbn [map] in Hnodup. by apply NoDup_cons in Hnodup as [_ ?].
      * apply IH.
        -- intros Hin. apply Hfresh. cbn [map]. by right.
        -- cbn [map] in Hnodup. by apply NoDup_cons in Hnodup as [_ ?].
  - apply elem_of_cons in Hin as [->|Hin]; [done|].
    destruct (d !! lit k0) as [v0|]; cbn.
    + rewrite bool_decide_eq_false_2 by done. by apply IH.
    + by apply IH.
Qed.

Lemma load_pending_requests_reads (w : world) :
  pending_file w <> Some NotUtf8 ->
  load_pending_requests w = (Ok (requests_of (pending_file w)), w).
Proof.
  intros H. unfold load_pending_requests, requests_of.
  destruct (pending_file w) as [[| | |[]]|]; done.
Qed.

Lemma save_pending_requests_writes (requests : list json) (w : world) :
  pending_file w <> Some Unreadable ->
  save_pending_requests requests w =
    (Ok tt, with_pending (Some (Document (JArr requests))) w).
Proof.
  intros H. unfold save_pending_requests.
  destruct (pending_file w) as [[| | |]|]; done.
Qed.

Lemma add_pending_request_adds (e : env) (payload : list (str * json)) (w : world) :
  pending_file w <> Some Unreadable ->
  pending_file w <> Some NotUtf8 ->
  exists entry,
    entry = JObj [(lit "id", JStr (fresh_uuid e));
                  (lit "status", JStr (lit "new"));
                  (lit "created_at", JStr (now_iso e));
                  (lit "payload", JObj payload)]
    /\ add_pending_request e payload w =
         (Ok entry,
          with_pending (Some (Document (JArr (entry :: requests_of (pending_file w))))) w).
Proof.
  intros Hread Hutf. eexists. split; [reflexivity|].
  unfold add_pending_request, bind.
  rewrite load_pending_requests_reads by done.
  rewrite save_pending_requests_writes by done. reflexivity.
Qed.



(** ** Editing from the review *)

Lemma run_cons (e : env) (ev : event) (rest : list (env * event)) (w w1 : world) :
  dispatch e ev w = Some (Ok tt, w1) ->
  run ((e, ev) :: rest) w = run rest w1.
Proof. intros H. cbn [run]. by rewrite H. Qed.

Lemma run_app (l1 l2 : list (env * event)) (w w1 : world) :
  run l1 w = Some (Ok tt, w1) -> run (l1 ++ l2) w = run l2 w1.
Proof.
  revert w. induction l1 as [|[e ev] l1 IH]; intros w H.
  - cbn [run] in H. by injection H as ->.
  - cbn [app run] in *.
    destruct (dispatch e ev w) as [[[[]|x] w0]|]; try discriminate.
    by apply IH.
Qed.

Lemma calendar_today (e : env) (selected lang : value) :
  clock_ok e ->
  exists kb,
    get_calendar_keyboard (today e) (today e).1.1 (today e).1.2 selected lang = Ok kb.
Proof.
  intros [Hy Hm]. unfold get_calendar_keyboard.
  rewrite (proj2 (andb_true_iff _ _)) by (split; apply Z.leb_le; lia).
  rewrite (proj2 (andb_true_iff (1 <=? _) _)) by (split; apply Z.leb_le; lia).
  cbn [negb]. eexists. reflexivity.
Qed.

(** Pressing the phone or the current city in the edit menu: the marker is
    set, and the prompt with its reply keyboard is refused before the step
    changes. *)
Lemma edit_menu_raises (e : env) (c : callback) (f : field) (w : world) :
  fsm_state w = Some review ->
  reply_keyboard_field f = true ->
  cb_data c = edit_payload f ->
  dispatch e (Press c) w =
    Some (Raise ValidationError,
          with_data (<[lit "editing_field" := field_marker f]> (fsm_data w)) w).
Proof.
  intros Hst Hreply Hdata.
  assert (Hp : startswith (lit "edit_") (cb_data c) = true).
  { rewrite Hdata. by destruct f. }
  route (lit "edit_"). clear Hp. rewrite Hdata.
  destruct w as [st d csv pf lf out nid]. fields. subst st.
  destruct f; try discriminate Hreply;
    cbn [edit_payload field_marker]; literals;
    cbn [fmap option_fmap option_map when];
    unfold process_edit_field; rewrite Hdata; cbn [edit_payload].
  - change (remove_all (lit "edit_") (lit "edit_phone")) with (lit "phone").
    go. reflexivity.
  - change (remove_all (lit "edit_") (lit "edit_current_city")) with (lit "current_city").
    go. reflexivity.
Qed.

(** Pressing any other field of the edit menu re-enters its step with the
    marker set; the collected answers stay. *)
Lemma edit_menu_enters (e : env) (c : callback) (f : field) (w : world) :
  fsm_state w = Some review ->
  well_typed (fsm_data w) ->
  clock_ok e ->
  reply_keyboard_field f = false ->
  cb_data c = edit_payload f ->
  exists w1,
    dispatch e (Press c) w = Some (Ok tt, w1)
    /\ fsm_state w1 = Some (field_step f)
    /\ get (fsm_data w1) "editing_field" = field_marker f
    /\ (forall k, k <> lit "editing_field" -> k <> lit "last_bot_message_id" ->
        fsm_data w1 !! k = fsm_data w !! k).
Proof.
  intros Hst (sel & oth & Hs & Ho) Hclock Hinline Hdata.
  assert (Hp : startswith (lit "edit_") (cb_data c) = true).
  { rewrite Hdata. by destruct f. }
  route (lit "edit_"). clear Hp. rewrite Hdata.
  destruct w as [st d csv pf lf out nid]. fields. subst st.
  destruct f; try discriminate Hinline;
    cbn [edit_payload field_step field_marker]; literals;
    cbn [fmap option_fmap option_map when];
    unfold process_edit_field; rewrite Hdata; cbn [edit_payload].
  1-4: change (remove_all (lit "edit_") (lit "edit_cities")) with (lit "cities");
       change (remove_all (lit "edit_") (lit "edit_days")) with (lit "days");
       change (remove_all (lit "edit_") (lit "edit_people")) with (lit "people");
       change (remove_all (lit "edit_") (lit "edit_translator")) with (lit "translator");
       go; try (rewrite Hs, Ho; keyboard); go;
       (eexists; split; [reflexivity|]; fields; read_dict;
        split; [reflexivity|]; split; [reflexivity|];
        intros k Hk1 Hk2; by rewrite lookup_insert_ne).
  change (remove_all (lit "edit_") (lit "edit_dates")) with (lit "dates").
  go. unfold show_start_date_calendar. go.
  destruct (today e) as [[ty tm] td] eqn:Htoday.
  destruct (calendar_today e (get d "start_date") (get_or d "lang_code" (VStr (lit "en"))) Hclock)
    as [kb Hkb].
  rewrite Htoday in Hkb. cbn [fst snd] in Hkb.
  go. destruct (truthy (get d "last_bot_message_id")); go; rewrite Hkb; go;
    (eexists; split; [reflexivity|]; fields; read_dict;
     split; [reflexivity|]; split; [reflexivity|];
     intros k Hk1 Hk2; by rewrite !lookup_insert_ne).
Qed.

Lemma well_typed_kept (d d1 : gmap str value) :
  (forall k, k <> lit "editing_field" -> k <> lit "last_bot_message_id" ->
   d1 !! k = d !! k) ->
  well_typed d -> well_typed d1.
Proof.
  intros Hsame (sel & oth & Hs & Ho). exists sel, oth.
  unfold city_lists, get_or in *. rewrite !Hsame by key_neq. done.
Qed.

Lemma back_in_review_after (keys : list string) (vals : list (string * value))
    (w w1 w' : world) :
  (forall k, k <> lit "editing_field" -> k <> lit "last_bot_message_id" ->
   fsm_data w1 !! k = fsm_data w !! k) ->
  back_in_review keys vals w1 w' -> back_in_review keys vals w w'.
Proof.
  intros Hsame (Hst & Hvals & Hmark & Hframe). repeat split; try done.
  intros k Hk He Hl. rewrite Hframe by done. by apply Hsame.
Qed.

(** The entries under other keys survive the updates of a handler. *)
Ltac framed :=
  let k := fresh "k" in
  let Hk := fresh "Hk" in
  let He := fresh "He" in
  let Hl := fresh "Hl" in
  intros k Hk He Hl;
  repeat (rewrite lookup_insert_ne;
          [|lazymatch goal with
            | |- lit "editing_field" <> _ => exact (not_eq_sym He)
            | |- lit "last_bot_message_id" <> _ => exact (not_eq_sym Hl)
            | |- _ => intros <-; apply Hk; clear He Hl Hk; cbn [map]; set_solver
            end]);
  reflexivity.

Ltac stored :=
  let k := fresh "k" in
  let v := fresh "v" in
  let H := fresh "H" in
  intros k v H;
  repeat (apply elem_of_cons in H as [H|H];
          [injection H as -> ->;
           repeat (rewrite lookup_insert_ne by key_neq); by rewrite lookup_insert_eq|]);
  by apply elem_of_nil in H.

Ltac reviewing :=
  eexists; split; [reflexivity|]; unfold back_in_review; fields; read_dict;
  split; [reflexivity|]; split; [stored|]; split; [reflexivity|framed].

Lemma edit_phone (e : env) (m : message) (w : world) (c : N) (p : str) :
  fsm_state w = Some phone ->
  get (fsm_data w) "editing_field" = VStr (lit "phone") ->
  well_typed (fsm_data w) ->
  has_command_prefix m = false ->
  is_Some_b (msg_contact m) || phone_regexp (default [] (msg_text m)) = true ->
  format_phone_number (message_phone m) = c :: p ->
  exists w',
    dispatch e (Msg m) w = Some (Ok tt, w')
    /\ back_in_review ["phone"%string] [("phone"%string, VStr (c :: p))] w w'.
Proof.
  intros Hst Hmark Hw Hplain Hfilter Hphone.
  deliver. rewrite Hst, Hfilter.
  destruct w as [st d csv pf lf out nid]. fields. subst st.
  unfold process_phone. go. rewrite Hphone. go. rewrite Hmark. go.
  reviewed; [repeat apply well_typed_insert; try key_neq; done|].
  reviewing.
Qed.

Lemma edit_current_city (e : env) (m : message) (w : world) (city : str) :
  fsm_state w = Some current_city ->
  get (fsm_data w) "editing_field" = VStr (lit "current_city") ->
  well_typed (fsm_data w) ->
  has_command_prefix m = false ->
  message_city m = Some city ->
  exists w',
    dispatch e (Msg m) w = Some (Ok tt, w')
    /\ back_in_review ["current_city"%string] [("current_city"%string, VStr city)] w w'.
Proof.
  intros Hst Hmark Hw Hplain Hcity.
  deliver. rewrite Hst.
  destruct w as [st d csv pf lf out nid]. fields. subst st.
  unfold message_city in Hcity. unfold process_current_city, has_text.
  destruct (msg_location m) as [[latitude longitude]|].
  - injection Hcity as <-. cbn [is_Some_b orb].
    change (lit "Lat: " ++ latitude ++ lit ", Lon: " ++ longitude)
      with (76%N :: tl (lit "Lat: " ++ latitude ++ lit ", Lon: " ++ longitude)).
    go. destruct (truthy (get d "last_bot_message_id")); go; rewrite Hmark; go;
      (reviewed; [repeat apply well_typed_insert; try key_neq; done|]); reviewing.
  - destruct (msg_text m) as [[|c0 t]|]; try discriminate. cbn [is_Some_b orb].
    destruct (length (strip (c0 :: t)) <? 2)%nat eqn:Hlen; [discriminate|].
    injection Hcity as <-. go. rewrite ?Hlen.
    destruct (strip (c0 :: t)) as [|c1 s1] eqn:Hstrip; [discriminate|].
    go. destruct (truthy (get d "last_bot_message_id")); go; rewrite Hmark; go;
      (reviewed; [repeat apply well_typed_insert; try key_neq; done|]); reviewing.
Qed.

(** A preset button of the days or people step, in edit mode *)
Lemma edit_days_preset (e : env) (c : callback) (w : world) :
  fsm_state w = Some days ->
  get (fsm_data w) "editing_field" = VStr (lit "days") ->
  well_typed (fsm_data w) ->
  startswith (lit "days_") (cb_data c) = true ->
  remove_all (lit "days_") (cb_data c) <> lit "other" ->
  exists w',
    dispatch e (Press c) w = Some (Ok tt, w')
    /\ back_in_review ["days"%string]
         [("days"%string, VStr (remove_all (lit "days_") (cb_data c)))] w w'.
Proof.
  intros Hst Hmark Hw Hp Hnot. route (lit "days_").
  destruct w as [st d csv pf lf out nid]. fields. subst st.
  unfold process_days. go. rewrite (bool_decide_eq_false_2 _ Hnot), Hmark. go.
  reviewed; [repeat apply well_typed_insert; try key_neq; done|]. go.
  reviewing.
Qed.

Lemma edit_people_preset (e : env) (c : callback) (w : world) :
  fsm_state w = Some people ->
  get (fsm_data w) "editing_field" = VStr (lit "people") ->
  well_typed (fsm_data w) ->
  startswith (lit "people_") (cb_data c) = true ->
  remove_all (lit "people_") (cb_data c) <> lit "4plus" ->
  exists w',
    dispatch e (Press c) w = Some (Ok tt, w')
    /\ back_in_review ["people"%string]
         [("people"%string, VStr (remove_all (lit "people_") (cb_data c)))] w w'.
Proof.
  intros Hst Hmark Hw Hp Hnot. route (lit "people_").
  destruct w as [st d csv pf lf out nid]. fields. subst st.
  unfold process_people. go. rewrite (bool_decide_eq_false_2 _ Hnot), Hmark. go.
  reviewed; [repeat apply well_typed_insert; try key_neq; done|]. go.
  reviewing.
Qed.

(** A button that opens a free-text sub-step: the step changes, the data
    dict does not. *)
Lemma open_other_days (e : env) (c : callback) (w : world) :
  fsm_state w = Some days ->
  startswith (lit "days_") (cb_data c) = true ->
  remove_all (lit "days_") (cb_data c) = lit "other" ->
  exists w1,
    dispatch e (Press c) w = Some (Ok tt, w1)
    /\ fsm_state w1 = Some other_days /\ fsm_data w1 = fsm_data w.
Proof.
  intros Hst Hp Hother. route (lit "days_").
  destruct w as [st d csv pf lf out nid]. fields. subst st.
  unfold process_days. go. rewrite Hother. go. eauto.
Qed.

Lemma open_other_people (e : env) (c : callback) (w : world) :
  fsm_state w = Some people ->
  startswith (lit "people_") (cb_data c) = true ->
  remove_all (lit "people_") (cb_data c) = lit "4plus" ->
  exists w1,
    dispatch e (Press c) w = Some (Ok tt, w1)
    /\ fsm_state w1 = Some other_people /\ fsm_data w1 = fsm_data w.
Proof.
  intros Hst Hp Hother. route (lit "people_").
  destruct w as [st d csv pf lf out nid]. fields. subst st.
  unfold process_people. go. rewrite Hother. go. eauto.
Qed.

Lemma edit_days_custom (e : env) (m : message) (w : world) (n : Z) :
  fsm_state w = Some other_days ->
  get (fsm_data w) "editing_field" = VStr (lit "days") ->
  well_typed (fsm_data w) ->
  has_command_prefix m = false ->
  typed_number m = Some n -> 1 <= n ->
  exists w',
    dispatch e (Msg m) w = Some (Ok tt, w')
    /\ back_in_review ["days"%string] [("days"%string, VStr (str_of_Z n))] w w'.
Proof.
  intros Hst Hmark Hw Hplain Hn Hmin. deliver. rewrite Hst.
  destruct w as [st d csv pf lf out nid]. fields. subst st.
  unfold typed_number in Hn. unfold process_other_days. go.
  destruct (msg_text m) as [t|]; [|discriminate]. go. rewrite Hn. go.
  rewrite (proj2 (Z.ltb_ge n 1)) by lia. go.
  destruct (truthy (get d "last_bot_message_id")); go; rewrite Hmark; go;
    (reviewed; [repeat apply well_typed_insert; try key_neq; done|]); go; reviewing.
Qed.

Lemma edit_people_custom (e : env) (m : message) (w : world) (n : Z) :
  fsm_state w = Some other_people ->
  get (fsm_data w) "editing_field" = VStr (lit "people") ->
  well_typed (fsm_data w) ->
  has_command_prefix m = false ->
  typed_number m = Some n -> 5 <= n ->
  exists w',
    dispatch e (Msg m) w = Some (Ok tt, w')
    /\ back_in_review ["people"%string] [("people"%string, VStr (str_of_Z n))] w w'.
Proof.
  intros Hst Hmark Hw Hplain Hn Hmin. deliver. rewrite Hst.
  destruct w as [st d csv pf lf out nid]. fields. subst st.
  unfold typed_number in Hn. unfold process_other_people. go.
  destruct (msg_text m) as [t|]; [|discriminate]. go. rewrite Hn. go.
  rewrite (proj2 (Z.ltb_ge n 5)) by lia. go.
  destruct (truthy (get d "last_bot_message_id")); go; rewrite Hmark; go;
    (reviewed; [repeat apply well_typed_insert; try key_neq; done|]); go; reviewing.
Qed.

Lemma edit_no_translator (e : env) (c : callback) (w : world) :
  fsm_state w = Some need_translator ->
  get (fsm_data w) "editing_field" = VStr (lit "translator") ->
  well_typed (fsm_data w) ->
  startswith (lit "translator_") (cb_data c) = true ->
  remove_all (lit "translator_") (cb_data c) <> lit "yes" ->
  exists w',
    dispatch e (Press c) w = Some (Ok tt, w')
    /\ back_in_review ["need_translator"; "translator_language"]%string
         [("need_translator"%string, VStr (lit "No"));
          ("translator_language"%string, VStr [])] w w'.
Proof.
  intros Hst Hmark Hw Hp Hnot. route (lit "translator_").
  destruct w as [st d csv pf lf out nid]. fields. subst st.
  unfold process_translator. go. rewrite (bool_decide_eq_false_2 _ Hnot), Hmark. go.
  reviewed; [repeat apply well_typed_insert; try key_neq; done|]. go.
  reviewing.
Qed.

(** [yes] in edit mode: the flag is stored and the language is asked; the
    marker stays. *)
Lemma edit_translator_yes (e : env) (c : callback) (w : world) :
  fsm_state w = Some need_translator ->
  startswith (lit "translator_") (cb_data c) = true ->
  remove_all (lit "translator_") (cb_data c) = lit "yes" ->
  exists w1,
    dispatch e (Press c) w = Some (Ok tt, w1)
    /\ fsm_state w1 = Some translator_language
    /\ fsm_data w1 = <[lit "need_translator" := VStr (lit "Yes")]> (fsm_data w).
Proof.
  intros Hst Hp Hyes. route (lit "translator_").
  destruct w as [st d csv pf lf out nid]. fields. subst st.
  unfold process_translator. go. rewrite Hyes. go. eauto.
Qed.

Lemma edit_language_preset (e : env) (c : callback) (w : world) (d0 : gmap str value) :
  fsm_state w = Some translator_language ->
  fsm_data w = <[lit "need_translator" := VStr (lit "Yes")]> d0 ->
  get d0 "editing_field" = VStr (lit "translator") ->
  well_typed d0 ->
  startswith (lit "lang_") (cb_data c) = true ->
  remove_all (lit "lang_") (cb_data c) <> lit "other" ->
  exists w',
    dispatch e (Press c) w = Some (Ok tt, w')
    /\ (forall w0, fsm_data w0 = d0 ->
        back_in_review ["need_translator"; "translator_language"]%string
          [("need_translator"%string, VStr (lit "Yes"));
           ("translator_language"%string, VStr (remove_all (lit "lang_") (cb_data c)))]
          w0 w').
Proof.
  intros Hst Hd Hmark Hw Hp Hnot. route (lit "lang_").
  destruct w as [st d csv pf lf out nid]. fields. subst st d.
  unfold process_language. go. rewrite (bool_decide_eq_false_2 _ Hnot). go.
  rewrite Hmark. go.
  reviewed; [repeat apply well_typed_insert; try key_neq; done|]. go.
  eexists. split; [reflexivity|]. intros w0 <-.
  unfold back_in_review; fields; read_dict.
  split; [reflexivity|]; split; [stored|]; split; [reflexivity|framed].
Qed.

Lemma open_other_language (e : env) (c : callback) (w : world) :
  fsm_state w = Some translator_language ->
  startswith (lit "lang_") (cb_data c) = true ->
  remove_all (lit "lang_") (cb_data c) = lit "other" ->
  exists w1,
    dispatch e (Press c) w = Some (Ok tt, w1)
    /\ fsm_state w1 = Some other_language /\ fsm_data w1 = fsm_data w.
Proof.
  intros Hst Hp Hother. route (lit "lang_").
  destruct w as [st d csv pf lf out nid]. fields. subst st.
  unfold process_language. go. rewrite Hother. go. eauto.
Qed.

Lemma edit_language_custom (e : env) (m : message) (w : world) (d0 : gmap str value)
    (t : str) :
  fsm_state w = Some other_language ->
  fsm_data w = <[lit "need_translator" := VStr (lit "Yes")]> d0 ->
  get d0 "editing_field" = VStr (lit "translator") ->
  well_typed d0 ->
  has_command_prefix m = false ->
  msg_text m = Some t -> (1 <= length (strip t))%nat ->
  exists w',
    dispatch e (Msg m) w = Some (Ok tt, w')
    /\ (forall w0, fsm_data w0 = d0 ->
        back_in_review ["need_translator"; "translator_language"]%string
          [("need_translator"%string, VStr (lit "Yes"));
           ("translator_language"%string, VStr (strip t))]
          w0 w').
Proof.
  intros Hst Hd Hmark Hw Hplain Ht Hlen. deliver. rewrite Hst.
  destruct w as [st d csv pf lf out nid]. fields. subst st d.
  unfold process_other_language. go. rewrite Ht. go.
  rewrite (proj2 (Nat.ltb_ge _ _)) by lia. go.
  match goal with |- context [truthy ?v] => destruct (truthy v) end; go;
    rewrite Hmark; go;
    (reviewed; [repeat apply well_typed_insert; try key_neq; done|]); go;
    (eexists; split; [reflexivity|]; intros w0 <-;
     unfold back_in_review; fields; read_dict;
     split; [reflexivity|]; split; [stored|]; split; [reflexivity|framed]).
Qed.

(** The calendar, re-entered from the edit menu: the marker is already
    cleared, and both the confirmation and the skip lead to the review. *)
Lemma edit_date_confirm (e : env) (c : callback) (w : world) (chosen : str) :
  fsm_state w = Some start_date ->
  get (fsm_data w) "editing_field" = VNone ->
  well_typed (fsm_data w) ->
  cb_data c = lit "cal_confirm_" ++ chosen ->
  (95%N ∉ chosen) ->
  exists w',
    dispatch e (Press c) w = Some (Ok tt, w')
    /\ back_in_review ["start_date"%string] [("start_date"%string, VStr chosen)] w w'.
Proof.
  intros Hst Hmark Hw Hdata Hno.
  assert (Hp : startswith (lit "cal_") (cb_data c) = true) by (rewrite Hdata; reflexivity).
  route (lit "cal_"). clear Hp.
  destruct w as [st d csv pf lf out nid]. fields. subst st.
  unfold process_date_calendar. rewrite Hdata.
  rewrite bool_decide_eq_false_2 by (vm_compute; discriminate).
  assert (Hsplit : split_on 95%N (lit "cal_confirm_" ++ chosen)
                   = [lit "cal"; lit "confirm"; chosen]).
  { change (lit "cal_confirm_" ++ chosen)
      with (99 :: 97 :: 108 :: 95 :: 99 :: 111 :: 110 :: 102 :: 105 :: 114 :: 109
            :: 95 :: chosen)%N.
    cbn [split_on N.eqb Pos.eqb]. rewrite (split_on_absent _ _ Hno). reflexivity. }
  change (startswith (lit "cal_prev_") (lit "cal_confirm_" ++ chosen)) with false.
  change (startswith (lit "cal_next_") (lit "cal_confirm_" ++ chosen)) with false.
  change (startswith (lit "cal_day_") (lit "cal_confirm_" ++ chosen)) with false.
  change (startswith (lit "cal_confirm_") (lit "cal_confirm_" ++ chosen)) with true.
  rewrite (bool_decide_eq_false_2 (lit "cal_confirm_" ++ chosen = lit "cal_skip"))
    by (vm_compute; discriminate).
  go. rewrite Hsplit. go.
  reviewed; [repeat apply well_typed_insert; try key_neq; done|]. go.
  eexists; split; [reflexivity|]; unfold back_in_review; fields; read_dict.
  split; [reflexivity|]; split; [stored|]; split; [exact Hmark|framed].
Qed.

Lemma edit_date_skip (e : env) (c : callback) (w : world) :
  fsm_state w = Some start_date ->
  get (fsm_data w) "editing_field" = VNone ->
  well_typed (fsm_data w) ->
  cb_data c = lit "cal_skip" ->
  exists w',
    dispatch e (Press c) w = Some (Ok tt, w')
    /\ back_in_review ["start_date"%string] [("start_date"%string, VStr [])] w w'.
Proof.
  intros Hst Hmark Hw Hdata.
  assert (Hp : startswith (lit "cal_") (cb_data c) = true) by (rewrite Hdata; reflexivity).
  route (lit "cal_"). clear Hp.
  destruct w as [st d csv pf lf out nid]. fields. subst st.
  unfold process_date_calendar. rewrite Hdata. literals.
  change (startswith (lit "cal_prev_") (lit "cal_skip")) with false.
  change (startswith (lit "cal_next_") (lit "cal_skip")) with false.
  change (startswith (lit "cal_day_") (lit "cal_skip")) with false.
  go.
  reviewed; [repeat apply well_typed_insert; try key_neq; done|]. go.
  eexists; split; [reflexivity|]; unfold back_in_review; fields; read_dict.
  split; [reflexivity|]; split; [stored|]; split; [exact Hmark|framed].
Qed.

(** A day of the calendar: the date is stored and the confirmation is
    asked; the step stays. *)
Lemma edit_date_day (e : env) (c : callback) (w : world) (chosen : str) :
  fsm_state w = Some start_date ->
  cb_data c = lit "cal_day_" ++ chosen ->
  (95%N ∉ chosen) ->
  is_Some (strptime_date chosen) ->
  exists w1,
    dispatch e (Press c) w = Some (Ok tt, w1)
    /\ fsm_state w1 = Some start_date
    /\ fsm_data w1 = <[lit "start_date" := VStr chosen]> (fsm_data w).
Proof.
  intros Hst Hdata Hno [[[y m] d0] Hparse].
  assert (Hp : startswith (lit "cal_") (cb_data c) = true) by (rewrite Hdata; reflexivity).
  route (lit "cal_"). clear Hp.
  destruct w as [st d csv pf lf out nid]. fields. subst st.
  unfold process_date_calendar. rewrite Hdata.
  rewrite bool_decide_eq_false_2 by (vm_compute; discriminate).
  assert (Hsplit : split_on 95%N (lit "cal_day_" ++ chosen) = [lit "cal"; lit "day"; chosen]).
  { change (lit "cal_day_" ++ chosen)
      with (99 :: 97 :: 108 :: 95 :: 100 :: 97 :: 121 :: 95 :: chosen)%N.
    cbn [split_on N.eqb Pos.eqb]. rewrite (split_on_absent _ _ Hno). reflexivity. }
  change (startswith (lit "cal_prev_") (lit "cal_day_" ++ chosen)) with false.
  change (startswith (lit "cal_next_") (lit "cal_day_" ++ chosen)) with false.
  change (startswith (lit "cal_day_") (lit "cal_day_" ++ chosen)) with true.
  go. rewrite Hsplit. go. rewrite Hparse. go. eauto.
Qed.

Lemma cities_stored_lists (d : gmap str value) (sel oth : list str) :
  cities_stored d sel oth -> city_lists d sel oth.
Proof. intros [Hs Ho]. unfold city_lists, get_or. by rewrite Hs, Ho. Qed.

Lemma cities_stored_with_cities (d : gmap str value) (lists : list str * list str) :
  cities_stored (with_cities lists d) lists.1 lists.2.
Proof.
  unfold cities_stored, with_cities. split.
  - rewrite lookup_insert_ne by key_neq. by rewrite lookup_insert_eq.
  - by rewrite lookup_insert_eq.
Qed.

Lemma city_action_runs (a : city_action) (w0 w : world) (lists : list str * list str) :
  city_action_valid a ->
  choosing_cities w0 lists w ->
  exists w',
    run (city_action_updates a) w = Some (Ok tt, w')
    /\ choosing_cities w0 (city_action_effect lists a) w'.
Proof.
  intros Hvalid (Hst & Hstored & Hframe).
  pose proof (cities_stored_lists _ _ _ Hstored) as Hlists.
  destruct a as [e c|e1 c e2 m]; cbn [city_action_valid city_action_updates
                                      city_action_effect] in *.
  - destruct Hvalid as (Hp & Hdone & Hother).
    assert (Hrun : dispatch e (Press c) w = Some (process_city_selection c w)).
    { route (lit "city_"). reflexivity. }
    destruct (process_city_selection_toggle c w _ _ Hdone Hother Hlists) as [acts Htog].
    rewrite <- surjective_pairing in Htog.
    rewrite (run_cons _ _ _ _ _ (eq_trans Hrun (f_equal Some Htog))).
    eexists. split; [reflexivity|].
    destruct w as [st d csv pf lf out nid]. fields.
    split; [exact Hst|]. split; [apply cities_stored_with_cities|].
    intros k Hk1 Hk2 Hk3. unfold with_cities. fields.
    rewrite !lookup_insert_ne by done. by apply Hframe.
  - destruct Hvalid as (Hp & Hother & Hplain & t & Ht & Hlen).
    destruct Hlists as [Hs Ho].
    assert (Hrun : dispatch e1 (Press c) w = Some (process_city_selection c w)).
    { route (lit "city_"). reflexivity. }
    destruct w as [st d csv pf lf out nid]. fields. subst st.
    cbn [run]. rewrite Hrun.
    unfold process_city_selection at 1. go. rewrite Hother. go.
    unfold dispatch, route_message. rewrite Hplain. go.
    unfold process_other_city. go. rewrite Ht. go.
    rewrite (proj2 (Nat.ltb_ge _ _)) by lia. rewrite Hs, Ho. go.
    destruct (bool_decide (strip t ∈ lists.2)); go; keyboard; go;
      (eexists; split; [reflexivity|]; unfold choosing_cities, cities_stored; fields;
       split; [reflexivity|];
       split; [split; [rewrite !lookup_insert_ne by key_neq; apply Hstored
                      |rewrite lookup_insert_ne by key_neq; by rewrite lookup_insert_eq]|];
       intros k Hk1 Hk2 Hk3; rewrite !lookup_insert_ne by done; by apply Hframe).
Qed.

Lemma city_actions_run (actions : list city_action) (w0 w : world)
    (lists : list str * list str) :
  Forall city_action_valid actions ->
  choosing_cities w0 lists w ->
  exists w',
    run (concat (map city_action_updates actions)) w = Some (Ok tt, w')
    /\ choosing_cities w0 (fold_left city_action_effect actions lists) w'.
Proof.
  intros Hall. revert w lists.
  induction Hall as [|a actions Ha Hall IH]; intros w lists Hinv.
  - exists w. split; [reflexivity|exact Hinv].
  - cbn [map concat fold_left].
    destruct (city_action_runs a w0 w lists Ha Hinv) as (w1 & Hrun1 & Hinv1).
    destruct (IH w1 _ Hinv1) as (w' & Hrun & Hinv').
    exists w'. split; [|exact Hinv'].
    by rewrite (run_app _ _ _ _ Hrun1).
Qed.

Lemma edit_cities_done (e : env) (c : callback) (w : world) (sel oth : list str) :
  fsm_state w = Some cities_to_visit ->
  get (fsm_data w) "editing_field" = VStr (lit "cities") ->
  city_lists (fsm_data w) sel oth ->
  startswith (lit "city_") (cb_data c) = true ->
  remove_all (lit "city_") (cb_data c) = lit "done" ->
  sel ++ oth <> [] ->
  exists w',
    dispatch e (Press c) w = Some (Ok tt, w')
    /\ fsm_state w' = Some review
    /\ get (fsm_data w') "editing_field" = VNone
    /\ (forall k, k <> lit "editing_field" -> k <> lit "last_bot_message_id" ->
        fsm_data w' !! k = fsm_data w !! k).
Proof.
  intros Hst Hmark [Hs Ho] Hp Hdone Hne. route (lit "city_").
  destruct w as [st d csv pf lf out nid]. fields. subst st.
  unfold process_city_selection. go. rewrite Hdone, Hs, Ho. go.
  assert (Hlen : (Z.of_nat (length sel) + Z.of_nat (length oth) =? 0) = false).
  { apply Z.eqb_neq. destruct sel, oth; simpl in *; try lia. done. }
  rewrite Hlen, Hmark. go.
  reviewed.
  { apply well_typed_insert; [key_neq..|]. by exists sel, oth. }
  go. eexists. split; [reflexivity|]. fields. read_dict.
  split; [reflexivity|]. split; [reflexivity|].
  intros k Hk1 Hk2. by rewrite !lookup_insert_ne.
Qed.

(** X26. From the review, pressing the cities, the days, the people, the
    translator or the dates in the edit menu and then supplying a valid new
    value leads back to the review, with the new value under the keys of
    that field and every other collected answer as it was. Pressing the
    phone or the current city raises instead: the marker is set, the step
    stays [review], and what the user supplies next is not reached. *)
Theorem edit_returns_to_review_or_raises (e0 : env) (c0 : callback) (f : field)
    (updates : list (env * event)) (vals : list (string * value)) (w : world) :
  fsm_state w = Some review ->
  well_typed (fsm_data w) ->
  clock_ok e0 ->
  cb_data c0 = edit_payload f ->
  supplies w f updates vals ->
  if reply_keyboard_field f
  then run ((e0, Press c0) :: updates) w
       = Some (Raise ValidationError,
               with_data (<[lit "editing_field" := field_marker f]> (fsm_data w)) w)
  else exists w',
         run ((e0, Press c0) :: updates) w = Some (Ok tt, w')
         /\ map fst vals = field_keys f
         /\ back_in_review (field_keys f) vals w w'.
Proof.
  intros Hst Hw Hclock Hdata Hsup.
  destruct (reply_keyboard_field f) eqn:Hreply.
  { cbn [run]. by rewrite (edit_menu_raises e0 c0 f w Hst Hreply Hdata). }
  destruct (edit_menu_enters e0 c0 f w Hst Hw Hclock Hreply Hdata)
    as (w1 & Hrun1 & Hst1 & Hmark1 & Hframe1).
  rewrite (run_cons _ _ _ _ _ Hrun1).
  pose proof (well_typed_kept _ _ Hframe1 Hw) as Hw1.
  destruct Hsup; try discriminate Hreply;
    cbn [field_step field_marker field_keys map fst] in *.
  - (* cities *)
    assert (Hinv : choosing_cities w1 (sel, oth) w1).
    { split; [exact Hst1|]. split; [|done].
      destruct H as [Hs Ho]. split; cbn [fst snd]; rewrite Hframe1 by key_neq; done. }
    destruct (city_actions_run actions w1 w1 _ H0 Hinv) as (w2 & Hrun2 & Hst2 & Hstored2 & Hframe2).
    fold lists in Hstored2.
    rewrite (run_app _ _ _ _ Hrun2).
    destruct (edit_cities_done e c w2 lists.1 lists.2) as (w' & Hrun & Hst' & Hmark' & Hframe');
      try done.
    { unfold get, get_or. rewrite Hframe2 by key_neq. exact Hmark1. }
    { by apply cities_stored_lists. }
    exists w'. rewrite (run_cons _ _ _ _ _ Hrun).
    split; [reflexivity|]. split; [reflexivity|].
    destruct Hstored2 as [Hs2 Ho2].
    split; [exact Hst'|]. split; [|split; [exact Hmark'|]].
    + intros k v Hin.
      apply elem_of_cons in Hin as [Hin|Hin];
        [injection Hin as -> ->; rewrite Hframe' by key_neq; exact Hs2|].
      apply elem_of_cons in Hin as [Hin|Hin];
        [injection Hin as -> ->; rewrite Hframe' by key_neq; exact Ho2|].
      by apply elem_of_nil in Hin.
    + intros k Hk He Hl. rewrite Hframe' by done.
      rewrite Hframe2; [by apply Hframe1|..|done];
        intros ->; apply Hk; clear; cbn [map]; set_solver.
  - (* days, preset *)
    destruct (edit_days_preset e c w1) as (w' & Hrun & Hback); try done.
    exists w'. rewrite (run_cons _ _ _ _ _ Hrun).
    split; [reflexivity|]. split; [reflexivity|].
    by apply (back_in_review_after _ _ w w1).
  - (* days, typed *)
    destruct (open_other_days e1 c w1) as (w2 & Hrun2 & Hst2 & Hd2); try done.
    rewrite (run_cons _ _ _ _ _ Hrun2).
    destruct (edit_days_custom e2 m w2 n) as (w' & Hrun & Hback);
      try done; try (by rewrite Hd2).
    exists w'. rewrite (run_cons _ _ _ _ _ Hrun).
    split; [reflexivity|]. split; [reflexivity|].
    apply (back_in_review_after _ _ w w2); [by rewrite Hd2|done].
  - (* people, preset *)
    destruct (edit_people_preset e c w1) as (w' & Hrun & Hback); try done.
    exists w'. rewrite (run_cons _ _ _ _ _ Hrun).
    split; [reflexivity|]. split; [reflexivity|].
    by apply (back_in_review_after _ _ w w1).
  - (* people, typed *)
    destruct (open_other_people e1 c w1) as (w2 & Hrun2 & Hst2 & Hd2); try done.
    rewrite (run_cons _ _ _ _ _ Hrun2).
    destruct (edit_people_custom e2 m w2 n) as (w' & Hrun & Hback);
      try done; try (by rewrite Hd2).
    exists w'. rewrite (run_cons _ _ _ _ _ Hrun).
    split; [reflexivity|]. split; [reflexivity|].
    apply (back_in_review_after _ _ w w2); [by rewrite Hd2|done].
  - (* no translator *)
    destruct (edit_no_translator e c w1) as (w' & Hrun & Hback); try done.
    exists w'. rewrite (run_cons _ _ _ _ _ Hrun).
    split; [reflexivity|]. split; [reflexivity|].
    by apply (back_in_review_after _ _ w w1).
  - (* translator, preset language *)
    destruct (edit_translator_yes e1 c1 w1) as (w2 & Hrun2 & Hst2 & Hd2); try done.
    rewrite (run_cons _ _ _ _ _ Hrun2).
    destruct (edit_language_preset e2 c2 w2 (fsm_data w1)) as (w' & Hrun & Hback);
      try done.
    exists w'. rewrite (run_cons _ _ _ _ _ Hrun).
    split; [reflexivity|]. split; [reflexivity|].
    apply (back_in_review_after _ _ w w1); [done|by apply Hback].
  - (* translator, typed language *)
    destruct (edit_translator_yes e1 c1 w1) as (w2 & Hrun2 & Hst2 & Hd2); try done.
    rewrite (run_cons _ _ _ _ _ Hrun2).
    destruct (open_other_language e2 c2 w2) as (w3 & Hrun3 & Hst3 & Hd3); try done.
    rewrite (run_cons _ _ _ _ _ Hrun3).
    destruct (edit_language_custom e3 m w3 (fsm_data w1) t) as (w' & Hrun & Hback);
      try done; try (by rewrite Hd3).
    exists w'. rewrite (run_cons _ _ _ _ _ Hrun).
    split; [reflexivity|]. split; [reflexivity|].
    apply (back_in_review_after _ _ w w1); [done|by apply Hback].
  - (* a date *)
    destruct (edit_date_day e1 c1 w1 chosen) as (w2 & Hrun2 & Hst2 & Hd2); try done.
    rewrite (run_cons _ _ _ _ _ Hrun2).
    destruct (edit_date_confirm e2 c2 w2 chosen) as (w' & Hrun & Hback); try done.
    { rewrite Hd2. by rewrite get_insert_ne by key_neq. }
    { rewrite Hd2. apply well_typed_insert; [key_neq..|done]. }
    exists w'. rewrite (run_cons _ _ _ _ _ Hrun).
    split; [reflexivity|]. split; [reflexivity|].
    destruct Hback as (Hst' & Hvals & Hmark' & Hframe').
    split; [exact Hst'|]. split; [exact Hvals|]. split; [exact Hmark'|].
    intros k Hk He Hl. rewrite Hframe' by done. rewrite Hd2.
    rewrite lookup_insert_ne; [by apply Hframe1|].
    intros <-. apply Hk. clear. cbn [map]. set_solver.
  - (* no date *)
    destruct (edit_date_skip e c w1) as (w' & Hrun & Hback); try done.
    exists w'. rewrite (run_cons _ _ _ _ _ Hrun).
    split; [reflexivity|]. split; [reflexivity|].
    by apply (back_in_review_after _ _ w w1).
Qed.

(** ** The pending requests *)

Lemma obj_get_set_eq (k : str) (v : json) (o : list (str * json)) :
  obj_get k (obj_set k v o) = Some v.
Proof.
  induction o as [|[k' v'] o IH]; simpl.
  - by rewrite bool_decide_eq_true_2.
  - destruct (bool_decide (k' = k)) eqn:E; simpl.
    + by rewrite bool_decide_eq_true_2.
    + by rewrite E.
Qed.

Lemma obj_get_set_ne (k k0 : str) (v : json) (o : list (str * json)) :
  k0 <> k -> obj_get k (obj_set k0 v o) = obj_get k o.
Proof.
  intros Hne. induction o as [|[k' v'] o IH]; simpl.
  - by rewrite bool_decide_eq_false_2.
  - destruct (bool_decide (k' = k0)) eqn:E; simpl.
    + apply bool_decide_eq_true in E. subst k'.
      by rewrite !bool_decide_eq_false_2.
    + destruct (bool_decide (k' = k)); [reflexivity|exact IH].
Qed.

(** Marking looks at the identifier only: the first entry that carries it is
    stamped and the call reports success, whatever the status of the entry
    was. *)
Lemma mark_request_processed_found (e : env) (request_id : str) (admin_id : Z)
    (w : world) (o : list (str * json)) (rest : list json) :
  pending_file w = Some (Document (JArr (JObj o :: rest))) ->
  json_eq_str (default JNull (obj_get (lit "id") o)) request_id = true ->
  mark_request_processed e request_id admin_id w =
    (Ok true,
     with_pending (Some (Document (JArr (JObj (stamped e admin_id o) :: rest)))) w)
  /\ obj_get (lit "status") (stamped e admin_id o) = Some (JStr (lit "processed")).
Proof.
  intros Hfile Hid. split.
  - unfold mark_request_processed, bind, load_pending_requests, lift. rewrite Hfile.
    cbn [mark_first]. rewrite Hid.
    unfold save_pending_requests, ret. by rewrite Hfile.
  - unfold stamped. rewrite !obj_get_set_ne by key_neq. apply obj_get_set_eq.
Qed.

(** Marking an identifier that no entry carries reports failure and writes
    nothing. *)
Lemma mark_request_processed_missing (e : env) (request_id : str) (admin_id : Z)
    (w : world) :
  pending_file w <> Some NotUtf8 ->
  Forall (fun entry => exists o, entry = JObj o
            /\ json_eq_str (default JNull (obj_get (lit "id") o)) request_id = false)
         (requests_of (pending_file w)) ->
  mark_request_processed e request_id admin_id w = (Ok false, w).
Proof.
  intros Hutf Hall.
  unfold mark_request_processed, bind. rewrite load_pending_requests_reads by done.
  assert (Hnone : mark_first e request_id admin_id (requests_of (pending_file w)) = Ok None).
  { induction Hall as [|entry l (o & -> & Hid) Hall IH]; [reflexivity|].
    cbn [mark_first]. by rewrite Hid, IH. }
  unfold lift. by rewrite Hnone.
Qed.

(** * Further properties *)

(** ** Phone numbers, once more *)

Lemma filter_filter_same {A} (f : A -> bool) (l : list A) :
  List.filter f (List.filter f l) = List.filter f l.
Proof.
  induction l as [|x l IH]; simpl; [reflexivity|].
  destruct (f x) eqn:E; simpl; [rewrite E, IH|]; auto.
Qed.

(** X1. Formatting is idempotent: a number that [format_phone_number] has
    produced is returned unchanged when it is formatted again, as the detail
    view of the panel does with the stored number. The plus sign is taken
    not to be a digit. *)
Theorem format_phone_number_idempotent (phone : option str) :
  to_decimal 43 = None ->
  format_phone_number (Some (format_phone_number phone)) = format_phone_number phone.
Proof.
  intros Hplus. destruct phone as [[|c p]|]; try reflexivity.
  assert (Hcase : format_phone_number (Some (c :: p)) = []
                  \/ exists d ds, format_phone_number (Some (c :: p)) = 43%N :: d :: ds
                                  /\ List.filter is_decimal (d :: ds) = d :: ds).
  { unfold format_phone_number.
    destruct (List.filter is_decimal (c :: p)) as [|d ds] eqn:E; [by left|].
    right. exists d, ds. split; [reflexivity|].
    rewrite <- E. apply filter_filter_same. }
  destruct Hcase as [-> | (d & ds & -> & Hds)]; [reflexivity|].
  assert (Hall : List.filter is_decimal (43%N :: d :: ds) = d :: ds).
  { change (List.filter is_decimal (43%N :: d :: ds))
      with (if is_decimal 43 then 43%N :: List.filter is_decimal (d :: ds)
            else List.filter is_decimal (d :: ds)).
    unfold is_decimal at 1. rewrite Hplus. exact Hds. }
  unfold format_phone_number. rewrite Hall. reflexivity.
Qed.

(** ** Integers and their decimal strings *)

Lemma int_digit_ascii (c : N) : (48 <= c <= 57)%N -> int_digit c = Some (c - 48)%N.
Proof.
  intros H. unfold int_digit, ascii_decimal.
  destruct (N.ltb_spec c 127); [|lia].
  destruct (N.leb_spec 48 c); [|lia]. destruct (N.leb_spec c 57); [|lia]. reflexivity.
Qed.

Lemma int_space_digit (c : N) : (45 <= c <= 57)%N -> int_space c = false.
Proof.
  intros H. unfold int_space.
  destruct (N.ltb_spec c 127); [|lia].
  destruct (N.leb_spec 9 c), (N.leb_spec c 13), (N.eqb_spec c 32); simpl; lia || reflexivity.
Qed.

(** Reading the digits of a decimal number continues the number read so
    far. *)
Lemma int_digits_uint (u acc : Decimal.uint) :
  int_digits (uint_digits u) false (DecimalPos.Unsigned.of_lu acc)
  = Some (DecimalPos.Unsigned.of_lu (Decimal.revapp u acc)).
Proof.
  revert acc. induction u; intros acc; [reflexivity|..];
    cbn [uint_digits int_digits];
    (rewrite int_digit_ascii by lia);
    cbn [N.eqb Pos.eqb Decimal.revapp];
    rewrite <- IHu; f_equal; cbn [DecimalPos.Unsigned.of_lu]; lia.
Qed.

Lemma uint_digits_nonempty (u : Decimal.uint) : u <> Decimal.Nil -> uint_digits u <> [].
Proof. destruct u; [congruence|..]; discriminate. Qed.

Lemma str_of_N_nonempty (n : N) : str_of_N n <> [].
Proof.
  unfold str_of_N. apply uint_digits_nonempty.
  destruct n as [|p]; [discriminate|]. apply DecimalPos.Unsigned.to_uint_nonnil.
Qed.

Lemma str_of_N_digits (n : N) : Forall (fun c => (48 <= c <= 57)%N) (str_of_N n).
Proof. apply uint_digits_are_digits. Qed.

Lemma int_unsigned_str_of_N (n : N) : int_unsigned (str_of_N n) = Some n.
Proof.
  pose proof (str_of_N_nonempty n) as Hne. pose proof (str_of_N_digits n) as Hd.
  unfold int_unsigned. destruct (str_of_N n) as [|c rest] eqn:E; [congruence|].
  apply Forall_cons in Hd as [Hc _].
  destruct (N.eqb_spec c 95); [lia|]. rewrite <- E. unfold str_of_N.
  change 0%N with (DecimalPos.Unsigned.of_lu Decimal.Nil).
  rewrite int_digits_uint.
  change (Decimal.revapp (N.to_uint n) Decimal.Nil) with (Decimal.rev (N.to_uint n)).
  rewrite <- DecimalPos.Unsigned.of_uint_alt.
  f_equal. apply DecimalN.Unsigned.of_to.
Qed.

Lemma int_lskip_head (c : N) (s : str) :
  int_space c = false -> int_lskip (c :: s) = c :: s.
Proof. intros H. simpl. rewrite H. reflexivity. Qed.

(** Nothing is skipped around a text that starts and ends with a character
    that is not white space. *)
Lemma int_lskip_both (s : str) (first last : N) :
  head s = Some first -> head (rev s) = Some last ->
  int_space first = false -> int_space last = false ->
  rev (int_lskip (rev (int_lskip s))) = s.
Proof.
  intros Hf Hl Hsf Hsl.
  destruct s as [|c s]; [discriminate|]. injection Hf as ->.
  rewrite int_lskip_head by assumption.
  destruct (rev (first :: s)) as [|c' s'] eqn:E; [discriminate|]. injection Hl as ->.
  rewrite int_lskip_head by assumption. rewrite <- E. apply rev_involutive.
Qed.

Lemma head_rev_Forall {A} (P : A -> Prop) (l : list A) :
  l <> [] -> Forall P l -> exists x, head (rev l) = Some x /\ P x.
Proof.
  intros Hne Hall. destruct (rev l) as [|x r] eqn:E.
  - apply (f_equal (@rev A)) in E. rewrite rev_involutive in E. contradiction.
  - exists x. split; [reflexivity|].
    apply List.Forall_rev in Hall. rewrite E in Hall. by apply Forall_cons in Hall as [? _].
Qed.

(** The decimal string of an integer reads back as that integer: what
    [str] writes, [int] parses. *)
Lemma py_int_decimal (z : Z) : py_int (str_of_Z z) = Some z.
Proof.
  pose proof (str_of_N_nonempty (Z.to_N z)) as Hne.
  pose proof (str_of_N_digits (Z.to_N z)) as Hd.
  destruct (head_rev_Forall _ _ Hne Hd) as (last & Hlast & Hl).
  assert (Hnat : 0 <= z -> str_of_Z z = str_of_N (Z.to_N z))
    by (destruct z; [reflexivity|reflexivity|lia]).
  destruct (Z.le_gt_cases 0 z) as [Hpos|Hneg].
  - rewrite (Hnat Hpos). unfold py_int. cbv zeta.
    destruct (str_of_N (Z.to_N z)) as [|c rest] eqn:E; [congruence|].
    pose proof Hd as Hd'. apply Forall_cons in Hd' as [Hc _].
    rewrite (int_lskip_both (c :: rest) c last eq_refl Hlast)
      by (apply int_space_digit; lia).
    assert (Hbody :
              match c :: rest with
              | 43%N :: digits => Z.of_N <$> int_unsigned digits
              | 45%N :: digits => (fun n => - Z.of_N n) <$> int_unsigned digits
              | _ => Z.of_N <$> int_unsigned (c :: rest)
              end = Z.of_N <$> int_unsigned (c :: rest)).
    { clear -Hc. destruct c as [|p]; [reflexivity|].
      do 6 (destruct p as [p|p|]; try reflexivity); lia. }
    rewrite Hbody, <- E, int_unsigned_str_of_N. simpl. f_equal. lia.
  - destruct z as [|p|p]; try lia. clear Hnat Hne Hd Hlast Hl last.
    pose proof (str_of_N_nonempty (Npos p)) as Hne.
    pose proof (str_of_N_digits (Npos p)) as Hd.
    destruct (head_rev_Forall _ _ Hne Hd) as (last & Hlast & Hl).
    unfold py_int, str_of_Z. cbv zeta.
    rewrite (int_lskip_both (45%N :: str_of_N (Npos p)) 45 last eq_refl).
    + rewrite int_unsigned_str_of_N. reflexivity.
    + simpl. destruct (rev (str_of_N (N.pos p))) as [|x r] eqn:E; [discriminate|].
      simpl. simpl in Hlast. exact Hlast.
    + reflexivity.
    + apply int_space_digit. lia.
Qed.

(** The decimal strings of two different integers differ. *)
Lemma str_of_Z_inj (a b : Z) : str_of_Z a = str_of_Z b -> a = b.
Proof.
  intros H. pose proof (py_int_decimal a) as Ha. rewrite H, py_int_decimal in Ha.
  congruence.
Qed.

Lemma str_of_Z_chars (z : Z) : Forall (fun c => (45 <= c <= 57)%N) (str_of_Z z).
Proof.
  assert (H : forall n, Forall (fun c => (45 <= c <= 57)%N) (str_of_N n)).
  { intros n. eapply Forall_impl; [apply str_of_N_digits|]. cbn. lia. }
  destruct z; cbn [str_of_Z]; [apply H|apply H|]. constructor; [lia|apply H].
Qed.

Lemma str_of_Z_nonempty (z : Z) : str_of_Z z <> [].
Proof. destruct z; cbn [str_of_Z]; try apply str_of_N_nonempty. discriminate. Qed.

(** ** White space *)

Lemma lstrip_fixed (c : N) (s : str) : is_space c = false -> lstrip (c :: s) = c :: s.
Proof. intros H. simpl. rewrite H. reflexivity. Qed.

Lemma lstrip_head (s : str) (c : N) (r : str) : lstrip s = c :: r -> is_space c = false.
Proof.
  induction s as [|x s IH]; simpl; [discriminate|].
  destruct (is_space x) eqn:E; [exact IH|]. intros [= <- _]. exact E.
Qed.

Lemma lstrip_suffix (s : str) : exists p, s = p ++ lstrip s.
Proof.
  induction s as [|x s [p IH]]; [by exists []|]. simpl.
  destruct (is_space x); [|by exists []]. exists (x :: p). simpl. by rewrite <- IH.
Qed.

(** A text that starts and ends with a character that is not white space
    is left as it is. *)
Lemma strip_fixed (s : str) (first last : N) :
  head s = Some first -> head (rev s) = Some last ->
  is_space first = false -> is_space last = false ->
  strip s = s.
Proof.
  intros Hf Hl Hsf Hsl. unfold strip, rstrip.
  destruct s as [|c s]; [discriminate|]. injection Hf as ->.
  rewrite lstrip_fixed by assumption.
  destruct (rev (first :: s)) as [|c' s'] eqn:E; [discriminate|]. injection Hl as ->.
  rewrite lstrip_fixed by assumption. rewrite <- E. apply rev_involutive.
Qed.

(** What [strip] leaves is empty, or starts and ends with a character that
    is not white space. *)
Lemma strip_ends (s : str) :
  strip s = []
  \/ exists first last,
       head (strip s) = Some first /\ head (rev (strip s)) = Some last
       /\ is_space first = false /\ is_space last = false.
Proof.
  unfold strip, rstrip.
  destruct (lstrip (rev (lstrip s))) as [|c v] eqn:Ev; [by left|]. right.
  pose proof (lstrip_head _ _ _ Ev) as Hc.
  destruct (lstrip_suffix (rev (lstrip s))) as [p Hp]. rewrite Ev in Hp.
  apply (f_equal (@rev N)) in Hp. rewrite rev_involutive, rev_app_distr in Hp.
  destruct (rev (c :: v)) as [|x r] eqn:Er.
  { apply (f_equal (@length N)) in Er. rewrite length_rev in Er. discriminate. }
  exists x, c. split; [reflexivity|]. split.
  { rewrite <- Er, rev_involutive. reflexivity. }
  split; [|exact Hc].
  apply (lstrip_head s x (r ++ rev p)). exact Hp.
Qed.

Lemma strip_strip (s : str) : strip (strip s) = strip s.
Proof.
  destruct (strip_ends s) as [->|(first & last & Hf & Hl & Hsf & Hsl)]; [reflexivity|].
  by apply (strip_fixed _ first last).
Qed.

(** X2. What the custom-number steps store is read back as the same
    number: a message whose text is the decimal string of an integer, as
    [str] writes it, is parsed by the [int(message.text.strip())] of these
    steps as that integer. The minus sign and the digits are taken not to be
    white space. *)
Theorem stored_number_reads_back (m : message) (n : Z) :
  (forall c, (45 <= c <= 57)%N -> is_space c = false) ->
  msg_text m = Some (str_of_Z n) ->
  typed_number m = Some n.
Proof.
  intros Hspace Htext. unfold typed_number. rewrite Htext.
  pose proof (str_of_Z_nonempty n) as Hne. pose proof (str_of_Z_chars n) as Hchars.
  destruct (head_rev_Forall _ _ Hne Hchars) as (last & Hlast & Hl).
  destruct (str_of_Z n) as [|first rest] eqn:E; [congruence|].
  assert (Hf : (45 <= first <= 57)%N) by (by apply Forall_cons in Hchars as [? _]).
  rewrite (strip_fixed (first :: rest) first last eq_refl Hlast) by (by apply Hspace).
  rewrite <- E. apply py_int_decimal.
Qed.

(** ** Names *)

(** X3. [extract_user_names] gives both names without surrounding white
    space; the full name is the first name when the profile has no last
    name, and else the first and the last name joined by one blank, or the
    last name alone when the first is empty. The blank is taken to be white
    space. *)
Theorem extract_user_names_shape (user : profile) :
  is_space 32 = true ->
  let names := extract_user_names user in
  let last := strip (default [] (last_name user)) in
  strip names.1 = names.1
  /\ strip names.2 = names.2
  /\ names.2 = match last, names.1 with
               | [], _ => names.1
               | _ :: _, [] => last
               | _ :: _, _ :: _ => names.1 ++ lit " " ++ last
               end.
Proof.
  intros Hblank names last. unfold names, extract_user_names. cbn [fst snd].
  fold last.
  set (first := strip match first_name user with
                      | [] => match username user with
                              | Some (c :: name) => c :: name
                              | _ => lit "Traveler"
                              end
                      | _ :: _ => first_name user
                      end).
  assert (Hfirst : strip first = first) by apply strip_strip.
  assert (Hlast : strip last = last) by apply strip_strip.
  split; [exact Hfirst|].
  destruct last as [|l ls] eqn:El.
  { split; [exact Hfirst|]. by destruct first. }
  destruct (strip_ends (default [] (last_name user)))
    as [Hnil|(lf & ll & Hlf & Hll & Hslf & Hsll)];
    [fold last in Hnil; congruence|].
  fold last in Hlf, Hll. rewrite El in Hlf, Hll.
  destruct first as [|f fs] eqn:Ef.
  - assert (Hfull : strip ([] ++ lit " " ++ l :: ls) = l :: ls).
    { change ([] ++ lit " " ++ l :: ls) with (32%N :: l :: ls).
      unfold strip. cbn [lstrip]. rewrite Hblank.
      change (rstrip (lstrip (l :: ls))) with (strip (l :: ls)). exact Hlast. }
    rewrite Hfull. split; [exact Hlast|reflexivity].
  - destruct (strip_ends match first_name user with
                         | [] => match username user with
                                 | Some (c :: name) => c :: name
                                 | _ => lit "Traveler"
                                 end
                         | _ :: _ => first_name user
                         end)
      as [Hnil|(ff & fl & Hff & _ & Hsff & _)];
      [fold first in Hnil; congruence|].
    fold first in Hff. rewrite Ef in Hff.
    assert (Hfull : strip ((f :: fs) ++ lit " " ++ l :: ls) = (f :: fs) ++ lit " " ++ l :: ls).
    { apply (strip_fixed _ ff ll); try assumption.
      rewrite !rev_app_distr.
      destruct (rev (l :: ls)) as [|x r]; [discriminate|]. exact Hll. }
    rewrite Hfull. split; [exact Hfull|reflexivity].
Qed.

(** ** Labels *)

(** X4. A label cut by [truncate_label] fits the limit: for a limit of at
    least 1 the result has at most [limit] characters; a stripped text that
    fits is returned whole, and a longer one is cut to exactly [limit]
    characters, the last of which is the ellipsis. *)
Theorem truncate_label_fits (text : str) (limit : Z) :
  1 <= limit ->
  Z.of_nat (length (truncate_label text limit)) <= limit
  /\ (Z.of_nat (length (strip text)) <= limit -> truncate_label text limit = strip text)
  /\ (limit < Z.of_nat (length (strip text)) ->
      Z.of_nat (length (truncate_label text limit)) = limit
      /\ truncate_label text limit
         = take (Z.to_nat (limit - 1)) (strip text) ++ lit "…").
Proof.
  intros Hlimit. unfold truncate_label, slice_to.
  destruct (Z.leb_spec (Z.of_nat (length (strip text))) limit) as [Hfit|Hlong].
  - split; [exact Hfit|]. split; [reflexivity|lia].
  - destruct (Z.leb_spec 0 (limit - 1)) as [_|]; [|lia].
    assert (Hlen : Z.of_nat (length (take (Z.to_nat (limit - 1)) (strip text) ++ lit "…"))
                   = limit).
    { rewrite length_app, length_take. change (length (lit "…")) with 1%nat. lia. }
    split; [lia|]. split; [lia|]. intros _. split; [exact Hlen|reflexivity].
Qed.

(** ** The language preference *)

Lemma get_user_language_reads (user_id : Z) (w : world) (o : list (str * json)) :
  languages_of (lang_file w) = Some o ->
  get_user_language user_id w = (Ok (default JNull (obj_get (str_of_Z user_id) o)), w).
Proof.
  unfold languages_of, get_user_language.
  destruct (lang_file w) as [[| | |[]]|]; intros [= <-]; reflexivity.
Qed.

Lemma save_user_language_writes (user_id : Z) (lang : str) (w : world)
    (o : list (str * json)) :
  languages_of (lang_file w) = Some o ->
  save_user_language user_id lang w =
    (Ok tt,
     with_lang (Some (Document (JObj (obj_set (str_of_Z user_id) (JStr lang) o)))) w).
Proof.
  unfold languages_of, save_user_language.
  destruct (lang_file w) as [[| | |[]]|]; intros [= <-]; reflexivity.
Qed.

(** X5. A saved language is read back: after [save_user_language] has
    stored a language for a user, [get_user_language] returns it for that
    user and returns for every other user what it returned before; only the
    language file has changed. This holds when the file is absent, is not
    JSON, or holds a JSON object. *)
Theorem save_user_language_round_trip (user_id : Z) (lang : str) (w : world)
    (o : list (str * json)) :
  languages_of (lang_file w) = Some o ->
  exists w',
    save_user_language user_id lang w = (Ok tt, w')
    /\ get_user_language user_id w' = (Ok (JStr lang), w')
    /\ (forall other, other <> user_id ->
        (get_user_language other w').1 = (get_user_language other w).1)
    /\ with_lang (lang_file w) w' = w.
Proof.
  intros Hfile. eexists. split; [by apply save_user_language_writes|].
  split; [|split].
  - erewrite get_user_language_reads by reflexivity. by rewrite obj_get_set_eq.
  - intros other Hother.
    erewrite get_user_language_reads by reflexivity.
    rewrite (get_user_language_reads other w o Hfile). cbn [fst].
    rewrite obj_get_set_ne; [reflexivity|].
    intros Heq. apply Hother. symmetry. by apply str_of_Z_inj.
  - by destruct w.
Qed.

(** Keys that a handler does not write keep their entry. *)
Ltac untouched :=
  let k := fresh "k" in
  let Hk := fresh "Hk" in
  intros k Hk;
  repeat (rewrite lookup_insert_ne;
          [|intros <-; apply Hk; clear Hk;
            apply (bool_decide_unpack _); vm_compute; reflexivity]);
  reflexivity.

(** X6. Choosing a language stores it: after [process_language_selection]
    the language file gives the chosen code for the user; when the user
    only changes the language the conversation ends with no step and no
    data, and otherwise it goes on to the phone step with the user and the
    language in the data dict and every other answer as it was. The CSV log
    and the request queue are not touched. *)
Theorem process_language_selection_stores (upper : str -> str) (user : profile)
    (c : callback) (w : world) (o : list (str * json)) :
  languages_of (lang_file w) = Some o ->
  let chosen := remove_all (lit "lang_select_") (cb_data c) in
  exists w',
    process_language_selection upper user c w = (Ok tt, w')
    /\ get_user_language (cb_user c) w' = (Ok (JStr chosen), w')
    /\ users_csv w' = users_csv w
    /\ pending_file w' = pending_file w
    /\ if truthy (get (fsm_data w) "change_language_only")
       then fsm_state w' = None /\ fsm_data w' = ∅
       else fsm_state w' = Some phone
            /\ fsm_data w' !! lit "user_id" = Some (VInt (cb_user c))
            /\ fsm_data w' !! lit "lang_code" = Some (VStr chosen)
            /\ fsm_data w' !! lit "change_language_only" = Some (VBool false)
            /\ forall k,
                 k ∉ map lit ["user_id"; "lang_code"; "change_language_only";
                              "first_name"; "full_name"; "last_bot_message_id"]%string ->
                 fsm_data w' !! k = fsm_data w !! k.
Proof.
  intros Hfile chosen. unfold process_language_selection. fold chosen.
  destruct w as [st d csv pf lf out nid]. fields. exec.
  erewrite save_user_language_writes by exact Hfile.
  unfold with_lang. fields. read_dict.
  destruct (truthy (get d "change_language_only")); exec.
  - eexists. split; [reflexivity|]. fields.
    split; [by erewrite get_user_language_reads by reflexivity; rewrite obj_get_set_eq|].
    done.
  - read_dict.
    destruct (truthy (get d "first_name")); exec; read_dict;
      destruct (truthy (get d "last_bot_message_id")); exec;
      (eexists; split; [reflexivity|]); fields;
      (split; [by erewrite get_user_language_reads by reflexivity; rewrite obj_get_set_eq|]);
      (split; [reflexivity|]); (split; [reflexivity|]); (split; [reflexivity|]);
      (split; [by repeat (rewrite lookup_insert_ne by key_neq); rewrite lookup_insert_eq|]);
      (split; [by repeat (rewrite lookup_insert_ne by key_neq); rewrite lookup_insert_eq|]);
      (split; [by repeat (rewrite lookup_insert_ne by key_neq); rewrite lookup_insert_eq|]);
      untouched.
Qed.

(** X7. When the language file cannot be read as a dict (it holds a JSON
    list, number, string or null, cannot be opened, or is not UTF-8),
    choosing a language fails: [process_language_selection] raises, the file
    is left as it was and no message is sent; the data dict already holds
    the user and the chosen language. *)
Theorem process_language_selection_fails (upper : str -> str) (user : profile)
    (c : callback) (w : world) :
  languages_of (lang_file w) = None ->
  process_language_selection upper user c w =
    (Raise match lang_file w with
           | Some Unreadable => OSError
           | Some NotUtf8 => UnicodeDecodeError
           | _ => TypeError
           end,
     with_data
       (<[lit "lang_code" := VStr (remove_all (lit "lang_select_") (cb_data c))]>
          (<[lit "user_id" := VInt (cb_user c)]> (fsm_data w))) w).
Proof.
  intros Hfile. unfold process_language_selection.
  destruct w as [st d csv pf lf out nid]. fields. exec.
  unfold save_user_language. fields.
  destruct lf as [[| | |[]]|]; try discriminate Hfile; reflexivity.
Qed.

(** ** The commands *)

(** Two data dicts built from the same entries are equal. *)
Ltac same_entries :=
  let k := fresh "k" in
  apply map_eq; intros k; unfold entries_of; cbn [fold_left fst snd app];
  repeat match goal with
    | |- context [<[?a := _]> _ !! k] =>
        let H := fresh in
        destruct (decide (k = a)) as [->|H];
        [ vm_compute; reflexivity
        | repeat match goal with
                 | |- context [<[a := ?v]> ?m !! k] =>
                     rewrite (lookup_insert_ne m a k v) by (intros ?; apply H; congruence)
                 end ]
    end;
  reflexivity.

Lemma get_empty (k : string) : get ∅ k = VNone.
Proof. unfold get, get_or. by rewrite lookup_empty. Qed.

(** X8. [/start] begins anew: whatever the step and the answers were, the
    data dict afterwards holds the user, the two names, the cleared
    change-only flag, the stored language if there is one, and the
    identifier of the last prompt, and nothing else; the step is the phone
    step when a language is stored and the language step otherwise. The
    three files are left as they were. *)
Theorem cmd_start_resets (user_id : Z) (user : profile) (w : world)
    (o : list (str * json)) (stored : value) :
  languages_of (lang_file w) = Some o ->
  of_json (default JNull (obj_get (str_of_Z user_id) o)) = Some stored ->
  let names := extract_user_names user in
  exists w',
    cmd_start user_id user w = Some (Ok tt, w')
    /\ users_csv w' = users_csv w
    /\ pending_file w' = pending_file w
    /\ lang_file w' = lang_file w
    /\ if truthy stored
       then fsm_state w' = Some phone
            /\ fsm_data w' =
                 entries_of [("user_id"%string, VInt user_id);
                             ("first_name"%string, VStr names.1);
                             ("full_name"%string, VStr names.2);
                             ("change_language_only"%string, VBool false);
                             ("lang_code"%string, stored);
                             ("last_bot_message_id"%string, VInt (next_message_id w + 1))]
       else fsm_state w' = Some lang_code
            /\ fsm_data w' =
                 entries_of [("user_id"%string, VInt user_id);
                             ("first_name"%string, VStr names.1);
                             ("full_name"%string, VStr names.2);
                             ("change_language_only"%string, VBool false);
                             ("last_bot_message_id"%string, VInt (next_message_id w))].
Proof.
  intros Hfile Hstored names. subst names.
  unfold cmd_start, reading_language, start_phone_collection.
  destruct (extract_user_names user) as [first full]. cbn [fst snd].
  destruct w as [st d csv pf lf out nid]. exec. fields.
  erewrite get_user_language_reads by exact Hfile. rewrite Hstored.
  cbn [fmap option_fmap option_map].
  destruct (truthy stored); exec.
  - read_dict.
    destruct first as [|n1 ns]; exec; read_dict; rewrite ?get_empty; exec;
      (eexists; split; [reflexivity|]); fields;
      repeat (split; [reflexivity|]); same_entries.
  - eexists. split; [reflexivity|]. fields. repeat (split; [reflexivity|]). same_entries.
Qed.

(** X9. [/help], [/support] and [/language] discard the questionnaire:
    whatever the step and the answers were, afterwards the data dict holds
    only the user, the language (the stored one, or English) and the
    identifier of the reply, with the change-only flag set by [/language];
    the step is none after [/help] and [/support] and the language step
    after [/language]. *)
Theorem commands_restart (user_id : Z) (m : message) (w : world)
    (o : list (str * json)) (stored : value) :
  languages_of (lang_file w) = Some o ->
  of_json (default JNull (obj_get (str_of_Z user_id) o)) = Some stored ->
  let lang := if truthy stored then stored else VStr (lit "en") in
  (exists w', cmd_help user_id m w = Some (Ok tt, w')
              /\ restarted user_id lang [] None w w')
  /\ (exists w', cmd_support user_id m w = Some (Ok tt, w')
                 /\ restarted user_id lang [] None w w')
  /\ (exists w', cmd_language user_id m w = Some (Ok tt, w')
                 /\ restarted user_id lang [("change_language_only"%string, VBool true)]
                      (Some lang_code) w w').
Proof.
  intros Hfile Hstored lang.
  destruct w as [st d csv pf lf out nid]. fields.
  repeat split;
    unfold cmd_help, cmd_support, cmd_language, restarting, reading_language;
    exec; destruct (truthy (get d "last_bot_message_id")); exec; fields;
    (erewrite get_user_language_reads by exact Hfile); rewrite Hstored;
    cbn [fmap option_fmap option_map]; fold lang; exec;
    (eexists; split; [reflexivity|]); unfold restarted; fields;
    (split; [reflexivity|]); (split; [same_entries|]); done.
Qed.

(** ** The request queue *)

Lemma obj_get_omap_absent (d : gmap str value) (k : str) (keys : list string) :
  k ∉ map lit keys ->
  obj_get k (omap (fun key => (fun v => (lit key, to_json v)) <$> d !! lit key) keys) = None.
Proof.
  induction keys as [|key keys IH]; intros Hk; [reflexivity|].
  cbn [map] in Hk. apply not_elem_of_cons in Hk as [Hne Hk].
  cbn [omap list_omap]. destruct (d !! lit key) as [v|]; cbn [fmap option_fmap option_map].
  - cbn [obj_get]. rewrite bool_decide_eq_false_2 by congruence. by apply IH.
  - by apply IH.
Qed.

(** X10. The payload kept for the administrators holds the payload keys
    that are in the data dict, with the values of the data dict, and no
    other key: the bookkeeping entries of the conversation (the field being
    edited, the last prompt, the change-only flag) never reach the queue. *)
Theorem extract_admin_payload_exact (d : gmap str value) (k : str) :
  obj_get k (extract_admin_payload d) =
    if bool_decide (k ∈ map lit REQUEST_PAYLOAD_KEYS) then to_json <$> d !! k else None.
Proof.
  destruct (bool_decide (k ∈ map lit REQUEST_PAYLOAD_KEYS)) eqn:E.
  - apply bool_decide_eq_true in E. apply list_elem_of_fmap in E as (key & -> & Hkey).
    by apply extract_admin_payload_snapshot.
  - apply bool_decide_eq_false in E. by apply obj_get_omap_absent.
Qed.

Lemma get_pending_requests_new (w : world) (requests news : list json) :
  pending_file w = Some (Document (JArr requests)) ->
  filter_status (lit "new") requests = Ok news ->
  get_pending_requests (lit "new") w = (Ok news, w).
Proof.
  intros Hfile Hnews. unfold get_pending_requests, bind, load_pending_requests.
  rewrite Hfile.
  change (match lit "new" with
          | [] => ret requests
          | _ :: _ => lift (filter_status (lit "new") requests)
          end w)
    with (lift (filter_status (lit "new") requests) w).
  unfold lift. by rewrite Hnews.
Qed.

Lemma filter_status_app (status : str) (l1 l2 k1 k2 : list json) :
  filter_status status l1 = Ok k1 -> filter_status status l2 = Ok k2 ->
  filter_status status (l1 ++ l2) = Ok (k1 ++ k2).
Proof.
  revert k1. induction l1 as [|x l1 IH]; intros k1 H1 H2.
  - injection H1 as <-. exact H2.
  - cbn [app filter_status] in *.
    destruct (entry_get "status" x) as [st|]; [|discriminate]. cbn [and_then] in *.
    destruct (filter_status status l1) as [kept|]; [|discriminate]. cbn [and_then] in *.
    injection H1 as <-. rewrite (IH kept eq_refl H2). cbn [and_then].
    by destruct (json_eq_str st status).
Qed.

(** X11. A request that was just added is found again: the new entry has
    the status [new] and the payload it was given, [get_pending_request_by_id]
    returns it for its identifier, and it is the first of the new requests,
    before those that were pending already. *)
Theorem added_request_is_found (e : env) (payload : list (str * json)) (w : world) :
  pending_file w <> Some Unreadable ->
  pending_file w <> Some NotUtf8 ->
  exists entry w',
    add_pending_request e payload w = (Ok entry, w')
    /\ entry_get "status" entry = Ok (JStr (lit "new"))
    /\ entry_get "payload" entry = Ok (JObj payload)
    /\ get_pending_request_by_id (fresh_uuid e) w' = (Ok (Some entry), w')
    /\ forall news,
         filter_status (lit "new") (requests_of (pending_file w)) = Ok news ->
         get_pending_requests (lit "new") w' = (Ok (entry :: news), w').
Proof.
  intros Hread Hutf.
  destruct (add_pending_request_adds e payload w Hread Hutf) as (entry & Hentry & Hadd).
  eexists entry, _. split; [exact Hadd|]. subst entry.
  split; [reflexivity|]. split; [reflexivity|]. split.
  - unfold get_pending_request_by_id, bind, load_pending_requests, lift.
    cbn [with_pending pending_file find_request entry_get and_then].
    change (json_eq_str _ (fresh_uuid e))
      with (bool_decide (fresh_uuid e = fresh_uuid e)).
    by rewrite bool_decide_eq_true_2.
  - intros news Hnews. eapply get_pending_requests_new; [reflexivity|].
    cbn [filter_status entry_get and_then]. rewrite Hnews. reflexivity.
Qed.

Lemma startswith_prefix (p s : str) : startswith p (p ++ s) = true.
Proof.
  induction p as [|c p IH]; [reflexivity|]. cbn [app startswith].
  by rewrite N.eqb_refl, IH.
Qed.

Lemma remove_first_prefix (p s : str) : p <> [] -> remove_first p (p ++ s) = s.
Proof.
  intros Hp. destruct p as [|c p]; [congruence|].
  change (remove_first (c :: p) ((c :: p) ++ s))
    with (if startswith (c :: p) ((c :: p) ++ s)
          then skipn (length (c :: p)) ((c :: p) ++ s)
          else c :: remove_first (c :: p) (p ++ s)).
  rewrite startswith_prefix. by rewrite drop_app_length.
Qed.

Lemma mark_first_middle (e : env) (request_id : str) (admin_id : Z)
    (before after : list json) (o : list (str * json)) :
  others request_id before ->
  json_eq_str (default JNull (obj_get (lit "id") o)) request_id = true ->
  mark_first e request_id admin_id (before ++ JObj o :: after)
  = Ok (Some (before ++ JObj (stamped e admin_id o) :: after)).
Proof.
  intros Hbefore Hid.
  induction Hbefore as [|entry l (o' & -> & Hid') _ IH]; cbn [app mark_first].
  - by rewrite Hid.
  - by rewrite Hid', IH.
Qed.

Lemma mark_first_none (e : env) (request_id : str) (admin_id : Z) (requests : list json) :
  others request_id requests -> mark_first e request_id admin_id requests = Ok None.
Proof.
  intros Hall. induction Hall as [|entry l (o & -> & Hid) _ IH]; [reflexivity|].
  cbn [mark_first]. by rewrite Hid, IH.
Qed.

Lemma stamped_status (e : env) (admin_id : Z) (o : list (str * json)) :
  obj_get (lit "status") (stamped e admin_id o) = Some (JStr (lit "processed")).
Proof. unfold stamped. rewrite !obj_get_set_ne by key_neq. apply obj_get_set_eq. Qed.

(** X12. An administrator who marks a request removes it from the panel:
    the first entry of the queue with the identifier gets the status
    [processed], the administrator and the time, every other entry stays as
    it is, the press is answered with the success text, and the panel
    rendered afterwards lists the new requests without that entry. When a
    button of that panel cannot be built, because one of the first ten new
    requests has a payload that is not an object, a name that is not a
    string or a creation time that is not a string, the handler raises
    there: the queue is rewritten and the press answered, the panel is not
    rendered. *)
Theorem admin_marks_request (e : env) (c : callback) (w : world)
    (request_id : str) (before after news_before news_after : list json)
    (o : list (str * json)) :
  is_admin (cb_user c) = true ->
  cb_data c = lit "admin_req_done_" ++ request_id ->
  pending_file w = Some (Document (JArr (before ++ JObj o :: after))) ->
  others request_id before ->
  json_eq_str (default JNull (obj_get (lit "id") o)) request_id = true ->
  filter_status (lit "new") before = Ok news_before ->
  filter_status (lit "new") after = Ok news_after ->
  let answer := CallbackAnswer (Some (TLit "Request marked as processed ✅")) false in
  let marked :=
    with_pending
      (Some (Document (JArr (before ++ JObj (stamped e (cb_user c) o) :: after)))) w in
  dispatch e (Press c) w =
    Some match build_admin_panel_keyboard (news_before ++ news_after) with
         | Ok _ =>
             (Ok tt,
              with_sent
                (sent w ++ [answer; RenderAdminPanel (news_before ++ news_after)]) marked)
         | Raise x => (Raise x, with_sent (sent w ++ [answer]) marked)
         end.
Proof.
  intros Hadmin Hdata Hfile Hbefore Hid Hnb Hna answer marked. subst answer marked.
  unfold dispatch, route_callback. rewrite Hdata.
  rewrite bool_decide_eq_false_2 by key_neq.
  rewrite startswith_prefix. cbn [fmap option_fmap option_map]. f_equal.
  unfold admin_mark_request_done. rewrite Hadmin, Hdata. cbn [negb].
  rewrite remove_first_prefix by key_neq.
  unfold bind at 1. unfold mark_request_processed, bind at 1, load_pending_requests.
  rewrite Hfile. unfold lift, bind at 1.
  rewrite (mark_first_middle e request_id (cb_user c) before after o Hbefore Hid).
  unfold bind at 1, save_pending_requests. rewrite Hfile. unfold ret.
  assert (Hnews : filter_status (lit "new")
                    (before ++ JObj (stamped e (cb_user c) o) :: after)
                  = Ok (news_before ++ news_after)).
  { apply filter_status_app; [exact Hnb|].
    cbn [filter_status entry_get and_then]. rewrite stamped_status, Hna. reflexivity. }
  unfold bind at 1, send. unfold render_admin_panel, bind.
  erewrite get_pending_requests_new; [|reflexivity|exact Hnews].
  unfold lift.
  destruct (build_admin_panel_keyboard (news_before ++ news_after)) as [[]|x];
    destruct w; unfold send, ret;
    cbn [app with_sent with_pending sent fsm_state fsm_data users_csv
         pending_file lang_file next_message_id];
    [by rewrite <- app_assoc|reflexivity].
Qed.

(** X13. Marking a request that is not in the queue changes nothing: the
    press is answered with the failure alert, the panel is rendered again
    with the new requests, and the queue file is left untouched. When a
    button of the panel cannot be built, the handler raises after the
    alert and the panel is not rendered. *)
Theorem admin_marks_missing_request (e : env) (c : callback) (w : world)
    (request_id : str) (requests news : list json) :
  is_admin (cb_user c) = true ->
  cb_data c = lit "admin_req_done_" ++ request_id ->
  pending_file w = Some (Document (JArr requests)) ->
  others request_id requests ->
  filter_status (lit "new") requests = Ok news ->
  let alert := CallbackAnswer (Some (TLit "Request already handled or missing.")) true in
  dispatch e (Press c) w =
    Some match build_admin_panel_keyboard news with
         | Ok _ => (Ok tt, with_sent (sent w ++ [alert; RenderAdminPanel news]) w)
         | Raise x => (Raise x, with_sent (sent w ++ [alert]) w)
         end.
Proof.
  intros Hadmin Hdata Hfile Hothers Hnews alert. subst alert.
  unfold dispatch, route_callback. rewrite Hdata.
  rewrite bool_decide_eq_false_2 by key_neq.
  rewrite startswith_prefix. cbn [fmap option_fmap option_map]. f_equal.
  unfold admin_mark_request_done. rewrite Hadmin, Hdata. cbn [negb].
  rewrite remove_first_prefix by key_neq.
  unfold bind at 1. unfold mark_request_processed, bind at 1, load_pending_requests.
  rewrite Hfile. unfold lift, bind at 1.
  rewrite (mark_first_none e request_id (cb_user c) requests Hothers).
  unfold ret, bind at 1, send. unfold render_admin_panel, bind.
  erewrite get_pending_requests_new; [|exact Hfile|exact Hnews].
  unfold lift.
  destruct (build_admin_panel_keyboard news) as [[]|x];
    destruct w; unfold send, ret;
    cbn [app with_sent with_pending sent fsm_state fsm_data users_csv
         pending_file lang_file next_message_id];
    [by rewrite <- app_assoc|reflexivity].
Qed.

(** ** Who may use the panel *)

(** X14. The buttons of the panel refuse everybody else: when the user who
    presses is not an administrator, the refresh button, the buttons of the
    requests and the buttons that mark a request are answered with the
    alert "Not authorized" and nothing else happens, whatever the step of
    the conversation; the queue, the data dict and the step stay as they
    are. *)
Theorem admin_buttons_refuse_others (e : env) (c : callback) (w : world) :
  is_admin (cb_user c) = false ->
  cb_data c = lit "admin_panel_refresh" \/ startswith (lit "admin_req_") (cb_data c) = true ->
  dispatch e (Press c) w =
    Some (Ok tt,
          with_sent (sent w ++ [CallbackAnswer (Some (TLit "Not authorized")) true]) w).
Proof.
  intros Hadmin Hdata. unfold dispatch, route_callback.
  destruct (bool_decide (cb_data c = lit "admin_panel_refresh")) eqn:Hrefresh.
  { unfold admin_panel_refresh. by rewrite Hadmin. }
  destruct Hdata as [Hdata|Hdata];
    [apply bool_decide_eq_false in Hrefresh; contradiction|].
  destruct (startswith (lit "admin_req_done_") (cb_data c)).
  { unfold admin_mark_request_done. by rewrite Hadmin. }
  rewrite Hdata. unfold admin_view_request. by rewrite Hadmin.
Qed.

Lemma find_request_middle (request_id : str) (before after : list json)
    (o : list (str * json)) :
  others request_id before ->
  json_eq_str (default JNull (obj_get (lit "id") o)) request_id = true ->
  find_request request_id (before ++ JObj o :: after) = Ok (Some (JObj o)).
Proof.
  intros Hbefore Hid.
  induction Hbefore as [|entry l (o' & -> & Hid') _ IH];
    cbn [app find_request entry_get and_then].
  - by rewrite Hid.
  - by rewrite Hid'.
Qed.

Lemma find_request_none (request_id : str) (requests : list json) :
  others request_id requests -> find_request request_id requests = Ok None.
Proof.
  intros Hall. induction Hall as [|entry l (o & -> & Hid) _ IH]; [reflexivity|].
  cbn [find_request entry_get and_then]. by rewrite Hid.
Qed.

(** X15. Looking at a request changes nothing in the queue. An
    administrator who presses the button of a request is shown the first
    entry of the queue with that identifier; when no entry has it, the press
    is answered with the alert that the request is no longer available and
    the panel is rendered again. When the text of the details, or a button
    of the panel, cannot be built from entries that the bot did not write,
    the handler raises there and the view is not shown. In every case the
    world is as before but for the calls to Telegram. *)
Theorem admin_views_request (e : env) (c : callback) (w : world)
    (request_id : str) (requests : list json) :
  is_admin (cb_user c) = true ->
  cb_data c = lit "admin_req_" ++ request_id ->
  startswith (lit "done_") request_id = false ->
  pending_file w = Some (Document (JArr requests)) ->
  (forall before o after,
     requests = before ++ JObj o :: after ->
     others request_id before ->
     json_eq_str (default JNull (obj_get (lit "id") o)) request_id = true ->
     o <> [] ->
     dispatch e (Press c) w =
       Some match format_admin_request_details (JObj o) with
            | Ok _ =>
                (Ok tt,
                 with_sent (sent w ++ [ShowRequestDetails (JObj o) request_id;
                                       CallbackAnswer None false]) w)
            | Raise x => (Raise x, w)
            end)
  /\ (forall news,
        others request_id requests ->
        filter_status (lit "new") requests = Ok news ->
        let alert :=
          CallbackAnswer (Some (TLit "This request is no longer available.")) true in
        dispatch e (Press c) w =
          Some match build_admin_panel_keyboard news with
               | Ok _ => (Ok tt, with_sent (sent w ++ [alert; RenderAdminPanel news]) w)
               | Raise x => (Raise x, with_sent (sent w ++ [alert]) w)
               end).
Proof.
  intros Hadmin Hdata Hdone Hfile.
  assert (Hroute : dispatch e (Press c) w = Some (admin_view_request c w)).
  { unfold dispatch, route_callback. rewrite Hdata.
    rewrite bool_decide_eq_false_2 by key_neq.
    change (startswith (lit "admin_req_done_") (lit "admin_req_" ++ request_id))
      with (startswith (lit "done_") request_id).
    rewrite Hdone, startswith_prefix. reflexivity. }
  rewrite Hroute. unfold admin_view_request. rewrite Hadmin, Hdata. cbn [negb].
  change (startswith (lit "admin_req_done_") (lit "admin_req_" ++ request_id))
    with (startswith (lit "done_") request_id).
  rewrite Hdone, remove_first_prefix by key_neq.
  assert (Hfound : get_pending_request_by_id request_id w
                   = (find_request request_id requests, w)).
  { unfold get_pending_request_by_id, bind, load_pending_requests, lift.
    by rewrite Hfile. }
  split.
  - intros before o after -> Hbefore Hid Ho.
    rewrite (find_request_middle request_id before after o Hbefore Hid) in Hfound.
    unfold bind at 1. rewrite Hfound.
    destruct o as [|field o]; [congruence|].
    unfold bind, lift.
    destruct (format_admin_request_details (JObj (field :: o))) as [[]|x];
      [|reflexivity].
    unfold send, ret. destruct w.
    cbn [app with_sent sent fsm_state fsm_data users_csv pending_file lang_file
         next_message_id].
    by rewrite <- app_assoc.
  - intros news Hothers Hnews.
    rewrite (find_request_none request_id requests Hothers) in Hfound.
    unfold bind at 1. rewrite Hfound.
    unfold bind at 1, send. unfold render_admin_panel, bind.
    erewrite get_pending_requests_new; [|exact Hfile|exact Hnews].
    unfold lift.
    destruct (build_admin_panel_keyboard news) as [[]|x];
      destruct w; unfold send, ret;
      cbn [app with_sent sent fsm_state fsm_data users_csv pending_file lang_file
           next_message_id];
      [by rewrite <- app_assoc|reflexivity].
Qed.

(** ** Messages that nobody waits for *)

(** X16. A message that neither a command handler nor a step handler takes
    changes neither the step nor any answer: without a conversation the bot
    answers with the hint to use [/start]; in a step that waits for a
    button, and in the phone and city steps when the message does not pass
    the filter, it deletes the message and answers with the hint to use the
    buttons. Not even the identifier of the last prompt is updated. *)
Theorem unexpected_message_changes_nothing (e : env) (m : message) (w : world) :
  has_command_prefix m = false ->
  unexpected (fsm_state w) m = true ->
  dispatch e (Msg m) w =
    Some (Ok tt,
          with_next_id (next_message_id w + 1)
            (with_sent
               (sent w ++
                match fsm_state w with
                | None =>
                    [Answer (TGet (get_or (fsm_data w) "lang_code" (VStr (lit "en")))
                                  "use_start") None]
                | Some _ =>
                    [DeleteMessage (VInt (message_id m));
                     Answer (TGet (get_or (fsm_data w) "lang_code" (VStr (lit "en")))
                                  "use_buttons") None]
                end) w)).
Proof.
  intros Hplain Hun. deliver. f_equal.
  assert (Hh : handle_unexpected m w =
               (Ok tt,
                with_next_id (next_message_id w + 1)
                  (with_sent
                     (sent w ++
                      match fsm_state w with
                      | None =>
                          [Answer (TGet (get_or (fsm_data w) "lang_code" (VStr (lit "en")))
                                        "use_start") None]
                      | Some _ =>
                          [DeleteMessage (VInt (message_id m));
                           Answer (TGet (get_or (fsm_data w) "lang_code" (VStr (lit "en")))
                                        "use_buttons") None]
                      end) w))).
  { unfold handle_unexpected. destruct w as [[s|] d csv pf lf out nid]; exec; fields;
      [by rewrite <- app_assoc|reflexivity]. }
  destruct (fsm_state w) as [[]|] eqn:Hst; cbn [unexpected] in Hun;
    try discriminate Hun; try exact Hh;
    apply negb_true_iff in Hun; rewrite Hun; exact Hh.
Qed.

(** ** The arrows of the calendar *)

Lemma split_on_app (sep : N) (a b : str) :
  sep ∉ a -> split_on sep (a ++ sep :: b) = a :: split_on sep b.
Proof.
  induction a as [|c a IH]; intros Hn; cbn [app split_on].
  - by rewrite N.eqb_refl.
  - apply not_elem_of_cons in Hn as [Hne Hn].
    destruct (N.eqb_spec c sep) as [->|_]; [congruence|]. by rewrite (IH Hn).
Qed.

Lemma is_substring_absent (needle s : str) (c : N) :
  head needle = Some c -> c ∉ s -> is_substring needle s = false.
Proof.
  destruct needle as [|c' needle]; [discriminate|]. intros [= ->].
  induction s as [|x s IH]; intros Hn; [reflexivity|].
  apply not_elem_of_cons in Hn as [Hne Hn].
  cbn [is_substring startswith]. rewrite (IH Hn).
  destruct (N.eqb_spec c x) as [->|_]; [congruence|reflexivity].
Qed.

Lemma str_of_Z_no_p (z : Z) : 112%N ∉ str_of_Z z.
Proof.
  intros Hin. pose proof (str_of_Z_chars z) as Hall.
  rewrite Forall_forall in Hall. apply Hall in Hin. lia.
Qed.

Lemma arrow_payload_split (forward : bool) (y m : Z) :
  split_on 95%N (arrow_payload forward y m)
  = [lit "cal"; if forward then lit "next" else lit "prev"; str_of_Z y; str_of_Z m].
Proof.
  assert (Htail : split_on 95%N (str_of_Z y ++ lit "_" ++ str_of_Z m)
                  = [str_of_Z y; str_of_Z m]).
  { change (lit "_" ++ str_of_Z m) with (95%N :: str_of_Z m).
    rewrite split_on_app by apply str_of_Z_no_underscore.
    by rewrite split_on_absent by apply str_of_Z_no_underscore. }
  unfold arrow_payload. destruct forward.
  - change (lit "cal_next_" ++ str_of_Z y ++ lit "_" ++ str_of_Z m)
      with (99 :: 97 :: 108 :: 95 :: 110 :: 101 :: 120 :: 116 :: 95
            :: (str_of_Z y ++ lit "_" ++ str_of_Z m))%N.
    cbn [split_on N.eqb Pos.eqb]. rewrite Htail. reflexivity.
  - change (lit "cal_prev_" ++ str_of_Z y ++ lit "_" ++ str_of_Z m)
      with (99 :: 97 :: 108 :: 95 :: 112 :: 114 :: 101 :: 118 :: 95
            :: (str_of_Z y ++ lit "_" ++ str_of_Z m))%N.
    cbn [split_on N.eqb Pos.eqb]. rewrite Htail. reflexivity.
Qed.

Lemma arrow_payload_prev (forward : bool) (y m : Z) :
  is_substring (lit "prev") (arrow_payload forward y m) = negb forward.
Proof.
  unfold arrow_payload. destruct forward; cbn [negb].
  - apply (is_substring_absent _ _ 112); [reflexivity|].
    rewrite !not_elem_of_app. split; [|split; [|split]].
    + apply (bool_decide_unpack _). vm_compute. reflexivity.
    + apply str_of_Z_no_p.
    + apply (bool_decide_unpack _). vm_compute. reflexivity.
    + apply str_of_Z_no_p.
  - reflexivity.
Qed.

(** X17. The arrows of the calendar lead to the neighbouring months. The
    keyboard of a month gives its two arrows the payloads that
    [process_date_calendar] reads back; pressing an arrow replaces the
    keyboard by that of the next or the previous month, across the turn of
    the year, and changes neither the step nor any answer; and the target
    of the opposite arrow of the month so reached is the month one came
    from. When the neighbouring month cannot be rendered the handler raises
    and nothing has changed. *)
Theorem calendar_arrows (e : env) (c : callback) (w : world) (forward : bool)
    (y m : Z) :
  fsm_state w = Some start_date ->
  1 <= m <= 12 ->
  cb_data c = arrow_payload forward y m ->
  let target := arrow_target forward y m in
  (forall now selected lang kb,
     get_calendar_keyboard now y m selected lang = Ok kb ->
     exists buttons,
       kb = InlineKeyboard buttons
       /\ Button (TLit "◀️") (arrow_payload false y m) ∈ buttons
       /\ Button (TLit "▶️") (arrow_payload true y m) ∈ buttons)
  /\ dispatch e (Press c) w =
       Some match get_calendar_keyboard (today e) target.1 target.2
                    (get (fsm_data w) "start_date")
                    (get_or (fsm_data w) "lang_code" (VStr (lit "en"))) with
            | Ok kb =>
                (Ok tt,
                 with_sent (sent w ++ [EditReplyMarkup kb; CallbackAnswer None false]) w)
            | Raise x => (Raise x, w)
            end
  /\ arrow_target (negb forward) target.1 target.2 = (y, m).
Proof.
  intros Hst Hm Hdata target. split; [|split].
  - intros now selected lang kb Hkb. unfold get_calendar_keyboard in Hkb.
    destruct (negb ((1 <=? m) && (m <=? 12))); [discriminate|].
    destruct (negb ((1 <=? y) && (y <=? 9999))); [discriminate|].
    assert (Hinj : forall a b : markup, Ok a = Ok b -> a = b)
      by (intros a b Hab; congruence).
    apply Hinj in Hkb. subst kb. eexists. split; [reflexivity|].
    unfold arrow_payload. rewrite !elem_of_app. split; right; right.
    + apply list_elem_of_here.
    + do 2 apply list_elem_of_further. apply list_elem_of_here.
  - assert (Hp : startswith (lit "cal_") (cb_data c) = true)
      by (rewrite Hdata; by destruct forward).
    route (lit "cal_"). clear Hp.
    destruct w as [st d csv pf lf out nid]. fields. subst st.
    unfold process_date_calendar. rewrite Hdata.
    rewrite bool_decide_eq_false_2 by (destruct forward; vm_compute; discriminate).
    rewrite arrow_payload_split, arrow_payload_prev.
    assert (Harrow : startswith (lit "cal_prev_") (arrow_payload forward y m)
                     || startswith (lit "cal_next_") (arrow_payload forward y m) = true)
      by (by destruct forward).
    rewrite Harrow. go. rewrite !py_int_decimal. go.
    assert (Htarget :
              (if negb forward
               then if m - 1 <? 1 then (y - 1, 12) else (y, m - 1)
               else if 12 <? m + 1 then (y + 1, 1) else (y, m + 1)) = target).
    { unfold target, arrow_target. destruct forward; cbn [negb].
      - destruct (Z.ltb_spec 12 (m + 1)), (Z.eqb_spec m 12); try lia; reflexivity.
      - destruct (Z.ltb_spec (m - 1) 1), (Z.eqb_spec m 1); try lia; reflexivity. }
    rewrite Htarget. destruct target as [y' m']. cbn [fst snd].
    destruct (get_calendar_keyboard (today e) y' m' (get d "start_date")
                (get_or d "lang_code" (VStr (lit "en")))) as [kb|x]; go; fields;
      [by rewrite <- app_assoc|reflexivity].
  - unfold target, arrow_target. destruct forward; cbn [negb].
    + destruct (Z.eqb_spec m 12) as [->|Hne]; cbn [fst snd].
      * change (1 =? 1) with true. cbn. f_equal. lia.
      * destruct (Z.eqb_spec (m + 1) 1); [lia|]. f_equal. lia.
    + destruct (Z.eqb_spec m 1) as [->|Hne]; cbn [fst snd].
      * change (12 =? 12) with true. cbn. f_equal. lia.
      * destruct (Z.eqb_spec (m - 1) 12); [lia|]. f_equal. lia.
Qed.

(** ** Custom cities *)

(** X18. A typed city is added once. In the step that asks for another
    city, a text that is not left to the command handlers and has at least
    two characters (after stripping) returns to the
    city selection with the city at the end of the custom cities, or with
    the custom cities unchanged when the city is among them already; the
    selected cities are not touched. A shorter text is refused with the
    error text. *)
Theorem custom_city_added_once (e : env) (m : message) (w : world)
    (sel oth : list str) (t : str) :
  fsm_state w = Some other_city ->
  city_lists (fsm_data w) sel oth ->
  has_command_prefix m = false ->
  msg_text m = Some t ->
  exists w',
    dispatch e (Msg m) w = Some (Ok tt, w')
    /\ if (length (strip t) <? 2)%nat
       then refused "invalid_city" w w'
       else fsm_state w' = Some cities_to_visit
            /\ city_lists (fsm_data w') sel
                 (if bool_decide (strip t ∈ oth) then oth else oth ++ [strip t])
            /\ forall k,
                 k ∉ map lit ["other_cities"; "last_bot_message_id"]%string ->
                 fsm_data w' !! k = fsm_data w !! k.
Proof.
  intros Hst [Hsel Hoth] Hplain Htext.
  deliver. rewrite Hst.
  destruct (reprompt_refused "invalid_city" m w) as (wr & Hr & Href).
  destruct w as [st d csv pf lf out nid]. fields. subst st.
  unfold process_other_city. go. rewrite Htext. go.
  destruct (length (strip t) <? 2)%nat eqn:Hlen.
  { rewrite Hr. eauto. }
  rewrite Hoth, Hsel. go.
  destruct (bool_decide (strip t ∈ oth)) eqn:Hin; go; keyboard; go;
    (eexists; split; [reflexivity|]); fields;
    (split; [reflexivity|]); (split; [|untouched]);
    unfold city_lists; read_dict; by rewrite Hsel.
Qed.


Lemma filter_truthy_strings (l : list str) :
  List.filter truthy (map VStr l)
  = map VStr (List.filter (fun s => match s with [] => false | _ :: _ => true end) l).
Proof.
  induction l as [|s l IH]; [reflexivity|]. cbn [map List.filter truthy].
  destruct s; cbn [map]; by rewrite IH.
Qed.

(** X20. Confirming the review merges the custom cities into the selected
    ones and keeps the custom ones beside them: afterwards [cities_to_visit]
    is the selected cities followed by the custom ones, [other_cities] is
    unchanged, and the conversation asks where the user heard of the bot.
    [combine_cities], which builds the destinations of the detail view of
    the panel from these two entries, therefore lists every custom city
    twice. *)
Theorem confirm_merges_cities (e : env) (c : callback) (w : world)
    (sel oth : list str) :
  fsm_state w = Some review ->
  cb_data c = lit "review_confirm" ->
  city_lists (fsm_data w) sel oth ->
  exists w',
    dispatch e (Press c) w = Some (Ok tt, w')
    /\ fsm_state w' = Some referral_source
    /\ city_lists (fsm_data w') (sel ++ oth) oth
    /\ (forall k,
          k ∉ map lit ["cities_to_visit"; "last_bot_message_id"]%string ->
          fsm_data w' !! k = fsm_data w !! k)
    /\ combine_cities (fsm_data w')
       = map VStr (List.filter (fun s => match s with [] => false | _ :: _ => true end)
                               (sel ++ oth ++ oth)).
Proof.
  intros Hst Hdata [Hsel Hoth].
  assert (Hp : startswith (lit "review_confirm") (cb_data c) = true)
    by (rewrite Hdata; reflexivity).
  route (lit "review_confirm"). clear Hp. rewrite Hdata.
  rewrite bool_decide_eq_true_2 by reflexivity. cbn [fmap option_fmap option_map].
  destruct w as [st d csv pf lf out nid]. fields. subst st.
  unfold process_confirm. go. rewrite Hsel, Hoth. go.
  eexists. split; [reflexivity|]. fields. split; [reflexivity|].
  assert (Hlists : city_lists
                     (<[lit "last_bot_message_id":=VInt (cb_message_id c)]>
                        (<[lit "cities_to_visit":=VList (sel ++ oth)]> d))
                     (sel ++ oth) oth).
  { unfold city_lists. read_dict. by rewrite Hoth. }
  split; [exact Hlists|]. split; [untouched|].
  destruct Hlists as [Hsel' Hoth']. unfold combine_cities. rewrite Hsel', Hoth'.
  rewrite <- map_app, <- app_assoc. apply filter_truthy_strings.
Qed.

(** ** The first steps *)

Lemma lstrip_keeps (c : N) (s : str) : is_space c = false -> c ∈ s -> c ∈ lstrip s.
Proof.
  intros Hc. induction s as [|x s IH]; intros Hin; [exact Hin|].
  cbn [lstrip]. destruct (is_space x) eqn:Hx; [|exact Hin].
  apply elem_of_cons in Hin as [->|Hin]; [congruence|by apply IH].
Qed.

Lemma elem_of_rev_list {A} (x : A) (l : list A) : x ∈ l -> x ∈ rev l.
Proof. intros H. apply list_elem_of_In. apply -> in_rev. by apply list_elem_of_In. Qed.

Lemma strip_keeps (c : N) (s : str) : is_space c = false -> c ∈ s -> c ∈ strip s.
Proof.
  intros Hc Hin. unfold strip, rstrip.
  apply elem_of_rev_list, lstrip_keeps; [exact Hc|].
  by apply elem_of_rev_list, lstrip_keeps.
Qed.

Lemma no_prefix_phone (m : message) :
  (forall c, (49 <= c <= 57)%N -> is_space c = false) ->
  phone_regexp (default [] (msg_text m)) = true ->
  has_command_prefix m = false.
Proof.
  intros Hdigits Hfilter. unfold has_command_prefix.
  assert (Hdigit : forall c, ((49 <=? c) && (c <=? 57))%N = true ->
                             is_space c = false /\ c <> 47%N).
  { intros c Hc. apply andb_true_iff in Hc as [H1 H2]. apply N.leb_le in H1, H2.
    split; [apply Hdigits|]; lia. }
  destruct (default [] (msg_text m)) as [|a t]; [reflexivity|].
  unfold phone_regexp in Hfilter.
  assert (Hcase : (exists c t', a :: t = 43%N :: c :: t'
                                /\ ((49 <=? c) && (c <=? 57))%N = true)
                  \/ ((49 <=? a) && (a <=? 57))%N = true).
  { destruct a as [|p]; [by right|].
    do 6 (destruct p as [p|p|]; try by right).
    destruct t as [|c t']; [discriminate|]. left. eauto. }
  destruct Hcase as [(c & t' & Heq & Hc)|Ha].
  - rewrite Heq. destruct (Hdigit c Hc) as [Hsp Hne]. cbn [lstrip].
    rewrite Hsp. destruct (is_space 43); [|reflexivity].
    destruct c as [|p]; [reflexivity|].
    do 6 (destruct p as [p|p|]; try reflexivity). congruence.
  - destruct (Hdigit a Ha) as [Hsp Hne]. cbn [lstrip]. rewrite Hsp.
    destruct a as [|p]; [reflexivity|].
    do 6 (destruct p as [p|p|]; try reflexivity). congruence.
Qed.

(** X21. A text that passes the filter of the phone step always gives a
    phone number: the filter asks for a digit 1 to 9 at the start, after an
    optional plus sign, so [format_phone_number] finds a digit and the
    branch that answers with the invalid-phone text is not taken for a text
    message. Outside edit mode the number is stored and the conversation
    asks for the current city. The digits 1 to 9 are taken to be decimal
    digits and not white space. *)
Theorem phone_text_is_accepted (e : env) (m : message) (w : world) :
  (forall c, (49 <= c <= 57)%N -> is_decimal c = true /\ is_space c = false) ->
  fsm_state w = Some phone ->
  msg_contact m = None ->
  phone_regexp (default [] (msg_text m)) = true ->
  exists d ds,
    format_phone_number (message_phone m) = 43%N :: d :: ds
    /\ Forall (fun c => is_decimal c = true) (d :: ds)
    /\ (eq_str (get (fsm_data w) "editing_field") (lit "phone") = false ->
        exists w',
          dispatch e (Msg m) w = Some (Ok tt, w')
          /\ fsm_state w' = Some current_city
          /\ fsm_data w' !! lit "phone" = Some (VStr (43%N :: d :: ds))
          /\ forall k,
               k ∉ map lit ["phone"; "last_bot_message_id"]%string ->
               fsm_data w' !! k = fsm_data w !! k).
Proof.
  intros Hdigits Hst Hcontact Hfilter.
  assert (Hphone : exists t c, message_phone m = Some (strip t) /\ c ∈ t
                               /\ (49 <= c <= 57)%N).
  { unfold message_phone. rewrite Hcontact.
    destruct (msg_text m) as [[|a t]|]; try discriminate Hfilter.
    exists (a :: t). cbn [default] in Hfilter. unfold phone_regexp in Hfilter.
    assert (Hcase : (exists c t', a :: t = 43%N :: c :: t'
                                  /\ ((49 <=? c) && (c <=? 57))%N = true)
                    \/ ((49 <=? a) && (a <=? 57))%N = true).
    { destruct a as [|p]; [by right|].
      do 6 (destruct p as [p|p|]; try by right).
      destruct t as [|c t']; [discriminate|]. left. eauto. }
    destruct Hcase as [(c & t' & Heq & Hc)|Ha].
    - exists c. split; [reflexivity|]. rewrite Heq.
      split; [apply list_elem_of_further, list_elem_of_here|].
      apply andb_true_iff in Hc as [H1 H2]. apply N.leb_le in H1, H2. lia.
    - exists a. split; [reflexivity|]. split; [apply list_elem_of_here|].
      apply andb_true_iff in Ha as [H1 H2]. apply N.leb_le in H1, H2. lia. }
  destruct Hphone as (t & c & Hphone & Hin & Hc).
  destruct (Hdigits c Hc) as [Hdec Hsp].
  assert (Hex : existsb is_decimal (strip t) = true).
  { apply existsb_exists. exists c. split; [|exact Hdec].
    apply list_elem_of_In. by apply strip_keeps. }
  pose proof (filter_nonempty _ _ Hex) as Hne.
  pose proof (filter_all is_decimal (strip t)) as Hall.
  assert (Hfmt : format_phone_number (message_phone m)
                 = 43%N :: List.filter is_decimal (strip t)).
  { rewrite Hphone. unfold format_phone_number.
    destruct (strip t) as [|c0 p0]; [discriminate Hex|].
    destruct (List.filter is_decimal (c0 :: p0)); [contradiction|reflexivity]. }
  destruct (List.filter is_decimal (strip t)) as [|d ds] eqn:Ef; [contradiction|].
  exists d, ds. split; [exact Hfmt|]. split; [exact Hall|].
  intros Hmark.
  assert (Hplain : has_command_prefix m = false).
  { apply no_prefix_phone; [|exact Hfilter]. intros c0 Hc0. by apply Hdigits. }
  deliver. rewrite Hst, Hfilter, orb_true_r.
  destruct w as [st dd csv pf lf out nid]. fields. subst st.
  unfold process_phone. go. rewrite Hfmt. go. rewrite Hmark. go.
  eexists. split; [reflexivity|]. fields. split; [reflexivity|].
  split; [by repeat (rewrite lookup_insert_ne by key_neq); rewrite lookup_insert_eq|].
  untouched.
Qed.

(** X22. An accepted current city opens the city selection afresh. In the
    city step outside edit mode, a shared location, or a text that is not
    left to the command handlers and has at least two characters (after
    stripping), is stored as the current city, both city
    lists are set to the empty list, whatever they held, and the step
    becomes the city selection; a shorter text is refused with the error
    text. *)
Theorem current_city_opens_selection (e : env) (m : message) (w : world) :
  fsm_state w = Some current_city ->
  eq_str (get (fsm_data w) "editing_field") (lit "current_city") = false ->
  has_command_prefix m = false ->
  is_Some_b (msg_location m) || has_text m = true ->
  exists w',
    dispatch e (Msg m) w = Some (Ok tt, w')
    /\ match message_city m with
       | Some city =>
           fsm_state w' = Some cities_to_visit
           /\ fsm_data w' !! lit "current_city" = Some (VStr city)
           /\ cities_stored (fsm_data w') [] []
           /\ forall k,
                k ∉ map lit ["current_city"; "cities_to_visit"; "other_cities";
                             "last_bot_message_id"]%string ->
                fsm_data w' !! k = fsm_data w !! k
       | None => refused "invalid_city" w w'
       end.
Proof.
  intros Hst Hmark Hplain Hfilter.
  deliver. rewrite Hst, Hfilter.
  destruct (reprompt_refused "invalid_city" m w) as (wr & Hr & Href).
  destruct w as [st d csv pf lf out nid]. fields. subst st.
  unfold message_city, process_current_city, has_text in *.
  destruct (msg_location m) as [[latitude longitude]|].
  - change (lit "Lat: " ++ latitude ++ lit ", Lon: " ++ longitude)
      with (76%N :: tl (lit "Lat: " ++ latitude ++ lit ", Lon: " ++ longitude)).
    go. destruct (truthy (get d "last_bot_message_id")); go; rewrite Hmark; go;
      (eexists; split; [reflexivity|]); fields;
      (split; [reflexivity|]);
      (split; [by repeat (rewrite lookup_insert_ne by key_neq); rewrite lookup_insert_eq|]);
      (split; [split; by repeat (rewrite lookup_insert_ne by key_neq);
                         rewrite lookup_insert_eq|]);
      untouched.
  - destruct (msg_text m) as [[|c0 t]|]; try discriminate Hfilter.
    destruct (length (strip (c0 :: t)) <? 2)%nat eqn:Hlen; go; rewrite ?Hlen.
    { rewrite Hr. eauto. }
    destruct (strip (c0 :: t)) as [|c1 s1] eqn:Hstrip; [discriminate|].
    go. destruct (truthy (get d "last_bot_message_id")); go; rewrite Hmark; go;
      (eexists; split; [reflexivity|]); fields;
      (split; [reflexivity|]);
      (split; [by repeat (rewrite lookup_insert_ne by key_neq); rewrite lookup_insert_eq|]);
      (split; [split; by repeat (rewrite lookup_insert_ne by key_neq);
                         rewrite lookup_insert_eq|]);
      untouched.
Qed.

(** ** The end of the questionnaire *)


(** X24. Every administrator is told of a new request, once: when the full
    name in the data dict is a string or is missing, [notify_admins] sends
    one message to each configured administrator, in the configured order
    and all with the same text, the mention that [build_user_mention] makes
    of the user; nothing else changes, and nothing is sent when no
    administrator is configured. *)
Theorem notify_admins_reaches_everyone (d : gmap str value) (w : world) :
  named d ->
  exists mention,
    build_user_mention (get d "user_id") (get d "full_name") = Ok mention
    /\ notify_admins d w =
         (Ok tt,
          with_sent
            (sent w ++
             map (fun admin_id =>
                    SendMessage admin_id (TCat [TLit "📥 New request from "; mention]))
                 ADMIN_CHAT_IDS) w).
Proof.
  intros Hname.
  assert (Hmention : exists mention,
            build_user_mention (get d "user_id") (get d "full_name") = Ok mention).
  { unfold build_user_mention, get, get_or.
    destruct (d !! lit "full_name") as [v|] eqn:Ev; cbn [default].
    - destruct (Hname v Ev) as [s ->]. destruct s as [|c s]; cbn; eexists; reflexivity.
    - cbn. eexists; reflexivity. }
  destruct Hmention as [mention Hmention]. exists mention. split; [exact Hmention|].
  assert (Heach : forall (t : text) admins w0,
            fold_right (fun admin_id rest => do send (SendMessage admin_id t) in rest)
                       (ret tt) admins w0
            = (Ok tt, with_sent (sent w0 ++ map (fun a => SendMessage a t) admins) w0)).
  { intros t admins. induction admins as [|a admins IH]; intros w0.
    - destruct w0. unfold ret, with_sent. fields. by rewrite app_nil_r.
    - cbn [fold_right map]. unfold bind at 1, send at 1. rewrite IH.
      destruct w0. fields. by rewrite <- app_assoc. }
  unfold notify_admins. destruct ADMIN_CHAT_IDS as [|a admins] eqn:E.
  { destruct w. unfold ret, with_sent. fields. by rewrite app_nil_r. }
  unfold bind at 1, lift, format_admin_summary. rewrite Hmention. cbn [and_then].
  apply Heach.
Qed.

(** ** Keyboards built from data *)

Lemma for_each_Forall {A B} (f : A -> res B) (P : B -> Prop) (l : list A)
    (out : list B) :
  (forall x y, f x = Ok y -> P y) -> for_each f l = Ok out -> Forall P out.
Proof.
  intros Hf. revert out. induction l as [|x l IH]; intros out Hout.
  - injection Hout as <-. constructor.
  - cbn [for_each] in Hout. destruct (f x) as [y|] eqn:Ey; [|discriminate].
    cbn [and_then] in Hout. destruct (for_each f l) as [ys|]; [|discriminate].
    cbn [and_then] in Hout. injection Hout as <-.
    constructor; [by eapply Hf|by apply IH].
Qed.

Lemma day_button_payload (now : Z * Z * Z) (selected_dt : option (Z * Z * Z))
    (y m d : Z) :
  startswith (lit "cal_") (payload (day_button now selected_dt y m d)) = true.
Proof.
  unfold day_button. destruct (d =? 0); [reflexivity|].
  destruct (date_ltb (y, m, d) now); reflexivity.
Qed.

(** X25. Every button of the two keyboards that are built from data is
    taken by the handler of its step: whatever the selected and the custom
    cities are, each button of the city keyboard carries a payload that the
    router hands to [process_city_selection] in the city step, and whatever
    the month, the selected date and the day of rendering are, each button
    of the calendar carries a payload that the router hands to
    [process_date_calendar] in the date step. *)
Theorem data_keyboards_are_routed (e : env) (user message_id : Z) :
  (forall selected_cities other_cities lang kb,
     get_cities_keyboard selected_cities other_cities lang = Ok kb ->
     exists buttons,
       kb = InlineKeyboard buttons
       /\ Forall (fun b =>
                    let c := Callback user message_id (payload b) in
                    route_callback e (Some cities_to_visit) c
                    = Some (process_city_selection c)) buttons)
  /\ (forall now y m selected_date lang kb,
        get_calendar_keyboard now y m selected_date lang = Ok kb ->
        exists buttons,
          kb = InlineKeyboard buttons
          /\ Forall (fun b =>
                       let c := Callback user message_id (payload b) in
                       route_callback e (Some start_date) c
                       = Some (process_date_calendar e c)) buttons).
Proof.
  assert (Hinj : forall (A : Type) (a b : A), Ok a = Ok b -> a = b)
    by (intros A a b Hab; congruence).
  assert (Hcity : forall data,
            startswith (lit "city_") data = true ->
            route_callback e (Some cities_to_visit) (Callback user message_id data)
            = Some (process_city_selection (Callback user message_id data))).
  { intros data Hp.
    rewrite (route_callback_questionnaire e _ (Callback user message_id data)
               (lit "city_") 99 Hp eq_refl) by (vm_compute; discriminate).
    cbn [cb_data]. by rewrite Hp. }
  assert (Hcal : forall data,
            startswith (lit "cal_") data = true ->
            route_callback e (Some start_date) (Callback user message_id data)
            = Some (process_date_calendar e (Callback user message_id data))).
  { intros data Hp.
    rewrite (route_callback_questionnaire e _ (Callback user message_id data)
               (lit "cal_") 99 Hp eq_refl) by (vm_compute; discriminate).
    cbn [cb_data]. by rewrite Hp. }
  split.
  - intros selected_cities other_cities lang kb Hkb. unfold get_cities_keyboard in Hkb.
    destruct (for_each _ known_cities) as [known|] eqn:Eknown; [|discriminate].
    cbn [and_then] in Hkb.
    destruct (py_iter other_cities) as [others_|]; [|discriminate].
    cbn [and_then] in Hkb. apply Hinj in Hkb. subst kb.
    eexists. split; [reflexivity|]. rewrite !Forall_app. split; [|split].
    + eapply for_each_Forall; [|exact Eknown]. cbv beta.
      intros city b Hb. destruct (py_in (lit city) selected_cities); [|discriminate].
      cbn [and_then] in Hb. apply Hinj in Hb. subst b. cbv zeta. cbn [payload].
      apply Hcity, startswith_prefix.
    + apply Forall_forall. intros b Hb. apply list_elem_of_fmap in Hb as (city & -> & _).
      cbv zeta. cbn [payload]. apply Hcity, startswith_prefix.
    + repeat constructor; cbv zeta; cbn [payload]; by apply Hcity.
  - intros now y m selected_date lang kb Hkb. unfold get_calendar_keyboard in Hkb.
    destruct (negb ((1 <=? m) && (m <=? 12))); [discriminate|].
    destruct (negb ((1 <=? y) && (y <=? 9999))); [discriminate|].
    apply Hinj in Hkb. subst kb.
    eexists. split; [reflexivity|]. rewrite !Forall_app. split; [|split].
    + apply Forall_forall. intros b Hb. apply list_elem_of_fmap in Hb as (d & -> & _).
      cbv zeta. cbn [payload]. by apply Hcal.
    + unfold day_grid. apply Forall_concat, Forall_forall.
      intros week Hweek. apply list_elem_of_fmap in Hweek as (days_ & -> & _).
      apply Forall_forall. intros b Hb. apply list_elem_of_fmap in Hb as (d & -> & _).
      cbv zeta. apply Hcal, day_button_payload.
    + repeat constructor; cbv zeta; cbn [payload]; apply Hcal;
        try reflexivity; apply (startswith_prefix (lit "cal_")).
Qed.


End Bot.

Arguments Ok {A} a.
Arguments Raise {A} e.

(** * The statements at sample inputs

    The character database is taken at its ASCII part, no administrator is
    configured unless said otherwise, and the translation table is empty. *)

(** ** Phone numbers *)

Lemma format_phone_number_digits_witness :
  format_phone_number ascii_decimal (Some (lit "+7 (900) 123-45-67"))
  = 43%N :: List.filter (is_decimal ascii_decimal) (lit "+7 (900) 123-45-67")
  /\ Forall (fun c => is_decimal ascii_decimal c = true)
            (List.filter (is_decimal ascii_decimal) (lit "+7 (900) 123-45-67")).
Proof. apply format_phone_number_digits. reflexivity. Defined.

Lemma format_phone_number_empty_or_plus_witness :
  format_phone_number ascii_decimal (Some (lit "call me")) = []
  /\ exists d ds,
       format_phone_number ascii_decimal (Some (lit "tel. 42")) = 43%N :: d :: ds
       /\ Forall (fun c => is_decimal ascii_decimal c = true) (d :: ds).
Proof.
  split.
  - apply (proj1 (format_phone_number_empty_or_plus ascii_decimal (Some (lit "call me")))).
    right. exists (lit "call me"). split; reflexivity.
  - apply (proj2 (format_phone_number_empty_or_plus ascii_decimal (Some (lit "tel. 42")))).
    vm_compute. discriminate.
Defined.

(** ** The cities step *)

Lemma city_toggle_twice_witness :
  exists w1 w2 sel1 oth1,
    dispatch ascii_decimal ascii_space (fun _ => None) [] (fun _ _ => [])
      sample_env (Press (press "city_Дубай")) (fresh_world cities_to_visit ∅)
    = Some (Ok tt, w1)
    /\ fsm_state w1 = Some cities_to_visit
    /\ city_lists (fsm_data w1) sel1 oth1
    /\ ((lit "Дубай" ∈ sel1 /\ lit "Дубай" ∉ oth1)
        \/ ((lit "Дубай" ∉ sel1) /\ lit "Дубай" ∈ oth1))
    /\ dispatch ascii_decimal ascii_space (fun _ => None) [] (fun _ _ => [])
         sample_env (Press (press "city_Дубай")) w1
       = Some (Ok tt, w2)
    /\ fsm_state w2 = Some cities_to_visit
    /\ city_lists (fsm_data w2) [] []
    /\ (forall k, k <> lit "cities_to_visit" -> k <> lit "other_cities" ->
        fsm_data w2 !! k = fsm_data (fresh_world cities_to_visit ∅) !! k).
Proof.
  apply (city_toggle_twice ascii_decimal ascii_space (fun _ => None) [] (fun _ _ => [])
           sample_env sample_env (press "city_Дубай") (fresh_world cities_to_visit ∅)
           [] []).
  - reflexivity.
  - reflexivity.
  - vm_compute. discriminate.
  - vm_compute. discriminate.
  - split; reflexivity.
  - apply not_elem_of_nil.
  - apply not_elem_of_nil.
Defined.

Lemma city_done_rejected_iff_empty_witness :
  (dispatch ascii_decimal ascii_space (fun _ => None) [] (fun _ _ => [])
     sample_env (Press (press "city_done")) (fresh_world cities_to_visit ∅)
   = Some (Ok tt,
           with_sent
             [CallbackAnswer (Some (TGet (VStr (lit "en")) "select_at_least_one_city")) true]
             (fresh_world cities_to_visit ∅))
   <-> @nil str = [] /\ @nil str = [])
  /\ (~ (@nil str = [] /\ @nil str = []) ->
      exists w',
        dispatch ascii_decimal ascii_space (fun _ => None) [] (fun _ _ => [])
          sample_env (Press (press "city_done")) (fresh_world cities_to_visit ∅)
        = Some (Ok tt, w')
        /\ fsm_state w' = Some days
        /\ fsm_data w' = fsm_data (fresh_world cities_to_visit ∅)).
Proof.
  exact (city_done_rejected_iff_empty ascii_decimal ascii_space (fun _ => None) []
           (fun _ _ => []) sample_env (press "city_done")
           (fresh_world cities_to_visit ∅) [] []
           eq_refl eq_refl eq_refl (conj eq_refl eq_refl)).
Defined.

(** ** Custom numbers *)

Lemma custom_numbers_witness :
  exists w',
    dispatch ascii_decimal ascii_space (fun _ => None) [] (fun _ _ => [])
      sample_env (Msg (typed " 12 ")) (fresh_world other_days ∅)
    = Some (Ok tt, w')
    /\ number_taken "days" 12 people (fresh_world other_days ∅) w'.
Proof.
  destruct (custom_numbers ascii_decimal ascii_space (fun _ => None) []
              (fun _ _ => []) sample_env (typed " 12 ")
              (fresh_world other_days ∅)) as [Hdays _].
  - exists [], []. split; reflexivity.
  - reflexivity.
  - destruct (Hdays eq_refl) as (w' & Hrun & Htaken).
    exists w'. split; [exact Hrun|exact Htaken].
Defined.

(** ** The calendar *)

Lemma calendar_day_buttons_witness :
  exists kb,
    get_calendar_keyboard (fun _ => None) (today sample_env) 2026 11 VNone (VStr (lit "en"))
    = Ok kb
    /\ exists selected_dt header footer,
         kb = InlineKeyboard
                (header
                 ++ concat (map (map (day_button (today sample_env) selected_dt 2026 11))
                                (monthcalendar 2026 11))
                 ++ footer).
Proof.
  eexists. split; [reflexivity|].
  destruct (calendar_day_buttons ascii_decimal ascii_space (fun _ => None) []
              (fun _ _ => []) sample_env 2026 11 VNone (VStr (lit "en")) _
              ltac:(vm_compute; discriminate) eq_refl)
    as (selected_dt & header & footer & Hkb & _).
  exists selected_dt, header, footer. exact Hkb.
Defined.

(** ** Submission *)


(** ** Editing from the review *)

Lemma edit_returns_to_review_or_raises_witness :
  exists w',
    run ascii_decimal ascii_space (fun _ => None) [] (fun _ _ => [])
      [(sample_env, Press (press "edit_days"));
       (sample_env, Press (press "days_other"));
       (sample_env, Msg (typed "14"))]
      (fresh_world review sample_answers)
    = Some (Ok tt, w')
    /\ back_in_review ["days"%string] [("days"%string, VStr (lit "14"))]
         (fresh_world review sample_answers) w'.
Proof.
  destruct (edit_returns_to_review_or_raises ascii_decimal ascii_space (fun _ => None) []
              (fun _ _ => []) sample_env (press "edit_days") FDays
              [(sample_env, Press (press "days_other")); (sample_env, Msg (typed "14"))]
              [("days"%string, VStr (lit "14"))]
              (fresh_world review sample_answers))
    as (w' & Hrun & _ & Hback).
  - reflexivity.
  - exists [lit "Дубай"], []. split; reflexivity.
  - split; vm_compute; split; discriminate.
  - reflexivity.
  - apply (supplies_days_custom ascii_decimal ascii_space (fun _ => None)
             (fresh_world review sample_answers) sample_env (press "days_other")
             sample_env (typed "14") 14).
    + reflexivity.
    + reflexivity.
    + reflexivity.
    + reflexivity.
    + lia.
  - exists w'. split; [exact Hrun|exact Hback].
Defined.

(** C1. The edit menu cannot re-enter the phone and the current city. Their
    prompts come with a reply keyboard, which [edit_text] refuses: pressing
    either field in the review raises with the marker set and the step
    unchanged. The new value that the user sends next is then a message
    nobody waits for: it is deleted, and the stored phone and city stay.
    The handlers of the two steps do return to the review with the new
    value when they run with the marker set, and the days, whose prompt
    comes with an inline keyboard, are re-entered by the same menu. *)
Theorem edit_menu_refuses_phone_and_city :
  let handle :=
    dispatch ascii_decimal ascii_space (fun _ => None) [] (fun _ _ => []) sample_env in
  let w := fresh_world review sample_answers in
  let marked (name : str) :=
    with_data (<[lit "editing_field" := VStr name]> sample_answers) w in
  let ignored (m : message) (w1 : world) :=
    with_next_id 2
      (with_sent [DeleteMessage (VInt (message_id m));
                  Answer (TGet (VStr (lit "en")) "use_buttons") None] w1) in
  handle (Press (press "edit_phone")) w = Some (Raise ValidationError, marked (lit "phone"))
  /\ handle (Msg (typed "+7 900 123")) (marked (lit "phone"))
     = Some (Ok tt, ignored (typed "+7 900 123") (marked (lit "phone")))
  /\ handle (Press (press "edit_current_city")) w
     = Some (Raise ValidationError, marked (lit "current_city"))
  /\ handle (Msg (typed "Ufa")) (marked (lit "current_city"))
     = Some (Ok tt, ignored (typed "Ufa") (marked (lit "current_city")))
  /\ (exists w',
        handle (Msg (typed "+7 900 123")) (with_state (Some phone) (marked (lit "phone")))
        = Some (Ok tt, w')
        /\ fsm_state w' = Some review
        /\ fsm_data w' !! lit "phone" = Some (VStr (lit "+7900123")))
  /\ (exists w',
        handle (Msg (typed "Ufa"))
               (with_state (Some current_city) (marked (lit "current_city")))
        = Some (Ok tt, w')
        /\ fsm_state w' = Some review
        /\ fsm_data w' !! lit "current_city" = Some (VStr (lit "Ufa")))
  /\ handle (Press (press "edit_days")) w
     = Some (Ok tt,
             with_sent [EditText (TGet (VStr (lit "en")) "how_many_days")
                                 (Some (get_days_keyboard (VStr (lit "en"))));
                        CallbackAnswer None false]
               (with_state (Some days) (marked (lit "days")))).
Proof.
  cbv zeta. repeat apply conj.
  - vm_compute. reflexivity.
  - vm_compute. reflexivity.
  - vm_compute. reflexivity.
  - vm_compute. reflexivity.
  - eexists. split; [vm_compute; reflexivity|]. split; vm_compute; reflexivity.
  - eexists. split; [vm_compute; reflexivity|]. split; vm_compute; reflexivity.
  - vm_compute. reflexivity.
Qed.

(** ** The pending requests *)

(** C3. Marking again a request that is already processed reports success,
    stamps the entry anew, and the handler answers that the request was
    marked, where the specification expects the failure answer. *)
Theorem remarking_a_handled_request_succeeds :
  let w := stored_world (Some (Document (JArr [handled_request]))) None in
  mark_request_processed sample_env (lit "r1") 7 w
  = (Ok true,
     with_pending
       (Some (Document (JArr
          [JObj [(lit "id", JStr (lit "r1"));
                 (lit "status", JStr (lit "processed"));
                 (lit "created_at", JStr (lit "2026-11-01T09:00:00"));
                 (lit "payload", JObj []);
                 (lit "processed_by", JInt 7);
                 (lit "processed_at", JStr (now_iso sample_env))]]))) w)
  /\ sent (admin_mark_request_done [7] sample_env (press "admin_req_done_r1") w).2
     = [CallbackAnswer (Some (TLit "Request marked as processed ✅")) false;
        RenderAdminPanel []].
Proof. split; reflexivity. Qed.

(** ** The language file *)

(** C9. A language file that holds a JSON list, or that cannot be opened,
    makes [get_user_language] raise, where [load_pending_requests] gives the
    empty list on the same contents. *)
Theorem language_file_of_wrong_shape_raises :
  let listed := stored_world (Some (Document (JArr []))) (Some (Document (JArr []))) in
  let locked := stored_world (Some Unreadable) (Some Unreadable) in
  get_user_language 42 listed = (Raise AttributeError, listed)
  /\ get_user_language 42 locked = (Raise OSError, locked)
  /\ load_pending_requests listed = (Ok [], listed)
  /\ load_pending_requests locked = (Ok [], locked)
  /\ load_pending_requests (stored_world (Some (Document (JInt 3))) None)
     = (Ok [], stored_world (Some (Document (JInt 3))) None).
Proof. repeat split; reflexivity. Qed.

(** * The further statements at sample inputs

    As above, with user 7 as the only administrator where one is needed. *)

Lemma format_phone_number_idempotent_witness :
  format_phone_number ascii_decimal
    (Some (format_phone_number ascii_decimal (Some (lit "+7 (900) 123-45-67"))))
  = format_phone_number ascii_decimal (Some (lit "+7 (900) 123-45-67")).
Proof. apply format_phone_number_idempotent. reflexivity. Defined.

Lemma stored_number_reads_back_witness :
  typed_number ascii_decimal ascii_space (typed "12") = Some 12.
Proof.
  apply stored_number_reads_back; [|reflexivity].
  intros c Hc. unfold ascii_space.
  destruct (N.leb_spec 9 c), (N.leb_spec c 13), (N.leb_spec 28 c), (N.leb_spec c 32);
    try lia; reflexivity.
Defined.

Lemma extract_user_names_shape_witness :
  (extract_user_names ascii_space sample_profile).2 = lit "Aisha Karimova".
Proof.
  destruct (extract_user_names_shape ascii_space sample_profile eq_refl)
    as (_ & _ & Hfull).
  exact Hfull.
Defined.

Lemma truncate_label_fits_witness :
  Z.of_nat (length (truncate_label ascii_space (lit "  a very long name of a traveller  ") 10))
  <= 10.
Proof.
  apply (proj1 (truncate_label_fits ascii_space
                  (lit "  a very long name of a traveller  ") 10 ltac:(lia))).
Defined.

Lemma save_user_language_round_trip_witness :
  exists w',
    save_user_language 7 (lit "ru") (stored_world None sample_languages) = (Ok tt, w')
    /\ get_user_language 7 w' = (Ok (JStr (lit "ru")), w').
Proof.
  destruct (save_user_language_round_trip ascii_decimal ascii_space 7 (lit "ru")
              (stored_world None sample_languages) _ eq_refl)
    as (w' & Hsave & Hget & _).
  exists w'. split; [exact Hsave|exact Hget].
Defined.

Lemma process_language_selection_stores_witness :
  exists w',
    process_language_selection ascii_space (fun s => s) sample_profile
      (press "lang_select_de") (fresh_world lang_code ∅)
    = (Ok tt, w')
    /\ get_user_language 7 w' = (Ok (JStr (lit "de")), w').
Proof.
  destruct (process_language_selection_stores ascii_space (fun s => s) sample_profile
              (press "lang_select_de") (fresh_world lang_code ∅) [] eq_refl)
    as (w' & Hrun & Hget & _).
  exists w'. split; [exact Hrun|exact Hget].
Defined.

Lemma process_language_selection_fails_witness :
  process_language_selection ascii_space (fun s => s) sample_profile
    (press "lang_select_de") (stored_world None (Some (Document (JArr []))))
  = (Raise TypeError,
     with_data
       (<[lit "lang_code" := VStr (remove_all (lit "lang_select_") (lit "lang_select_de"))]>
          (<[lit "user_id" := VInt 7]> ∅))
       (stored_world None (Some (Document (JArr []))))).
Proof.
  exact (process_language_selection_fails ascii_space (fun s => s) sample_profile
           (press "lang_select_de") (stored_world None (Some (Document (JArr []))))
           eq_refl).
Defined.

Lemma cmd_start_resets_witness :
  exists w',
    cmd_start ascii_space 7 sample_profile (stored_world None sample_languages)
    = Some (Ok tt, w')
    /\ fsm_state w' = Some phone.
Proof.
  destruct (cmd_start_resets ascii_space 7 sample_profile
              (stored_world None sample_languages)
              [(lit "7", JStr (lit "de"))] (VStr (lit "de")) eq_refl eq_refl)
    as (w' & Hrun & _ & _ & _ & Hst & _).
  exists w'. split; [exact Hrun|exact Hst].
Defined.

Lemma commands_restart_witness :
  exists w',
    cmd_help 7 (typed "/help") (fresh_world days ∅) = Some (Ok tt, w')
    /\ fsm_state w' = None.
Proof.
  destruct (commands_restart 7 (typed "/help") (fresh_world days ∅) [] VNone
              eq_refl eq_refl)
    as ((w' & Hrun & Hst & _) & _).
  exists w'. split; [exact Hrun|exact Hst].
Defined.

Lemma added_request_is_found_witness :
  exists entry w',
    add_pending_request sample_env [] (stored_world sample_queue None) = (Ok entry, w')
    /\ get_pending_request_by_id (fresh_uuid sample_env) w' = (Ok (Some entry), w').
Proof.
  destruct (added_request_is_found sample_env [] (stored_world sample_queue None))
    as (entry & w' & Hadd & _ & _ & Hfound & _).
  - discriminate.
  - discriminate.
  - exists entry, w'. split; [exact Hadd|exact Hfound].
Defined.

Lemma admin_marks_request_witness :
  dispatch ascii_decimal ascii_space (fun _ => None) [7] (fun _ _ => [])
    sample_env (Press (press "admin_req_done_r2")) (stored_world sample_queue None)
  = Some (Ok tt,
          with_sent
            (sent (stored_world sample_queue None)
             ++ [CallbackAnswer (Some (TLit "Request marked as processed ✅")) false;
                 RenderAdminPanel ([new_request "r1"] ++ [])])
            (with_pending
               (Some (Document (JArr
                  ([new_request "r1"]
                   ++ JObj (stamped sample_env (cb_user (press "admin_req_done_r2"))
                              [(lit "id", JStr (lit "r2"));
                               (lit "status", JStr (lit "new"));
                               (lit "created_at", JStr (lit "2026-11-01T09:00:00"));
                               (lit "payload", JObj [])])
                   :: []))))
               (stored_world sample_queue None))).
Proof.
  apply (admin_marks_request ascii_decimal ascii_space (fun _ => None) [7]
           (fun _ _ => []) sample_env (press "admin_req_done_r2")
           (stored_world sample_queue None) (lit "r2") [new_request "r1"] []
           [new_request "r1"] []).
  - reflexivity.
  - reflexivity.
  - reflexivity.
  - repeat constructor. eexists. split; reflexivity.
  - reflexivity.
  - reflexivity.
  - reflexivity.
Defined.

Lemma admin_marks_missing_request_witness :
  dispatch ascii_decimal ascii_space (fun _ => None) [7] (fun _ _ => [])
    sample_env (Press (press "admin_req_done_r9")) (stored_world sample_queue None)
  = Some (Ok tt,
          with_sent
            (sent (stored_world sample_queue None)
             ++ [CallbackAnswer (Some (TLit "Request already handled or missing.")) true;
                 RenderAdminPanel [new_request "r1"; new_request "r2"]])
            (stored_world sample_queue None)).
Proof.
  apply (admin_marks_missing_request ascii_decimal ascii_space (fun _ => None) [7]
           (fun _ _ => []) sample_env (press "admin_req_done_r9")
           (stored_world sample_queue None) (lit "r9")
           [new_request "r1"; new_request "r2"] [new_request "r1"; new_request "r2"]).
  - reflexivity.
  - reflexivity.
  - reflexivity.
  - repeat constructor; eexists; split; reflexivity.
  - reflexivity.
Defined.

Lemma admin_buttons_refuse_others_witness :
  dispatch ascii_decimal ascii_space (fun _ => None) [] (fun _ _ => [])
    sample_env (Press (press "admin_req_done_r1")) (stored_world sample_queue None)
  = Some (Ok tt,
          with_sent
            (sent (stored_world sample_queue None)
             ++ [CallbackAnswer (Some (TLit "Not authorized")) true])
            (stored_world sample_queue None)).
Proof.
  apply admin_buttons_refuse_others.
  - reflexivity.
  - right. reflexivity.
Defined.

Lemma admin_views_request_witness :
  dispatch ascii_decimal ascii_space (fun _ => None) [7] (fun _ _ => [])
    sample_env (Press (press "admin_req_r2")) (stored_world sample_queue None)
  = Some (Ok tt,
          with_sent
            (sent (stored_world sample_queue None)
             ++ [ShowRequestDetails
                   (JObj [(lit "id", JStr (lit "r2"));
                          (lit "status", JStr (lit "new"));
                          (lit "created_at", JStr (lit "2026-11-01T09:00:00"));
                          (lit "payload", JObj [])])
                   (lit "r2");
                 CallbackAnswer None false])
            (stored_world sample_queue None)).
Proof.
  apply (proj1 (admin_views_request ascii_decimal ascii_space (fun _ => None) [7]
                  (fun _ _ => []) sample_env (press "admin_req_r2")
                  (stored_world sample_queue None) (lit "r2")
                  [new_request "r1"; new_request "r2"]
                  eq_refl eq_refl eq_refl eq_refl)
               [new_request "r1"]
               [(lit "id", JStr (lit "r2"));
                (lit "status", JStr (lit "new"));
                (lit "created_at", JStr (lit "2026-11-01T09:00:00"));
                (lit "payload", JObj [])]
               []).
  - reflexivity.
  - repeat constructor. eexists. split; reflexivity.
  - reflexivity.
  - discriminate.
Defined.

Lemma unexpected_message_changes_nothing_witness :
  dispatch ascii_decimal ascii_space (fun _ => None) [] (fun _ _ => [])
    sample_env (Msg (typed "hello")) (fresh_world days ∅)
  = Some (Ok tt,
          with_next_id (next_message_id (fresh_world days ∅) + 1)
            (with_sent
               (sent (fresh_world days ∅)
                ++ [DeleteMessage (VInt (message_id (typed "hello")));
                    Answer (TGet (get_or ∅ "lang_code" (VStr (lit "en"))) "use_buttons")
                           None])
               (fresh_world days ∅))).
Proof.
  exact (unexpected_message_changes_nothing ascii_decimal ascii_space (fun _ => None) []
           (fun _ _ => []) sample_env (typed "hello") (fresh_world days ∅)
           eq_refl eq_refl).
Defined.

Lemma calendar_arrows_witness :
  arrow_target true 2026 12 = (2027, 1)
  /\ exists kb,
       get_calendar_keyboard (fun _ => None) (today sample_env) 2027 1 VNone
         (VStr (lit "en")) = Ok kb
       /\ dispatch ascii_decimal ascii_space (fun _ => None) [] (fun _ _ => [])
            sample_env (Press (press "cal_next_2026_12")) (fresh_world start_date ∅)
          = Some (Ok tt,
                  with_sent
                    (sent (fresh_world start_date ∅)
                     ++ [EditReplyMarkup kb; CallbackAnswer None false])
                    (fresh_world start_date ∅)).
Proof.
  split; [reflexivity|]. eexists. split; [reflexivity|].
  destruct (calendar_arrows ascii_decimal ascii_space (fun _ => None) []
              (fun _ _ => []) sample_env (press "cal_next_2026_12")
              (fresh_world start_date ∅) true 2026 12 eq_refl ltac:(lia) eq_refl)
    as (_ & Hpress & _).
  exact Hpress.
Defined.

Lemma custom_city_added_once_witness :
  exists w',
    dispatch ascii_decimal ascii_space (fun _ => None) [] (fun _ _ => [])
      sample_env (Msg (typed " Baku ")) (fresh_world other_city ∅)
    = Some (Ok tt, w')
    /\ city_lists (fsm_data w') [] [lit "Baku"].
Proof.
  destruct (custom_city_added_once ascii_decimal ascii_space (fun _ => None) []
              (fun _ _ => []) sample_env (typed " Baku ") (fresh_world other_city ∅)
              [] [] (lit " Baku "))
    as (w' & Hrun & Hlists).
  - reflexivity.
  - split; reflexivity.
  - reflexivity.
  - reflexivity.
  - exists w'. split; [exact Hrun|exact (proj1 (proj2 Hlists))].
Defined.


Lemma confirm_merges_cities_witness :
  exists w',
    dispatch ascii_decimal ascii_space (fun _ => None) [] (fun _ _ => [])
      sample_env (Press (press "review_confirm"))
      (fresh_world review
         (entries_of [("cities_to_visit"%string, VList [lit "Дубай"]);
                      ("other_cities"%string, VList [lit "Baku"])]))
    = Some (Ok tt, w')
    /\ combine_cities (fsm_data w')
       = [VStr (lit "Дубай"); VStr (lit "Baku"); VStr (lit "Baku")].
Proof.
  destruct (confirm_merges_cities ascii_decimal ascii_space (fun _ => None) []
              (fun _ _ => []) sample_env (press "review_confirm")
              (fresh_world review
                 (entries_of [("cities_to_visit"%string, VList [lit "Дубай"]);
                              ("other_cities"%string, VList [lit "Baku"])]))
              [lit "Дубай"] [lit "Baku"] eq_refl eq_refl)
    as (w' & Hrun & _ & _ & _ & Hcombined).
  - split; vm_compute; reflexivity.
  - exists w'. split; [exact Hrun|exact Hcombined].
Defined.

Lemma phone_text_is_accepted_witness :
  exists d ds,
    format_phone_number ascii_decimal (message_phone ascii_space (typed "+7 900 123"))
    = 43%N :: d :: ds.
Proof.
  destruct (phone_text_is_accepted ascii_decimal ascii_space (fun _ => None) []
              (fun _ _ => []) sample_env (typed "+7 900 123") (fresh_world phone ∅))
    as (d & ds & Hphone & _).
  - intros c Hc. unfold is_decimal, ascii_decimal, ascii_space.
    destruct (N.leb_spec 48 c), (N.leb_spec c 57), (N.leb_spec 9 c), (N.leb_spec c 13),
             (N.leb_spec 28 c), (N.leb_spec c 32); try lia; split; reflexivity.
  - reflexivity.
  - reflexivity.
  - reflexivity.
  - exists d, ds. exact Hphone.
Defined.

Lemma current_city_opens_selection_witness :
  exists w',
    dispatch ascii_decimal ascii_space (fun _ => None) [] (fun _ _ => [])
      sample_env (Msg (typed "Kazan")) (fresh_world current_city ∅)
    = Some (Ok tt, w')
    /\ fsm_state w' = Some cities_to_visit.
Proof.
  destruct (current_city_opens_selection ascii_decimal ascii_space (fun _ => None) []
              (fun _ _ => []) sample_env (typed "Kazan") (fresh_world current_city ∅))
    as (w' & Hrun & Hres).
  - reflexivity.
  - reflexivity.
  - reflexivity.
  - reflexivity.
  - exists w'. split; [exact Hrun|exact (proj1 Hres)].
Defined.


Lemma notify_admins_reaches_everyone_witness :
  exists mention,
    notify_admins ascii_space [7; 8] ∅ (fresh_world referral_source ∅)
    = (Ok tt,
       with_sent
         (sent (fresh_world referral_source ∅)
          ++ [SendMessage 7 (TCat [TLit "📥 New request from "; mention]);
              SendMessage 8 (TCat [TLit "📥 New request from "; mention])])
         (fresh_world referral_source ∅)).
Proof.
  destruct (notify_admins_reaches_everyone ascii_space [7; 8] ∅
              (fresh_world referral_source ∅))
    as (mention & _ & Hsent).
  - intros v Hv. discriminate Hv.
  - exists mention. exact Hsent.
Defined.
